(** * BizFlow order lifecycle: a shallow embedding of the order service

  The development follows [services/order_service.py] and the models it
  drives ([infrastructure/models/customer.py], [inventory.py],
  [product.py], [order.py], [bookkeeping.py], [user.py]).

  - Python [Decimal] values are a coefficient and a number of fractional
    digits; [float] values are binary64 numbers, with the operations of
    [SpecFloat] at precision 53.
  - The database is a record of tables.  Rows keep the columns the
    service reads or writes; free text (names, messages, descriptions)
    is left out, except the order notes, which [cancel_order] edits.
  - A [Numeric(15, s)] column keeps [s] fractional digits of the number
    bound to it.  How it rounds belongs to the database, so the two
    conversions (of a float, of a [Decimal]) are parameters of the
    service, and the facts that depend on them name what they assume
    ([float_column], [decimal_column]).
  - A service call runs in a state-and-exception monad over a pair of
    table sets: what the SQLAlchemy session sees, and what was last
    committed.  A raised exception keeps the session as it stood. *)

From Stdlib Require Import ZArith QArith Qminmax Qabs Qpower List Bool Lia.
From Stdlib Require Import Floats.SpecFloat.
From stdpp Require Import gmap strings.

Local Open Scope Z_scope.

(** ** Python [Decimal] *)

Module Dec.

(** [Decimal('12.50')] is [{| coef := 1250; scale := 2 |}]: the value is
    [coef / 10 ^ scale].  Within the 28 significant digits of the default
    context, which the 15-digit columns of the schema stay inside,
    addition, subtraction and multiplication are exact. *)
Record Decimal := mk { coef : Z; scale : nat }.

(** [Decimal('0')] *)
Definition zero : Decimal := mk 0 0.

(** The coefficient of [a] once written with [s] fractional digits. *)
Definition align (a : Decimal) (s : nat) : Z :=
  coef a * 10 ^ Z.of_nat (s - scale a).

Definition add (a b : Decimal) : Decimal :=
  let s := Nat.max (scale a) (scale b) in mk (align a s + align b s) s.

Definition sub (a b : Decimal) : Decimal :=
  let s := Nat.max (scale a) (scale b) in mk (align a s - align b s) s.

Definition mul (a b : Decimal) : Decimal :=
  mk (coef a * coef b) (scale a + scale b).

Definition compare (a b : Decimal) : comparison :=
  let s := Nat.max (scale a) (scale b) in Z.compare (align a s) (align b s).

Definition ltb (a b : Decimal) : bool :=
  match compare a b with Lt => true | _ => false end.

Definition leb (a b : Decimal) : bool :=
  match compare a b with Gt => false | _ => true end.

(** [d == 0], and the truth value [bool(d)] is its negation. *)
Definition is_zero (d : Decimal) : bool := coef d =? 0.

(** The builtin [max(a, b)]: the first argument stays unless the second
    is strictly greater. *)
Definition max (a b : Decimal) : Decimal := if ltb a b then b else a.

(** The rational number a [Decimal] denotes. *)
Definition value (d : Decimal) : Q :=
  inject_Z (coef d) / inject_Z (10 ^ Z.of_nat (scale d)).

(** [d] is a whole number of units of [10 ^ -s]: a column with [s]
    fractional digits holds it as it is. *)
Definition fits (s : nat) (d : Decimal) : Prop :=
  exists n : Z, (value d == inject_Z n / inject_Z (10 ^ Z.of_nat s))%Q.

End Dec.

Abbreviation Decimal := Dec.Decimal.

(** ** Python numbers that are an [int] or a [Decimal] *)

Module Py.

Inductive number :=
| int (z : Z)
| decimal (d : Decimal).

Definition value (n : number) : Q :=
  match n with
  | int z => inject_Z z
  | decimal d => Dec.value d
  end.

End Py.

(** ** Python [float] *)

Module Float.

(** binary64 *)
Definition float := spec_float.
Definition prec : Z := 53.
Definition emax : Z := 1024.

Definition mul : float -> float -> float := SFmul prec emax.
Definition neg : float -> float := SFopp.

(** [float(d)] for a [Decimal]: the quotient [coef / 10 ^ scale],
    rounded once to the nearest binary64 number, ties to even. *)
Definition of_decimal (d : Decimal) : float :=
  let den := S754_finite false (Z.to_pos (10 ^ Z.of_nat (Dec.scale d))) 0 in
  match Dec.coef d with
  | Z0 => S754_zero false
  | Zpos m => SFdiv prec emax (S754_finite false m 0) den
  | Zneg m => SFdiv prec emax (S754_finite true m 0) den
  end.

(** The rational number a finite float denotes. *)
Definition value (f : float) : option Q :=
  match f with
  | S754_zero _ => Some 0%Q
  | S754_finite s m e =>
      Some (inject_Z (if s then Z.neg m else Z.pos m) * Qpower 2 e)%Q
  | S754_infinity _ | S754_nan => None
  end.

(** [q < f] for an exact number of value [q] and a float [f] that is not
    NaN: Python compares the two exact values. *)
Definition exact_lt (q : Q) (f : float) : bool :=
  match f with
  | S754_nan => false
  | S754_infinity s => negb s
  | S754_zero _ => negb (Qle_bool 0 q)
  | S754_finite s m e =>
      negb (Qle_bool
              (inject_Z (if s then Z.neg m else Z.pos m) * Qpower 2 e) q)
  end.

(** [n < f] for an [int] or [Decimal] [n] and a float [f].  Against NaN an
    [int] compares false, and a [Decimal] raises
    [decimal.InvalidOperation], rendered here as [None]. *)
Definition number_lt (n : Py.number) (f : float) : option bool :=
  match n, f with
  | Py.decimal _, S754_nan => None
  | _, _ => Some (exact_lt (Py.value n) f)
  end.

(** [0 < f] and [f < 0] on floats. *)
Definition positive (f : float) : bool := SFltb (S754_zero false) f.
Definition negative (f : float) : bool := SFltb f (S754_zero false).

End Float.

Abbreviation float := Float.float.

(** ** Enumerations and exceptions ([domain/constants.py],
    [domain/exceptions.py]) *)

Inductive Role := ADMIN | OWNER | EMPLOYEE.

Inductive OrderStatus := NEW | CONFIRMED | COMPLETED | CANCELED.

Inductive TransactionType :=
| REVENUE | EXPENSE | DEBT_IN | DEBT_OUT
| PAYMENT_IN | PAYMENT_OUT | INVENTORY_IN | INVENTORY_OUT.

(** The exception classes the service raises.  [AttributeError] (an
    attribute read on [None]) and [InvalidOperation] (from [decimal]) are
    Python's own, [IntegrityError] is SQLAlchemy's (a flush that breaks a
    unique constraint); the others derive from [BizFlowException]. *)
Inductive Error :=
| AuthorizationError
| ValidationError
| NotFoundError
| InsufficientStockError
| InsufficientBalanceError
| OrderAlreadyConfirmedError
| AttributeError
| InvalidOperation
| IntegrityError.

#[global] Instance Role_eq_dec : EqDecision Role.
Proof. solve_decision. Defined.
#[global] Instance OrderStatus_eq_dec : EqDecision OrderStatus.
Proof. solve_decision. Defined.

(** ** Rows *)

Module User.
Record t := mk
  { id : Z;
    role : Role;
    store_id : option Z;        (* the store an employee works at *)
    owned_stores : list Z }.    (* ids of the stores an owner owns *)

Definition is_admin (self : t) : bool := bool_decide (role self = ADMIN).
Definition is_owner (self : t) : bool := bool_decide (role self = OWNER).
Definition is_employee (self : t) : bool := bool_decide (role self = EMPLOYEE).

Definition can_access_store (self : t) (store : Z) : bool :=
  if is_admin self then true
  else if is_owner self then existsb (fun s => s =? store) (owned_stores self)
  else if is_employee self then
    match store_id self with Some s => s =? store | None => false end
  else false.
End User.

Module Customer.
Record t := mk
  { store_id : Z;
    debt_balance : Decimal;
    debt_limit : option Decimal }.   (* 0 = no limit *)

Definition can_add_debt (self : t) (amount : Decimal) : bool :=
  match debt_limit self with
  | None => true
  | Some limit =>
      if Dec.is_zero limit then true
      else Dec.leb (Dec.add (debt_balance self) amount) limit
  end.

Definition add_debt (self : t) (amount : Decimal) : t :=
  mk (store_id self) (Dec.add (debt_balance self) amount) (debt_limit self).

Definition reduce_debt (self : t) (amount : Decimal) : t :=
  mk (store_id self)
     (Dec.max Dec.zero (Dec.sub (debt_balance self) amount))
     (debt_limit self).
End Customer.

Module InventoryTransaction.
Record t := mk
  { store_id : Z;
    product_id : Z;
    product_unit_id : option Z;
    qty_change : Decimal;        (* Numeric(15, 4); positive = stock in *)
    ref_type : option string;
    ref_id : option Z;
    created_by_user_id : Z }.
End InventoryTransaction.

(** [db.func.sum] over a list of selected [qty_change] values: SQL's [SUM]
    is [NULL] over no row. *)
Definition sql_sum (l : list Decimal) : option Decimal :=
  match l with
  | [] => None
  | d :: l' => Some (fold_left Dec.add l' d)
  end.

(** [get_product_stock] of [inventory.py], over the movement table. *)
Definition get_product_stock (txs : list InventoryTransaction.t)
    (store_id product_id : Z) : Decimal :=
  let result :=
    sql_sum (map InventoryTransaction.qty_change
               (filter (fun tx =>
                          InventoryTransaction.store_id tx = store_id /\
                          InventoryTransaction.product_id tx = product_id) txs)) in
  match result with
  | Some r => if Dec.is_zero r then Dec.zero else r
  | None => Dec.zero
  end.

Module Product.
Record t := mk
  { store_id : Z;
    is_active : bool }.

(** The [current_stock] property of the product whose primary key is
    [self_id].  It ends in [result or 0]: the sum when there is one and it
    is not zero, the integer [0] otherwise. *)
Definition current_stock (txs : list InventoryTransaction.t) (self_id : Z)
    : Py.number :=
  let result :=
    sql_sum (map InventoryTransaction.qty_change
               (filter (fun tx => InventoryTransaction.product_id tx = self_id)
                  txs)) in
  match result with
  | Some r => if Dec.is_zero r then Py.int 0 else Py.decimal r
  | None => Py.int 0
  end.
End Product.

Module ProductUnit.
Record t := mk
  { product_id : Z;
    price : Decimal;                (* Numeric(15, 2) *)
    conversion_factor : Decimal }.  (* Numeric(10, 4) *)
End ProductUnit.

Module OrderDetail.
Record t := mk
  { order_id : Z;
    product_id : Z;
    product_unit_id : Z;
    quantity : Decimal;      (* Numeric(15, 4) *)
    unit_price : Decimal;
    discount : Decimal;
    line_total : Decimal }.
End OrderDetail.

(** [f"ORD{store_id:03d}{today:%y%m%d}{count + 1:04d}"], kept as its three
    components: for store ids below 1000 and sequence numbers below 10000
    two numbers of one century are the same string exactly when their
    components agree. *)
Record OrderNumber := { on_store : Z; on_day : Z; on_seq : Z }.

#[global] Instance OrderNumber_eq_dec : EqDecision OrderNumber.
Proof. solve_decision. Defined.

Module Order.
Record t := mk
  { store_id : Z;
    customer_id : option Z;
    order_number : OrderNumber;
    status : OrderStatus;
    is_credit : bool;
    total_amount : Decimal;
    paid_amount : Decimal;
    notes : option string;
    created_by_user_id : Z;
    confirmed_at : option Z;
    confirmed_by_user_id : option Z;
    source_draft_order_id : option Z;
    created_at : Z }.

Definition remaining_amount (self : t) : Decimal :=
  Dec.sub (total_amount self) (paid_amount self).

Definition with_status (self : t) (s : OrderStatus) : t :=
  mk (store_id self) (customer_id self) (order_number self) s
     (is_credit self) (total_amount self) (paid_amount self) (notes self)
     (created_by_user_id self) (confirmed_at self) (confirmed_by_user_id self)
     (source_draft_order_id self) (created_at self).

(** [utcnow] is the reading of [datetime.utcnow()]. *)
Definition confirm (self : t) (user_id : Z) (utcnow : Z) : t :=
  mk (store_id self) (customer_id self) (order_number self) CONFIRMED
     (is_credit self) (total_amount self) (paid_amount self) (notes self)
     (created_by_user_id self) (Some utcnow) (Some user_id)
     (source_draft_order_id self) (created_at self).

Definition complete (self : t) : t := with_status self COMPLETED.

Definition cancel (self : t) : t := with_status self CANCELED.

Definition with_notes (self : t) (n : option string) : t :=
  mk (store_id self) (customer_id self) (order_number self) (status self)
     (is_credit self) (total_amount self) (paid_amount self) n
     (created_by_user_id self) (confirmed_at self) (confirmed_by_user_id self)
     (source_draft_order_id self) (created_at self).

Definition with_amounts (self : t) (total paid : Decimal) : t :=
  mk (store_id self) (customer_id self) (order_number self) (status self)
     (is_credit self) total paid (notes self)
     (created_by_user_id self) (confirmed_at self) (confirmed_by_user_id self)
     (source_draft_order_id self) (created_at self).
End Order.

Module BookkeepingEntry.
Record t := mk
  { store_id : Z;
    entry_type : TransactionType;
    ref_type : string;
    ref_id : Z;
    amount : Decimal;
    entry_date : Z;
    created_by_user_id : Z }.
End BookkeepingEntry.

(** [today] is the reading of [date.today()]. *)
Definition create_revenue_entry (store_id order_id : Z) (amount : Decimal)
    (user_id today : Z) : BookkeepingEntry.t :=
  BookkeepingEntry.mk store_id REVENUE "order" order_id amount today user_id.

Definition create_debt_entry (store_id order_id : Z) (amount : Decimal)
    (user_id today : Z) : BookkeepingEntry.t :=
  BookkeepingEntry.mk store_id DEBT_IN "order" order_id amount today user_id.

(** ** The database and the session *)

Record Tables := mkTables
  { orders : gmap Z Order.t;
    next_order_id : Z;                 (* the autoincrement counter *)
    order_details : list OrderDetail.t;
    products : gmap Z Product.t;
    product_units : gmap Z ProductUnit.t;
    customers : gmap Z Customer.t;
    inventory_transactions : list InventoryTransaction.t;
    bookkeeping_entries : list BookkeepingEntry.t }.

(** [session] is what queries of the running request read and what
    [db.session.add] and attribute writes change; [committed] is the state
    as of the last [db.session.commit()]. *)
Record World := mkWorld { session : Tables; committed : Tables }.

Inductive Outcome (A : Type) :=
| Returned (a : A)
| Raised (e : Error).
Arguments Returned {A} a.
Arguments Raised {A} e.

Definition Session (A : Type) : Type := World -> Outcome A * World.

Definition ret {A} (a : A) : Session A := fun w => (Returned a, w).

Definition raise {A} (e : Error) : Session A := fun w => (Raised e, w).

Definition bind {A B} (c : Session A) (k : A -> Session B) : Session B :=
  fun w =>
    match c w with
    | (Returned a, w') => k a w'
    | (Raised e, w') => (Raised e, w')
    end.

Notation "'let*' x ':=' c 'in' k" := (bind c (fun x => k))
  (at level 10, x pattern, c at level 100, k at level 200).

(** A query: a read of the session's tables. *)
Definition query {A} (f : Tables -> A) : Session A :=
  fun w => (Returned (f (session w)), w).

(** A write to the session's tables. *)
Definition update (f : Tables -> Tables) : Session unit :=
  fun w => (Returned tt, mkWorld (f (session w)) (committed w)).

(** [db.session.commit()] *)
Definition commit : Session unit :=
  fun w => (Returned tt, mkWorld (session w) (session w)).

(** [for x in l: body(x)] *)
Fixpoint for_each {A} (body : A -> Session unit) (l : list A) : Session unit :=
  match l with
  | [] => ret tt
  | x :: l' => let* _ := body x in for_each body l'
  end.

(** A [for] loop that carries an accumulator ([total += ...]). *)
Fixpoint for_fold {A S} (body : S -> A -> Session S) (acc : S) (l : list A)
    : Session S :=
  match l with
  | [] => ret acc
  | x :: l' => let* acc' := body acc x in for_fold body acc' l'
  end.

(** Table writes. *)
Definition set_orders (f : gmap Z Order.t -> gmap Z Order.t) (t : Tables)
    : Tables :=
  mkTables (f (orders t)) (next_order_id t) (order_details t) (products t)
    (product_units t) (customers t) (inventory_transactions t)
    (bookkeeping_entries t).

Definition set_customers (f : gmap Z Customer.t -> gmap Z Customer.t)
    (t : Tables) : Tables :=
  mkTables (orders t) (next_order_id t) (order_details t) (products t)
    (product_units t) (f (customers t)) (inventory_transactions t)
    (bookkeeping_entries t).

Definition add_inventory_transaction (tx : InventoryTransaction.t)
    (t : Tables) : Tables :=
  mkTables (orders t) (next_order_id t) (order_details t) (products t)
    (product_units t) (customers t) (inventory_transactions t ++ [tx])
    (bookkeeping_entries t).

Definition add_bookkeeping_entry (e : BookkeepingEntry.t) (t : Tables)
    : Tables :=
  mkTables (orders t) (next_order_id t) (order_details t) (products t)
    (product_units t) (customers t) (inventory_transactions t)
    (bookkeeping_entries t ++ [e]).

Definition add_order_detail (d : OrderDetail.t) (t : Tables) : Tables :=
  mkTables (orders t) (next_order_id t) (order_details t ++ [d]) (products t)
    (product_units t) (customers t) (inventory_transactions t)
    (bookkeeping_entries t).

(** The insert of an order row: the row takes the next primary key. *)
Definition add_order (o : Order.t) (t : Tables) : Tables :=
  mkTables (<[next_order_id t := o]> (orders t)) (next_order_id t + 1)
    (order_details t) (products t) (product_units t) (customers t)
    (inventory_transactions t) (bookkeeping_entries t).

(** [order.items.all()] *)
Definition order_items (t : Tables) (order_id : Z) : list OrderDetail.t :=
  filter (fun d => OrderDetail.order_id d = order_id) (order_details t).

(** [order.customer]: the row the foreign key points to, or [None]. *)
Definition order_customer (t : Tables) (o : Order.t) : option Customer.t :=
  match Order.customer_id o with
  | Some cid => customers t !! cid
  | None => None
  end.

(** A relationship read that Python then dereferences: a missing row is
    [None], and the attribute read on it raises. *)
Definition deref {A} (r : option A) : Session A :=
  match r with
  | Some a => ret a
  | None => raise AttributeError
  end.

(** The two clock reads of a request: [datetime.utcnow()] in seconds,
    [date.today()] as a day number. *)
Record Clock := { utcnow : Z; today : Z }.

(** [db.func.date(Order.created_at)], with [created_at] in seconds. *)
Definition date_of (timestamp : Z) : Z := timestamp / 86400.

Definition generate_order_number (t : Tables) (clock : Clock) (store_id : Z)
    : OrderNumber :=
  let count :=
    length (filter (fun kv : Z * Order.t =>
                      Order.store_id kv.2 = store_id /\
                      date_of (Order.created_at kv.2) = today clock)
              (map_to_list (orders t))) in
  {| on_store := store_id; on_day := today clock;
     on_seq := Z.of_nat count + 1 |}.

(** [orders.order_number] is declared [unique=True]: a flush that would
    insert a second row with the number [number] fails. *)
Definition order_number_taken (t : Tables) (number : OrderNumber) : bool :=
  existsb (fun kv : Z * Order.t =>
             bool_decide (Order.order_number kv.2 = number))
    (map_to_list (orders t)).

(** [db.session.add(order); db.session.flush()]: the insert fails when
    the order number is taken; otherwise the row takes the next primary
    key, which the call reads back as [order.id]. *)
Definition flush_order (o : Order.t) : Session Z :=
  let* taken := query (fun t => order_number_taken t (Order.order_number o)) in
  if taken then raise IntegrityError
  else
    let* order_id := query next_order_id in
    let* _ := update (add_order o) in
    ret order_id.

(** ** The order service ([services/order_service.py]) *)

Module OrderService.

(** One element of the [items] list of a creation request, its numbers
    already read by [Decimal(str(...))]; [unit_price] and [discount] are
    optional keys. *)
Record Item := mkItem
  { product_unit_id : Z;
    quantity : Decimal;
    unit_price : option Decimal;
    discount : option Decimal }.

Section Service.

(** The value a [Numeric(15, 4)] column takes when a Python float is bound
    to it.  The conversion belongs to the database driver and the server,
    not to the repository. *)
Variable numeric_of_float : float -> Decimal.

(** The value a [Numeric(15, s)] column takes when a Python [Decimal] is
    bound to it: the database keeps [s] fractional digits.  How it rounds
    is the server's affair (MySQL in production, SQLite in the tests), so
    the conversion is a parameter here too; values are taken to stay
    inside the fifteen digits of the columns. *)
Variable numeric : nat -> Decimal -> Decimal.

Variable clock : Clock.

(** The body of the loop over [items] in [create_order].  The line is
    stored with the column values of its numbers ([quantity] is
    [Numeric(15, 4)], the three amounts [Numeric(15, 2)]); the running
    [total] adds the [line_total] Python computed. *)
Definition add_item (store_id order_id : Z) (total : Decimal) (item : Item)
    : Session Decimal :=
  let* product_unit := query (fun t => product_units t !! product_unit_id item) in
  match product_unit with
  | None => raise NotFoundError
  | Some product_unit =>
      let* product :=
        (let* r := query (fun t =>
                     products t !! ProductUnit.product_id product_unit) in
         deref r) in
      if negb (Product.store_id product =? store_id) then raise ValidationError
      else
        let quantity := quantity item in
        let unit_price :=
          default (ProductUnit.price product_unit) (unit_price item) in
        let discount := default Dec.zero (discount item) in
        let line_total := Dec.sub (Dec.mul quantity unit_price) discount in
        let order_detail :=
          OrderDetail.mk order_id (ProductUnit.product_id product_unit)
            (product_unit_id item) (numeric 4%nat quantity)
            (numeric 2%nat unit_price) (numeric 2%nat discount)
            (numeric 2%nat line_total) in
        let* _ := update (add_order_detail order_detail) in
        ret (Dec.add total line_total)
  end.

Definition create_order (store_id : Z) (items : list Item)
    (current_user : User.t) (customer_id : option Z) (is_credit : bool)
    (notes : option string) (source_draft_order_id : option Z)
    : Session (Z * Order.t) :=
  if negb (User.can_access_store current_user store_id)
  then raise AuthorizationError
  else
    (* Validate customer if provided *)
    let* customer :=
      match customer_id with
      | Some cid =>
          if cid =? 0 then ret None
          else
            let* found := query (fun t =>
              match customers t !! cid with
              | Some c =>
                  if Customer.store_id c =? store_id then Some c else None
              | None => None
              end) in
            match found with
            | None => raise NotFoundError
            | Some c => ret (Some c)
            end
      | None => ret None
      end in
    (* Credit sale requires customer *)
    if is_credit && negb (bool_decide (is_Some customer))
    then raise ValidationError
    else
      let* number := query (fun t => generate_order_number t clock store_id) in
      let order :=
        Order.mk store_id customer_id number NEW is_credit Dec.zero Dec.zero
          notes (User.id current_user) None None source_draft_order_id
          (utcnow clock) in
      let* order_id := flush_order order in
      (* Add order items *)
      let* total := for_fold (add_item store_id order_id) Dec.zero items in
      (* total_amount and paid_amount are Numeric(15, 2) *)
      let total := numeric 2%nat total in
      let order :=
        Order.with_amounts order total
          (if is_credit then Order.paid_amount order else total) in
      let* _ := update (set_orders (insert order_id order)) in
      let* _ := commit in
      ret (order_id, order).

(** [float(item.quantity) * float(item.product_unit.conversion_factor)] *)
Definition qty_base (item : OrderDetail.t) (product_unit : ProductUnit.t)
    : float :=
  Float.mul (Float.of_decimal (OrderDetail.quantity item))
    (Float.of_decimal (ProductUnit.conversion_factor product_unit)).

(** [item.product_unit] *)
Definition item_product_unit (item : OrderDetail.t)
    : Session ProductUnit.t :=
  let* r := query (fun t => product_units t !! OrderDetail.product_unit_id item) in
  deref r.

(** The body of the loop "Check stock availability". *)
Definition check_stock (item : OrderDetail.t) : Session unit :=
  let* _ :=
    (let* r := query (fun t => products t !! OrderDetail.product_id item) in
     deref r) in
  let* current_stock := query (fun t =>
    Product.current_stock (inventory_transactions t)
      (OrderDetail.product_id item)) in
  let* product_unit := item_product_unit item in
  let required := qty_base item product_unit in
  match Float.number_lt current_stock required with
  | None => raise InvalidOperation
  | Some true => raise InsufficientStockError
  | Some false => ret tt
  end.

(** The body of the loop "Deduct inventory". *)
Definition deduct_stock (order_id : Z) (order : Order.t)
    (current_user : User.t) (item : OrderDetail.t) : Session unit :=
  let* product_unit := item_product_unit item in
  let qty_base := qty_base item product_unit in
  update (add_inventory_transaction
    (InventoryTransaction.mk (Order.store_id order)
       (OrderDetail.product_id item) (Some (OrderDetail.product_unit_id item))
       (numeric_of_float (Float.neg qty_base))   (* Negative = stock out *)
       (Some "order") (Some order_id) (User.id current_user))).

Definition confirm_order (order_id : Z) (current_user : User.t)
    : Session Order.t :=
  let* order := query (fun t => orders t !! order_id) in
  match order with
  | None => raise NotFoundError
  | Some order =>
      if negb (User.can_access_store current_user (Order.store_id order))
      then raise AuthorizationError
      else if negb (bool_decide (Order.status order = NEW))
      then raise OrderAlreadyConfirmedError
      else
        let* items := query (fun t => order_items t order_id) in
        (* Check stock availability *)
        let* _ := for_each check_stock items in
        (* Deduct inventory *)
        let* _ := for_each (deduct_stock order_id order current_user) items in
        (* Create bookkeeping entries *)
        let* _ :=
          if Order.is_credit order then
            (* Credit sale -> debt entry *)
            let* _ := update (add_bookkeeping_entry
              (create_debt_entry (Order.store_id order) order_id
                 (Order.total_amount order) (User.id current_user)
                 (today clock))) in
            (* Update customer debt balance *)
            let* customer := query (fun t => order_customer t order) in
            match customer, Order.customer_id order with
            | Some customer, Some cid =>
                update (set_customers (insert cid
                  (Customer.add_debt customer (Order.total_amount order))))
            | _, _ => ret tt
            end
          else
            (* Cash sale -> revenue entry *)
            update (add_bookkeeping_entry
              (create_revenue_entry (Order.store_id order) order_id
                 (Order.total_amount order) (User.id current_user)
                 (today clock))) in
        (* Confirm order *)
        let order := Order.confirm order (User.id current_user) (utcnow clock) in
        let* _ := update (set_orders (insert order_id order)) in
        let* _ := commit in
        ret order
  end.

(** The body of the loop "Restore inventory if already confirmed". *)
Definition restore_stock (order_id : Z) (order : Order.t)
    (current_user : User.t) (item : OrderDetail.t) : Session unit :=
  let* product_unit := item_product_unit item in
  let qty_base := qty_base item product_unit in
  update (add_inventory_transaction
    (InventoryTransaction.mk (Order.store_id order)
       (OrderDetail.product_id item) (Some (OrderDetail.product_unit_id item))
       (numeric_of_float qty_base)   (* Positive = stock in (restore) *)
       (Some "order_cancel") (Some order_id) (User.id current_user))).

(** [(order.notes or '') + f"\nLý do hủy: {reason}"] *)
Definition cancel_notes (notes : option string) (reason : string) : string :=
  default "" notes +:+ "
Lý do hủy: " +:+ reason.

Definition cancel_order (order_id : Z) (current_user : User.t)
    (reason : option string) : Session Order.t :=
  let* order := query (fun t => orders t !! order_id) in
  match order with
  | None => raise NotFoundError
  | Some order =>
      if negb (User.can_access_store current_user (Order.store_id order))
      then raise AuthorizationError
      else if bool_decide (Order.status order = COMPLETED)
      then raise ValidationError
      else
        let* _ :=
          if bool_decide (Order.status order = CONFIRMED) then
            (* Restore inventory if already confirmed *)
            let* items := query (fun t => order_items t order_id) in
            let* _ :=
              for_each (restore_stock order_id order current_user) items in
            (* Restore customer debt if credit sale *)
            let* customer := query (fun t => order_customer t order) in
            match Order.is_credit order, customer, Order.customer_id order with
            | true, Some customer, Some cid =>
                update (set_customers (insert cid
                  (Customer.reduce_debt customer (Order.total_amount order))))
            | _, _, _ => ret tt
            end
          else ret tt in
        let order := Order.cancel order in
        let order :=
          match reason with
          | Some r =>
              if bool_decide (r = "") then order
              else Order.with_notes order (Some (cancel_notes (Order.notes order) r))
          | None => order
          end in
        let* _ := update (set_orders (insert order_id order)) in
        let* _ := commit in
        ret order
  end.

End Service.
End OrderService.

(** ** What the loops of the service compute, line by line *)

(** The tables with [new] movements appended. *)
Definition with_movements (t : Tables) (new : list InventoryTransaction.t)
    : Tables :=
  mkTables (orders t) (next_order_id t) (order_details t) (products t)
    (product_units t) (customers t) (inventory_transactions t ++ new)
    (bookkeeping_entries t).

(** The tables with [new] order lines appended. *)
Definition with_details (t : Tables) (new : list OrderDetail.t) : Tables :=
  mkTables (orders t) (next_order_id t) (order_details t ++ new) (products t)
    (product_units t) (customers t) (inventory_transactions t)
    (bookkeeping_entries t).

(** The base-unit quantity of a line as [confirm_order] and [cancel_order]
    compute it, when the line's unit row exists. *)
Definition required (t : Tables) (item : OrderDetail.t) : option float :=
  OrderService.qty_base item <$>
    product_units t !! OrderDetail.product_unit_id item.

(** The verdict of the stock check on one line: [Some true] when the
    product's current stock is below the requirement, [Some false] when it
    covers it, [None] when the check cannot be evaluated (a dangling
    reference, or a NaN requirement). *)
Definition stock_verdict (t : Tables) (item : OrderDetail.t) : option bool :=
  match products t !! OrderDetail.product_id item, required t item with
  | Some _, Some r =>
      Float.number_lt
        (Product.current_stock (inventory_transactions t)
           (OrderDetail.product_id item)) r
  | _, _ => None
  end.



(** The current stock of the line's product covers its requirement, of
    value [v]. *)
Definition line_covered (t : Tables) (item : OrderDetail.t) : Prop :=
  exists p pu v,
    products t !! OrderDetail.product_id item = Some p
    /\ product_units t !! OrderDetail.product_unit_id item = Some pu
    /\ Float.value (OrderService.qty_base item pu) = Some v
    /\ (v <= Py.value (Product.current_stock (inventory_transactions t)
                         (OrderDetail.product_id item)))%Q.

(** [tx] is the movement written for [item] with the float [qty] bound to
    its [qty_change] column. *)
Definition movement_for (numeric_of_float : float -> Decimal)
    (ref : string) (order_id : Z) (order : Order.t) (user : User.t)
    (item : OrderDetail.t) (qty : float) (tx : InventoryTransaction.t)
    : Prop :=
  tx = InventoryTransaction.mk (Order.store_id order)
         (OrderDetail.product_id item)
         (Some (OrderDetail.product_unit_id item))
         (numeric_of_float qty) (Some ref) (Some order_id) (User.id user).

(** The row [create_order] writes for a request line whose unit row is
    [pu]. *)
Definition detail_of (numeric : nat -> Decimal -> Decimal) (order_id : Z)
    (item : OrderService.Item) (pu : ProductUnit.t) : OrderDetail.t :=
  let unit_price :=
    default (ProductUnit.price pu) (OrderService.unit_price item) in
  let discount := default Dec.zero (OrderService.discount item) in
  OrderDetail.mk order_id (ProductUnit.product_id pu)
    (OrderService.product_unit_id item)
    (numeric 4%nat (OrderService.quantity item))
    (numeric 2%nat unit_price) (numeric 2%nat discount)
    (numeric 2%nat
       (Dec.sub (Dec.mul (OrderService.quantity item) unit_price) discount)).

(** The [line_total] Python computes for a request line whose unit row is
    [pu], before any column holds it. *)
Definition item_total (item : OrderService.Item) (pu : ProductUnit.t)
    : Decimal :=
  Dec.sub
    (Dec.mul (OrderService.quantity item)
       (default (ProductUnit.price pu) (OrderService.unit_price item)))
    (default Dec.zero (OrderService.discount item)).

(** The running [total] of [create_order] after the lines [items], from
    [start]. *)
Definition request_total (t : Tables) (items : list OrderService.Item)
    (start : Decimal) : Decimal :=
  fold_left
    (fun acc item =>
       match product_units t !! OrderService.product_unit_id item with
       | Some pu => Dec.add acc (item_total item pu)
       | None => acc
       end)
    items start.

(** The customer check of [create_order]: [Some None] when the request
    names no customer (no id, or the id 0), [Some (Some c)] when it names
    the customer [c] of the store, [None] when the id names no customer of
    the store. *)
Definition named_customer (t : Tables) (store_id : Z)
    (customer_id : option Z) : option (option Customer.t) :=
  match customer_id with
  | Some cid =>
      if cid =? 0 then Some None
      else
        match customers t !! cid with
        | Some c =>
            if Customer.store_id c =? store_id then Some (Some c) else None
        | None => None
        end
  | None => Some None
  end.

(** A request line [create_order] accepts for [store_id]: its unit exists
    and belongs to a product of the store. *)
Definition item_in_store (t : Tables) (store_id : Z)
    (item : OrderService.Item) : bool :=
  match product_units t !! OrderService.product_unit_id item with
  | Some pu =>
      match products t !! ProductUnit.product_id pu with
      | Some p => Product.store_id p =? store_id
      | None => false
      end
  | None => false
  end.

(** The order row after [order.cancel()] and the optional note. *)
Definition canceled (order : Order.t) (reason : option string) : Order.t :=
  match reason with
  | Some r =>
      if bool_decide (r = "") then Order.cancel order
      else Order.with_notes (Order.cancel order)
             (Some (OrderService.cancel_notes (Order.notes (Order.cancel order)) r))
  | None => Order.cancel order
  end.

(** ** Reference sums, written from the specification *)

(** The sum of [qty_change] over the movements of [product_id] recorded
    under [store_id]. *)
Fixpoint store_product_total (txs : list InventoryTransaction.t)
    (store_id product_id : Z) : Q :=
  match txs with
  | [] => 0%Q
  | tx :: rest =>
      ((if (InventoryTransaction.store_id tx =? store_id) &&
           (InventoryTransaction.product_id tx =? product_id)
        then Dec.value (InventoryTransaction.qty_change tx) else 0)
       + store_product_total rest store_id product_id)%Q
  end.

(** The sum of [qty_change] over the movements of [product_id], whatever
    store they are recorded under. *)
Fixpoint product_total (txs : list InventoryTransaction.t) (product_id : Z)
    : Q :=
  match txs with
  | [] => 0%Q
  | tx :: rest =>
      ((if InventoryTransaction.product_id tx =? product_id
        then Dec.value (InventoryTransaction.qty_change tx) else 0)
       + product_total rest product_id)%Q
  end.

(** [balance + amount <= limit], on the values. *)
Definition within_limit (c : Customer.t) (amount : Decimal) : Prop :=
  match Customer.debt_limit c with
  | None => True
  | Some limit =>
      (Dec.value limit == 0)%Q \/
      (Dec.value (Customer.debt_balance c) + Dec.value amount
       <= Dec.value limit)%Q
  end.

(** ** What a column does to the number bound to it *)


(** A [Numeric(15, s)] column fed with [Decimal]s: a number of at most
    [s] fractional digits is stored as it is, any other within one unit of
    the last digit. *)
Record decimal_column (numeric : nat -> Decimal -> Decimal) : Prop :=
  mkDecimalColumn
  { decimal_column_exact :
      forall s d, Dec.fits s d -> (Dec.value (numeric s d) == Dec.value d)%Q;
    decimal_column_near :
      forall s d,
        (Qabs (Dec.value (numeric s d) - Dec.value d)
         <= 1 / inject_Z (10 ^ Z.of_nat s))%Q }.

(** The numbers of a request line need no rounding: the quantity has at
    most four fractional digits, the price, the discount and the line
    total at most two. *)
Definition item_fits (t : Tables) (item : OrderService.Item) : Prop :=
  match product_units t !! OrderService.product_unit_id item with
  | Some pu =>
      Dec.fits 4%nat (OrderService.quantity item)
      /\ Dec.fits 2%nat (default (ProductUnit.price pu) (OrderService.unit_price item))
      /\ Dec.fits 2%nat (default Dec.zero (OrderService.discount item))
      /\ Dec.fits 2%nat (item_total item pu)
  | None => False
  end.

(** ** A sample shop *)

Module Sample.

(** One driver behaviour: the float's exact value rounded to four
    fractional digits, ties to even. *)
Definition quantize4 (f : float) : Decimal :=
  match f with
  | S754_finite s m e =>
      let n := Z.pos m * 10000 in
      let r :=
        if 0 <=? e then n * 2 ^ e
        else
          let d := 2 ^ (- e) in
          let q := n / d in
          match Z.compare (2 * (n mod d)) d with
          | Lt => q
          | Gt => q + 1
          | Eq => if Z.even q then q else q + 1
          end in
      Dec.mk (if s then - r else r) 4
  | _ => Dec.mk 0 4
  end.

(** One server behaviour: the [Decimal] rounded to [s] fractional digits,
    ties to even. *)
Definition quantize (s : nat) (d : Decimal) : Decimal :=
  if (Dec.scale d <=? s)%nat then Dec.mk (Dec.align d s) s
  else
    let k := 10 ^ Z.of_nat (Dec.scale d - s) in
    let q := Dec.coef d / k in
    Dec.mk (match Z.compare (2 * (Dec.coef d mod k)) k with
            | Lt => q
            | Gt => q + 1
            | Eq => if Z.even q then q else q + 1
            end) s.

Definition money (hundredths : Z) : Decimal := Dec.mk hundredths 2.
Definition qty (ten_thousandths : Z) : Decimal := Dec.mk ten_thousandths 4.

Definition clock : Clock := {| utcnow := 1700000000; today := 19675 |}.

Definition clerk : User.t := User.mk 2 EMPLOYEE (Some 1) [].

Definition order (seq : Z) (customer : option Z) (status : OrderStatus)
    (is_credit : bool) (total : Decimal) : Order.t :=
  Order.mk 1 customer {| on_store := 1; on_day := 19675; on_seq := seq |}
    status is_credit total (if is_credit then money 0 else total) None 2
    None None None 1700000000.

Definition line (order_id product_unit_id : Z) (quantity price : Decimal)
    (product_id : Z) : OrderDetail.t :=
  OrderDetail.mk order_id product_id product_unit_id quantity price (money 0)
    (Dec.mul quantity price).

(** Product 1 is counted in pieces (unit 10) and sold also in packs of ten
    (unit 11); product 2 is counted in kilograms and sold by the 100 g
    (unit 12).  Customer 7 belongs to store 1, customer 8 to store 2. *)
Definition shop : Tables :=
  mkTables
    {[ 100 := order 1 (Some 7) NEW true (money 240000);
       101 := order 2 None NEW false (money 1950000);
       102 := order 3 (Some 7) CONFIRMED true (money 30000);
       103 := order 4 None CANCELED false (money 10000);
       104 := order 5 None NEW false (money 9000);
       105 := order 6 None COMPLETED false (money 10000) ]}
    106
    [ line 100 10 (qty 50000) (money 10000) 1;
      line 100 11 (qty 20000) (money 95000) 1;
      line 101 10 (qty 50000) (money 10000) 1;
      line 101 11 (qty 200000) (money 95000) 1;
      line 102 10 (qty 30000) (money 10000) 1;
      line 103 10 (qty 10000) (money 10000) 1;
      line 104 12 (qty 30000) (money 3000) 2;
      line 105 10 (qty 10000) (money 10000) 1 ]
    {[ 1 := Product.mk 1 true; 2 := Product.mk 1 true ]}
    {[ 10 := ProductUnit.mk 1 (money 10000) (qty 10000);
       11 := ProductUnit.mk 1 (money 95000) (qty 100000);
       12 := ProductUnit.mk 2 (money 3000) (qty 1000) ]}
    {[ 7 := Customer.mk 1 (money 20000) (Some (money 50000));
       8 := Customer.mk 2 (money 0) None ]}
    [ InventoryTransaction.mk 1 1 None (qty 1000000) (Some "import") None 2;
      InventoryTransaction.mk 1 2 None (qty 3000) (Some "import") None 2 ]
    [].

Definition world : World := mkWorld shop shop.

(** Movements of product 1, a product of store 1, recorded under two
    stores: rows that no write path of the repository produces. *)
Definition two_stores : list InventoryTransaction.t :=
  [ InventoryTransaction.mk 1 1 None (qty 30000) (Some "import") None 2;
    InventoryTransaction.mk 2 1 None (qty 50000) (Some "import") None 2 ].

(** The shop with the movements of [two_stores] and one more under
    store 2. *)
Definition shop_two_stores : Tables :=
  mkTables (orders shop) (next_order_id shop) (order_details shop)
    (products shop) (product_units shop) (customers shop)
    (two_stores ++
     [ InventoryTransaction.mk 2 1 None (qty 500000) (Some "import") None 2 ])
    (bookkeeping_entries shop).


End Sample.

(** ** Beyond the order service *)

(** *** Pagination ([api/responses.py]) *)

Module Responses.

Record Meta := mkMeta
  { page : Z;
    per_page : Z;
    total : Z;
    total_pages : Z;
    has_next : bool;
    has_prev : bool }.

(** The [meta] object of [paginated_response]; the data and the message
    pass through.  [//] is floor division. *)
Definition paginated_response (page per_page total : Z) : Meta :=
  let total_pages :=
    if 0 <? per_page then (total + per_page - 1) / per_page else 0 in
  mkMeta page per_page total total_pages (page <? total_pages) (1 <? page).

End Responses.

(** *** Roles and permissions ([domain/constants.py]) *)

(** [role.value] *)
Definition Role_value (role : Role) : string :=
  match role with
  | ADMIN => "admin"
  | OWNER => "owner"
  | EMPLOYEE => "employee"
  end.

(** [Role(value)]: the member with that value; [None] stands for the
    [ValueError] of a value that names no member. *)
Definition Role_of_value (value : string) : option Role :=
  if bool_decide (value = "admin") then Some ADMIN
  else if bool_decide (value = "owner") then Some OWNER
  else if bool_decide (value = "employee") then Some EMPLOYEE
  else None.

Definition PERMISSIONS (role : Role) : list string :=
  match role with
  | ADMIN =>
      [ "manage_owners"; "manage_subscriptions"; "view_system_reports";
        "manage_system_config" ]
  | OWNER =>
      [ "manage_store"; "manage_products"; "manage_inventory";
        "manage_customers"; "manage_employees"; "create_orders";
        "view_orders"; "manage_orders"; "view_reports"; "manage_debt";
        "confirm_draft_orders" ]
  | EMPLOYEE =>
      [ "create_orders"; "view_orders"; "view_products"; "view_customers";
        "confirm_draft_orders" ]
  end.

Definition has_permission (role : Role) (permission : string) : bool :=
  bool_decide (permission ∈ PERMISSIONS role).

Definition get_permissions (role : Role) : list string := PERMISSIONS role.

(** *** Request guards ([api/decorators.py]) *)

Module Decorators.

(** The identity [AuthService.login] stores in the token, without the
    e-mail address.  A token of another origin may carry any role string,
    or none. *)
Record Identity := mkIdentity
  { user_id : Z;
    role : option string;
    store_id : option Z }.

Definition identity_of (user : User.t) : Identity :=
  mkIdentity (User.id user) (Some (Role_value (User.role user)))
    (User.store_id user).

(** What a guard answers: one of its three refusals (401, 403, 422), or the
    call of the wrapped handler. *)
Inductive Guard := Unauthorized | Forbidden | Invalid | Proceed.

(** [identity] is [g.current_user_identity], [None] when [require_auth]
    has stored none. *)
Definition require_role (roles : list Role) (identity : option Identity)
    : Guard :=
  match identity with
  | None => Unauthorized
  | Some identity =>
      match role identity with
      | Some user_role =>
          if bool_decide (user_role ∈ map Role_value roles) then Proceed
          else Forbidden
      | None => Forbidden
      end
  end.

Definition require_permission (permission : string)
    (identity : option Identity) : Guard :=
  match identity with
  | None => Unauthorized
  | Some identity =>
      match role identity ≫= Role_of_value with
      | None => Forbidden
      | Some role =>
          if negb (has_permission role permission) then Forbidden
          else Proceed
      end
  end.

(** [store] is the store id found in the route or in the body, [None]
    when there is none; the id [0] is falsy. *)
Definition require_store_access (store : option Z)
    (identity : option Identity) : Guard :=
  match identity with
  | None => Unauthorized
  | Some identity =>
      match store with
      | None => Invalid
      | Some store =>
          if store =? 0 then Invalid
          else if bool_decide (role identity = Some (Role_value ADMIN))
          then Proceed
          else if bool_decide (role identity = Some (Role_value OWNER))
          then Proceed
          else if bool_decide (role identity = Some (Role_value EMPLOYEE))
          then
            if bool_decide (store_id identity <> Some store) then Forbidden
            else Proceed
          else Proceed
      end
  end.

End Decorators.

(** *** Order amounts ([infrastructure/models/order.py]) *)

(** [OrderDetail.calculate_line_total], as the row it leaves. *)
Definition calculate_line_total (self : OrderDetail.t) : OrderDetail.t :=
  let subtotal :=
    Dec.mul (OrderDetail.quantity self) (OrderDetail.unit_price self) in
  OrderDetail.mk (OrderDetail.order_id self) (OrderDetail.product_id self)
    (OrderDetail.product_unit_id self) (OrderDetail.quantity self)
    (OrderDetail.unit_price self) (OrderDetail.discount self)
    (Dec.sub subtotal (OrderDetail.discount self)).

(** The builtin [sum] over [Decimal]s: it starts from the integer [0]. *)
Definition py_sum (l : list Decimal) : Py.number :=
  match l with
  | [] => Py.int 0
  | _ :: _ => Py.decimal (fold_left Dec.add l Dec.zero)
  end.

(** The value [Order.calculate_total] returns for the order whose primary
    key is [order_id]. *)
Definition calculate_total (t : Tables) (order_id : Z) : Py.number :=
  py_sum (map OrderDetail.line_total (order_items t order_id)).

(** The [is_fully_paid] property: [self.remaining_amount <= 0]. *)
Definition is_fully_paid (self : Order.t) : bool :=
  Dec.leb (Order.remaining_amount self) Dec.zero.

(** [OrderService.get_order_by_id] *)
Definition get_order_by_id (order_id : Z) (current_user : User.t)
    : Session Order.t :=
  let* order := query (fun t => orders t !! order_id) in
  match order with
  | None => raise NotFoundError
  | Some order =>
      if negb (User.can_access_store current_user (Order.store_id order))
      then raise AuthorizationError
      else ret order
  end.

(** *** Stock levels of a store ([infrastructure/models/inventory.py]) *)

(** The grouped sums of [get_all_stock_levels], before the conversion to
    [float]: one key per product with a movement under [store_id]. *)
Definition stock_sums (txs : list InventoryTransaction.t) (store_id : Z)
    : gmap Z Decimal :=
  fold_left
    (fun sums tx =>
       if bool_decide (InventoryTransaction.store_id tx = store_id) then
         let product_id := InventoryTransaction.product_id tx in
         let qty := InventoryTransaction.qty_change tx in
         <[product_id := match sums !! product_id with
                         | Some stock => Dec.add stock qty
                         | None => qty
                         end]> sums
       else sums)
    txs ∅.

Definition get_all_stock_levels (txs : list InventoryTransaction.t)
    (store_id : Z) : gmap Z float :=
  Float.of_decimal <$> stock_sums txs store_id.

(** *** Stock import ([api/controllers/product_controller.py]) *)

(** [db.session.rollback()] *)
Definition rollback : Session unit :=
  fun w => (Returned tt, mkWorld (committed w) (committed w)).

(** [try: body except ...: db.session.rollback()], the outcome standing
    for the response: the data of a success, the error of a refusal. *)
Definition or_rollback {A} (body : Session A) : Session A :=
  fun w =>
    match body w with
    | (Returned a, w') => (Returned a, w')
    | (Raised e, w') => (Raised e, (rollback w').2)
    end.

Module ProductController.

(** One element of the [items] list of an import request, its quantity
    already read by [Decimal(str(...))]; both keys are optional.  The
    movement row keeps the columns of [InventoryTransaction.t]:
    [unit_cost] and [notes] are left out. *)
Record ImportItem := mkImportItem
  { product_id : option Z;
    quantity : option Decimal }.

(** The body of the loop over [items] in [import_inventory].  [numeric]
    is the conversion of the [Numeric] columns, as in the order service:
    [qty_change] keeps four fractional digits of the quantity. *)
Definition import_item (numeric : nat -> Decimal -> Decimal)
    (store_id : Z) (current_user : User.t)
    (transactions : list InventoryTransaction.t) (item : ImportItem)
    : Session (list InventoryTransaction.t) :=
  let* product := query (fun t =>
    pid ← product_id item; p ← products t !! pid; Some (pid, p)) in
  match product with
  | None => raise NotFoundError
  | Some (pid, product) =>
      if negb (Product.store_id product =? store_id) then raise NotFoundError
      else
        let transaction :=
          InventoryTransaction.mk store_id pid None
            (numeric 4%nat (default Dec.zero (quantity item))) (Some "import")
            None (User.id current_user) in
        let* _ := update (add_inventory_transaction transaction) in
        ret (transactions ++ [transaction])
  end.

Definition import_inventory (numeric : nat -> Decimal -> Decimal)
    (store_id : Z) (items : list ImportItem) (current_user : User.t)
    : Session (list InventoryTransaction.t) :=
  or_rollback
    (if negb (User.can_access_store current_user store_id)
     then raise AuthorizationError
     else
       let* transactions :=
         for_fold (import_item numeric store_id current_user) [] items in
       let* _ := commit in
       ret transactions).

End ProductController.

(** *** Reports ([api/controllers/report_controller.py]) *)

#[global] Instance TransactionType_eq_dec : EqDecision TransactionType.
Proof. solve_decision. Defined.

Module ReportController.

(** The [summary] dictionary of [operations_report]: seven keys, none for
    [EXPENSE]. *)
Record Summary := mkSummary
  { revenue : Decimal;
    debt_in : Decimal;
    debt_out : Decimal;
    payment_in : Decimal;
    payment_out : Decimal;
    inventory_in : Decimal;
    inventory_out : Decimal }.

Definition empty_summary : Summary :=
  mkSummary Dec.zero Dec.zero Dec.zero Dec.zero Dec.zero Dec.zero Dec.zero.

(** [if key in summary: summary[key] += entry.amount] *)
Definition add_entry (summary : Summary) (entry : BookkeepingEntry.t)
    : Summary :=
  let a := BookkeepingEntry.amount entry in
  match BookkeepingEntry.entry_type entry with
  | REVENUE =>
      mkSummary (Dec.add (revenue summary) a) (debt_in summary)
        (debt_out summary) (payment_in summary) (payment_out summary)
        (inventory_in summary) (inventory_out summary)
  | EXPENSE => summary
  | DEBT_IN =>
      mkSummary (revenue summary) (Dec.add (debt_in summary) a)
        (debt_out summary) (payment_in summary) (payment_out summary)
        (inventory_in summary) (inventory_out summary)
  | DEBT_OUT =>
      mkSummary (revenue summary) (debt_in summary)
        (Dec.add (debt_out summary) a) (payment_in summary)
        (payment_out summary) (inventory_in summary) (inventory_out summary)
  | PAYMENT_IN =>
      mkSummary (revenue summary) (debt_in summary) (debt_out summary)
        (Dec.add (payment_in summary) a) (payment_out summary)
        (inventory_in summary) (inventory_out summary)
  | PAYMENT_OUT =>
      mkSummary (revenue summary) (debt_in summary) (debt_out summary)
        (payment_in summary) (Dec.add (payment_out summary) a)
        (inventory_in summary) (inventory_out summary)
  | INVENTORY_IN =>
      mkSummary (revenue summary) (debt_in summary) (debt_out summary)
        (payment_in summary) (payment_out summary)
        (Dec.add (inventory_in summary) a) (inventory_out summary)
  | INVENTORY_OUT =>
      mkSummary (revenue summary) (debt_in summary) (debt_out summary)
        (payment_in summary) (payment_out summary) (inventory_in summary)
        (Dec.add (inventory_out summary) a)
  end.

(** [order_by(entry_date, id)] over rows that come in the order of their
    ids: a stable insertion by date. *)
Fixpoint insert_by_date (e : BookkeepingEntry.t)
    (l : list BookkeepingEntry.t) : list BookkeepingEntry.t :=
  match l with
  | [] => [e]
  | x :: l' =>
      if BookkeepingEntry.entry_date e <=? BookkeepingEntry.entry_date x
      then e :: x :: l'
      else x :: insert_by_date e l'
  end.

Definition order_by_date (l : list BookkeepingEntry.t)
    : list BookkeepingEntry.t :=
  fold_right insert_by_date [] l.

(** The entries [operations_report] queries. *)
Definition report_entries (t : Tables) (store_id from_date to_date : Z)
    : list BookkeepingEntry.t :=
  order_by_date
    (filter (fun e =>
               BookkeepingEntry.store_id e = store_id /\
               from_date <= BookkeepingEntry.entry_date e /\
               BookkeepingEntry.entry_date e <= to_date)
       (bookkeeping_entries t)).

(** The aggregation of [operations_report]. *)
Definition operations_summary (t : Tables) (store_id from_date to_date : Z)
    : Summary :=
  fold_left add_entry (report_entries t store_id from_date to_date)
    empty_summary.

(** The TT88 figures of the report, as floats. *)
Record Tt88 := mkTt88
  { doanh_thu : float;
    cong_no_phai_thu : float;
    da_thu_cong_no : float;
    cong_no_con_lai : float;
    nhap_kho : float;
    xuat_kho : float }.

Definition tt88_summary (summary : Summary) : Tt88 :=
  mkTt88 (Float.of_decimal (revenue summary))
    (Float.of_decimal (debt_in summary))
    (Float.of_decimal (payment_in summary))
    (Float.of_decimal (Dec.sub (debt_in summary) (payment_in summary)))
    (Float.of_decimal (inventory_in summary))
    (Float.of_decimal (inventory_out summary)).

(** "Today's revenue" of [dashboard]: a [SUM] that ends in [or 0]. *)
Definition today_revenue (t : Tables) (store_id today : Z) : Py.number :=
  let result :=
    sql_sum (map BookkeepingEntry.amount
               (filter (fun e =>
                          BookkeepingEntry.store_id e = store_id /\
                          BookkeepingEntry.entry_type e = REVENUE /\
                          BookkeepingEntry.entry_date e = today)
                  (bookkeeping_entries t))) in
  match result with
  | Some r => if Dec.is_zero r then Py.int 0 else Py.decimal r
  | None => Py.int 0
  end.

End ReportController.

(** ** Reference notions for the further facts *)

(** The bucket of the report summary for an entry type; [EXPENSE] has
    none. *)
Definition summary_of (s : ReportController.Summary) (ty : TransactionType)
    : Decimal :=
  match ty with
  | REVENUE => ReportController.revenue s
  | EXPENSE => Dec.zero
  | DEBT_IN => ReportController.debt_in s
  | DEBT_OUT => ReportController.debt_out s
  | PAYMENT_IN => ReportController.payment_in s
  | PAYMENT_OUT => ReportController.payment_out s
  | INVENTORY_IN => ReportController.inventory_in s
  | INVENTORY_OUT => ReportController.inventory_out s
  end.

(** The sum of the amounts of the entries of type [ty] that [store_id]
    booked between [from_date] and [to_date]. *)
Fixpoint ledger_total (entries : list BookkeepingEntry.t)
    (store_id : Z) (ty : TransactionType) (from_date to_date : Z) : Q :=
  match entries with
  | [] => 0%Q
  | e :: rest =>
      ((if (BookkeepingEntry.store_id e =? store_id)
           && bool_decide (BookkeepingEntry.entry_type e = ty)
           && (from_date <=? BookkeepingEntry.entry_date e)
           && (BookkeepingEntry.entry_date e <=? to_date)
        then Dec.value (BookkeepingEntry.amount e) else 0)
       + ledger_total rest store_id ty from_date to_date)%Q
  end.

(** The sum of the quantities an import request asks for [product]. *)
Fixpoint requested_total (items : list ProductController.ImportItem)
    (product : Z) : Q :=
  match items with
  | [] => 0%Q
  | item :: rest =>
      ((if bool_decide (ProductController.product_id item = Some product)
        then Dec.value (default Dec.zero (ProductController.quantity item))
        else 0)
       + requested_total rest product)%Q
  end.

(** The same sum over the values the [qty_change] column takes. *)
Fixpoint imported_total (numeric : nat -> Decimal -> Decimal)
    (items : list ProductController.ImportItem) (product : Z) : Q :=
  match items with
  | [] => 0%Q
  | item :: rest =>
      ((if bool_decide (ProductController.product_id item = Some product)
        then Dec.value
               (numeric 4%nat (default Dec.zero (ProductController.quantity item)))
        else 0)
       + imported_total numeric rest product)%Q
  end.

(** The movement [import_inventory] writes for a request line that names
    a product. *)
Definition import_row (numeric : nat -> Decimal -> Decimal) (store_id : Z)
    (current_user : User.t) (item : ProductController.ImportItem)
    : InventoryTransaction.t :=
  InventoryTransaction.mk store_id
    (default 0 (ProductController.product_id item)) None
    (numeric 4%nat (default Dec.zero (ProductController.quantity item)))
    (Some "import") None (User.id current_user).

(** An import line the controller accepts for [store_id]: it names a
    product of the store. *)
Definition import_item_in_store (t : Tables) (store_id : Z)
    (item : ProductController.ImportItem) : bool :=
  match ProductController.product_id item with
  | Some pid =>
      match products t !! pid with
      | Some p => Product.store_id p =? store_id
      | None => false
      end
  | None => false
  end.

(** The references between the tables that the write paths maintain:
    every movement is recorded under the store of its product, every order
    line belongs to a stored order and names a product of that order's
    store, and no row carries an order id that is still to be issued. *)
Record consistent (t : Tables) : Prop := mkConsistent
  { movements_in_product_store :
      Forall (fun tx =>
                exists p,
                  products t !! InventoryTransaction.product_id tx = Some p
                  /\ Product.store_id p = InventoryTransaction.store_id tx)
        (inventory_transactions t);
    lines_in_order_store :
      Forall (fun d =>
                exists o p,
                  orders t !! OrderDetail.order_id d = Some o
                  /\ products t !! OrderDetail.product_id d = Some p
                  /\ Product.store_id p = Order.store_id o)
        (order_details t);
    order_ids_issued :
      forall k, next_order_id t <= k -> orders t !! k = None }.

(** The tables [confirm_order] commits for [order], with the movements
    [new] of its deduction loop. *)
Definition confirmed_tables (clock : Clock) (t : Tables) (order_id : Z)
    (order : Order.t) (user : User.t) (new : list InventoryTransaction.t)
    : Tables :=
  let total := Order.total_amount order in
  let moved := with_movements t new in
  let booked :=
    if Order.is_credit order then
      let entered :=
        add_bookkeeping_entry
          (create_debt_entry (Order.store_id order) order_id total
             (User.id user) (today clock)) moved in
      match order_customer t order, Order.customer_id order with
      | Some customer, Some cid =>
          set_customers (insert cid (Customer.add_debt customer total)) entered
      | _, _ => entered
      end
    else
      add_bookkeeping_entry
        (create_revenue_entry (Order.store_id order) order_id total
           (User.id user) (today clock)) moved in
  set_orders
    (insert order_id (Order.confirm order (User.id user) (utcnow clock)))
    booked.

(** The tables [cancel_order] commits for [order], with the movements
    [new] of its restoration loop (none unless the order was CONFIRMED). *)
Definition canceled_tables (t : Tables) (order_id : Z) (order : Order.t)
    (reason : option string) (new : list InventoryTransaction.t) : Tables :=
  let moved := with_movements t new in
  let restored :=
    if bool_decide (Order.status order = CONFIRMED) then
      match Order.is_credit order, order_customer t order,
            Order.customer_id order with
      | true, Some customer, Some cid =>
          set_customers
            (insert cid
               (Customer.reduce_debt customer (Order.total_amount order)))
            moved
      | _, _, _ => moved
      end
    else moved in
  set_orders (insert order_id (canceled order reason)) restored.

(** The order row [create_order] stores for a request whose running
    total came to [total]. *)
Definition created_order (numeric : nat -> Decimal -> Decimal)
    (clock : Clock) (t : Tables) (store_id : Z)
    (current_user : User.t) (customer_id : option Z) (is_credit : bool)
    (notes : option string) (source_draft_order_id : option Z)
    (total : Decimal) : Order.t :=
  let total := numeric 2%nat total in
  Order.mk store_id customer_id (generate_order_number t clock store_id) NEW
    is_credit total (if is_credit then Dec.zero else total) notes
    (User.id current_user) None None source_draft_order_id (utcnow clock).

(** The tables [create_order] commits. *)
Definition created_tables (t : Tables) (order : Order.t)
    (new : list OrderDetail.t) : Tables :=
  mkTables (<[next_order_id t := order]> (orders t)) (next_order_id t + 1)
    (order_details t ++ new) (products t) (product_units t) (customers t)
    (inventory_transactions t) (bookkeeping_entries t).

(** A service call that respects the transaction: what it returns is
    committed, and a raise commits nothing. *)
Definition transactional {A} (call : Session A) : Prop :=
  forall w,
    match call w with
    | (Returned _, w') => committed w' = session w'
    | (Raised _, w') => committed w' = committed w
    end.

(** Two customer tables with the same rows up to the representation of
    the balances: same keys, same store and limit, balances of the same
    value. *)
Definition same_debts (a b : gmap Z Customer.t) : Prop :=
  forall cid,
    match a !! cid, b !! cid with
    | Some c, Some c' =>
        (Dec.value (Customer.debt_balance c)
         == Dec.value (Customer.debt_balance c'))%Q
        /\ Customer.store_id c = Customer.store_id c'
        /\ Customer.debt_limit c = Customer.debt_limit c'
    | None, None => True
    | _, _ => False
    end.

(** The ledger entry [confirm_order] writes for [order]. *)
Definition order_entry (clock : Clock) (order_id : Z) (order : Order.t)
    (user : User.t) : BookkeepingEntry.t :=
  BookkeepingEntry.mk (Order.store_id order)
    (if Order.is_credit order then DEBT_IN else REVENUE) "order" order_id
    (Order.total_amount order) (today clock) (User.id user).

(** * Facts *)

(** ** [Decimal] arithmetic is exact *)

Lemma pow10_pos (n : nat) : 0 < 10 ^ Z.of_nat n.
Proof. apply Z.pow_pos_nonneg; lia. Qed.

Lemma pow10_split (s n : nat) :
  (n <= s)%nat -> 10 ^ Z.of_nat s = 10 ^ Z.of_nat (s - n) * 10 ^ Z.of_nat n.
Proof. intros H. rewrite <- Z.pow_add_r by lia. f_equal. lia. Qed.

Lemma inject_pow10_nonzero (n : nat) : ~ (inject_Z (10 ^ Z.of_nat n) == 0)%Q.
Proof. pose proof (pow10_pos n) as H. unfold Qeq. simpl. lia. Qed.

Lemma Dec_value_align (a : Decimal) (s : nat) :
  (Dec.scale a <= s)%nat ->
  (Dec.value a == inject_Z (Dec.align a s) / inject_Z (10 ^ Z.of_nat s))%Q.
Proof.
  intros H. unfold Dec.value, Dec.align.
  rewrite (pow10_split s (Dec.scale a)) by exact H.
  rewrite !inject_Z_mult.
  pose proof (inject_pow10_nonzero (s - Dec.scale a)).
  pose proof (inject_pow10_nonzero (Dec.scale a)).
  field. split; assumption.
Qed.

Lemma Dec_value_add (a b : Decimal) :
  (Dec.value (Dec.add a b) == Dec.value a + Dec.value b)%Q.
Proof.
  set (s := Nat.max (Dec.scale a) (Dec.scale b)).
  rewrite (Dec_value_align a s), (Dec_value_align b s) by (subst s; lia).
  unfold Dec.add. fold s. unfold Dec.value at 1. cbn [Dec.coef Dec.scale].
  rewrite inject_Z_plus.
  pose proof (inject_pow10_nonzero s).
  field. assumption.
Qed.

Lemma Dec_value_sub (a b : Decimal) :
  (Dec.value (Dec.sub a b) == Dec.value a - Dec.value b)%Q.
Proof.
  set (s := Nat.max (Dec.scale a) (Dec.scale b)).
  rewrite (Dec_value_align a s), (Dec_value_align b s) by (subst s; lia).
  unfold Dec.sub. fold s. unfold Dec.value at 1. cbn [Dec.coef Dec.scale].
  unfold Z.sub. rewrite inject_Z_plus, inject_Z_opp.
  pose proof (inject_pow10_nonzero s).
  field. assumption.
Qed.

Lemma Dec_value_mul (a b : Decimal) :
  (Dec.value (Dec.mul a b) == Dec.value a * Dec.value b)%Q.
Proof.
  unfold Dec.mul, Dec.value. cbn [Dec.coef Dec.scale].
  rewrite Nat2Z.inj_add, Z.pow_add_r by lia.
  rewrite !inject_Z_mult.
  pose proof (inject_pow10_nonzero (Dec.scale a)).
  pose proof (inject_pow10_nonzero (Dec.scale b)).
  field. split; assumption.
Qed.

Lemma Qdiv_lt_same (x y d : Z) :
  0 < d -> (inject_Z x / inject_Z d < inject_Z y / inject_Z d)%Q <-> x < y.
Proof.
  intros Hd. unfold Qdiv.
  assert (Hinv : (0 < / inject_Z d)%Q).
  { apply Qinv_lt_0_compat. unfold Qlt. simpl. lia. }
  rewrite Qmult_lt_r by exact Hinv. rewrite <- Zlt_Qlt. reflexivity.
Qed.

Lemma Dec_compare_value (a b : Decimal) :
  Dec.compare a b = (Dec.value a ?= Dec.value b)%Q.
Proof.
  set (s := Nat.max (Dec.scale a) (Dec.scale b)).
  rewrite (Dec_value_align a s), (Dec_value_align b s) by (subst s; lia).
  unfold Dec.compare. fold s.
  pose proof (pow10_pos s) as Hs.
  destruct (Z.compare_spec (Dec.align a s) (Dec.align b s)) as [E|L|G];
    symmetry.
  - apply Qeq_alt. rewrite E. reflexivity.
  - apply Qlt_alt. apply Qdiv_lt_same; assumption.
  - apply Qgt_alt. apply Qdiv_lt_same; assumption.
Qed.

Lemma Dec_ltb_value (a b : Decimal) :
  Dec.ltb a b = true <-> (Dec.value a < Dec.value b)%Q.
Proof.
  unfold Dec.ltb. rewrite Dec_compare_value, Qlt_alt.
  destruct (Dec.value a ?= Dec.value b)%Q; split; congruence.
Qed.

Lemma Dec_leb_value (a b : Decimal) :
  Dec.leb a b = true <-> (Dec.value a <= Dec.value b)%Q.
Proof.
  unfold Dec.leb. rewrite Dec_compare_value, Qle_alt.
  destruct (Dec.value a ?= Dec.value b)%Q; split; congruence.
Qed.

Lemma Dec_is_zero_value (a : Decimal) :
  Dec.is_zero a = true <-> (Dec.value a == 0)%Q.
Proof.
  unfold Dec.is_zero, Dec.value. pose proof (pow10_pos (Dec.scale a)) as Hs.
  rewrite Z.eqb_eq. unfold Qeq, Qdiv. simpl.
  destruct (10 ^ Z.of_nat (Dec.scale a)) eqn:E; try lia.
  simpl. split; intros H; nia.
Qed.

Lemma Dec_value_max (a b : Decimal) :
  (Dec.value (Dec.max a b) == Qmax (Dec.value a) (Dec.value b))%Q.
Proof.
  unfold Dec.max. destruct (Dec.ltb a b) eqn:E.
  - apply Dec_ltb_value in E. symmetry. apply Q.max_r.
    apply Qlt_le_weak, E.
  - assert (H : ~ (Dec.value a < Dec.value b)%Q).
    { intros L. apply Dec_ltb_value in L. congruence. }
    symmetry. apply Q.max_l. apply Qnot_lt_le, H.
Qed.

(** ** Floats: negation flips the sign *)

Lemma Float_neg_negative (f : float) :
  Float.positive f = true -> Float.negative (Float.neg f) = true.
Proof.
  unfold Float.positive, Float.negative, Float.neg, SFltb.
  destruct f as [s|s| |s m e]; simpl; try discriminate;
    destruct s; simpl; congruence.
Qed.

Lemma Float_neg_neg (f : float) : Float.neg (Float.neg f) = f.
Proof.
  unfold Float.neg. destruct f as [s|s| |s m e]; cbn [SFopp];
    try rewrite negb_involutive; reflexivity.
Qed.

(** ** Columns: rounding to a number of fractional digits *)

Lemma inject_Z_pos_nonzero (d : Z) : 0 < d -> ~ (inject_Z d == 0)%Q.
Proof. intros Hd. unfold Qeq. simpl. lia. Qed.

Lemma Qdiv_eq_cross (a b c d : Z) :
  0 < b -> 0 < d ->
  (inject_Z a / inject_Z b == inject_Z c / inject_Z d)%Q -> a * d = c * b.
Proof.
  intros Hb Hd H.
  pose proof (inject_Z_pos_nonzero b Hb) as Hb'.
  pose proof (inject_Z_pos_nonzero d Hd) as Hd'.
  apply inject_Z_injective. rewrite !inject_Z_mult.
  assert (Ha : (inject_Z a == inject_Z a / inject_Z b * inject_Z b)%Q)
    by (field; exact Hb').
  rewrite Ha, H. field. exact Hd'.
Qed.

(** The quotient [n / d] rounded to an integer, ties to even, as the two
    sample conversions compute it. *)
Lemma round_half_even_near (n d : Z) :
  0 < d ->
  let q := n / d in
  let r := match Z.compare (2 * (n mod d)) d with
           | Lt => q
           | Gt => q + 1
           | Eq => if Z.even q then q else q + 1
           end in
  - d <= r * d - n <= d /\ (0 <= n -> 0 <= r) /\ (n mod d = 0 -> r = q).
Proof.
  intros Hd q r.
  pose proof (Z.div_mod n d ltac:(lia)) as Hdm.
  pose proof (Z.mod_pos_bound n d Hd) as Hm.
  assert (Hq : 0 <= n -> 0 <= q) by (intros; apply Z.div_pos; lia).
  subst r. fold q in Hdm.
  destruct (Z.compare_spec (2 * (n mod d)) d) as [E|L|G].
  - destruct (Z.even q); repeat split; try nia; try (intros; lia).
  - repeat split; try nia; try (intros; lia).
  - repeat split; try nia; try (intros; lia).
Qed.

Lemma Qabs_scaled_le (r c S k : Z) :
  0 < S -> 0 < k -> - k <= r * k - c <= k ->
  (Qabs (inject_Z r / inject_Z S - inject_Z c / inject_Z (S * k))
   <= 1 / inject_Z S)%Q.
Proof.
  intros HS Hk Hrk.
  pose proof (inject_Z_pos_nonzero S HS) as HS'.
  pose proof (inject_Z_pos_nonzero k Hk) as Hk'.
  assert (Hx : (inject_Z r / inject_Z S - inject_Z c / inject_Z (S * k)
                == inject_Z (r * k - c) * / inject_Z (S * k))%Q).
  { unfold Z.sub. rewrite inject_Z_plus, inject_Z_opp, !inject_Z_mult.
    field. split; assumption. }
  assert (Hy : (1 / inject_Z S == inject_Z k * / inject_Z (S * k))%Q).
  { rewrite inject_Z_mult. field. split; assumption. }
  assert (Hinv : (0 <= / inject_Z (S * k))%Q).
  { apply Qinv_le_0_compat. unfold Qle. simpl. nia. }
  rewrite Hx, Hy. apply Qabs_Qle_condition. split.
  - assert (Ho : (- (inject_Z k * / inject_Z (S * k))
                  == inject_Z (- k) * / inject_Z (S * k))%Q).
    { rewrite inject_Z_opp. ring. }
    rewrite Ho. apply Qmult_le_compat_r; [|exact Hinv].
    rewrite <- Zle_Qle. lia.
  - apply Qmult_le_compat_r; [|exact Hinv]. rewrite <- Zle_Qle. lia.
Qed.

Lemma Dec_fits_zero (s : nat) : Dec.fits s Dec.zero.
Proof.
  exists 0. unfold Dec.value, Dec.zero. cbn [Dec.coef Dec.scale].
  unfold Qdiv. rewrite !Qmult_0_l. reflexivity.
Qed.

Lemma Dec_fits_add (s : nat) (a b : Decimal) :
  Dec.fits s a -> Dec.fits s b -> Dec.fits s (Dec.add a b).
Proof.
  intros [n Hn] [m Hm]. exists (n + m).
  rewrite Dec_value_add, Hn, Hm, inject_Z_plus.
  pose proof (inject_pow10_nonzero s). field. assumption.
Qed.

Lemma Dec_fits_scale (s : nat) (d : Decimal) :
  (Dec.scale d <= s)%nat -> Dec.fits s d.
Proof. intros H. exists (Dec.align d s). apply Dec_value_align, H. Qed.

Lemma quantize_exact (s : nat) (d : Decimal) :
  Dec.fits s d -> (Dec.value (Sample.quantize s d) == Dec.value d)%Q.
Proof.
  intros [n Hn]. unfold Sample.quantize.
  destruct (Nat.leb_spec (Dec.scale d) s) as [Hle|Hgt].
  - unfold Dec.value at 1. cbn [Dec.coef Dec.scale]. symmetry.
    apply Dec_value_align, Hle.
  - set (k := 10 ^ Z.of_nat (Dec.scale d - s)).
    assert (Hk : 0 < k) by apply pow10_pos.
    assert (Hsplit : 10 ^ Z.of_nat (Dec.scale d) = k * 10 ^ Z.of_nat s).
    { subst k. apply pow10_split. lia. }
    pose proof (pow10_pos s) as Hs. pose proof (pow10_pos (Dec.scale d)) as Hsd.
    unfold Dec.value in Hn. apply Qdiv_eq_cross in Hn; [|assumption..].
    assert (Hcoef : Dec.coef d = n * k) by nia.
    assert (Hmod : Dec.coef d mod k = 0).
    { rewrite Hcoef. apply Z.mod_mul. lia. }
    assert (Hq : Dec.coef d / k = n).
    { rewrite Hcoef. apply Z.div_mul. lia. }
    destruct (round_half_even_near (Dec.coef d) k Hk) as (_ & _ & Hr).
    cbv zeta in Hr. rewrite (Hr Hmod), Hq.
    unfold Dec.value. cbn [Dec.coef Dec.scale].
    rewrite Hcoef, Hsplit, !inject_Z_mult.
    pose proof (inject_Z_pos_nonzero k Hk).
    pose proof (inject_pow10_nonzero s).
    field. split; assumption.
Qed.

Lemma quantize_near (s : nat) (d : Decimal) :
  (Qabs (Dec.value (Sample.quantize s d) - Dec.value d)
   <= 1 / inject_Z (10 ^ Z.of_nat s))%Q.
Proof.
  pose proof (pow10_pos s) as Hs.
  destruct (Nat.leb_spec (Dec.scale d) s) as [Hle|Hgt].
  - rewrite quantize_exact by (apply Dec_fits_scale, Hle).
    assert (H0 : (Dec.value d - Dec.value d == 0)%Q) by ring.
    rewrite H0. cbn [Qabs Z.abs Qnum Qden].
    apply Qle_shift_div_l; [unfold Qlt; simpl; lia|].
    rewrite Qmult_0_l. discriminate.
  - unfold Sample.quantize.
    destruct (Nat.leb_spec (Dec.scale d) s) as [Hle|_]; [lia|].
    set (k := 10 ^ Z.of_nat (Dec.scale d - s)).
    assert (Hk : 0 < k) by apply pow10_pos.
    assert (Hsplit : 10 ^ Z.of_nat (Dec.scale d) = 10 ^ Z.of_nat s * k).
    { subst k. rewrite Z.mul_comm. apply pow10_split. lia. }
    destruct (round_half_even_near (Dec.coef d) k Hk) as (Hr & _ & _).
    cbv zeta in Hr. unfold Dec.value. cbn [Dec.coef Dec.scale].
    rewrite Hsplit. apply Qabs_scaled_le; assumption.
Qed.

Lemma quantize_column : decimal_column Sample.quantize.
Proof. constructor; [apply quantize_exact|apply quantize_near]. Qed.

(** ** Columns: a float bound to four fractional digits *)







Lemma quantize4_neg (f : float) :
  (Dec.value (Sample.quantize4 (Float.neg f))
   == - Dec.value (Sample.quantize4 f))%Q.
Proof.
  destruct f as [s|s| |s m e]; try reflexivity.
  unfold Float.neg, SFopp, Sample.quantize4, Dec.value.
  cbn [Dec.coef Dec.scale].
  set (r := if 0 <=? e then _ else _).
  destruct s; cbn [negb]; unfold Qeq; cbn; lia.
Qed.


(** ** Floats: the sign of a product *)








(** ** Running the service: the loops *)

Import OrderService.

Ltac run :=
  unfold bind, query, update, ret, raise, commit, deref; cbn beta iota.

Lemma check_stock_run (item : OrderDetail.t) (w : World) :
  check_stock item w =
    (match stock_verdict (session w) item with
     | Some false => Returned tt
     | Some true => Raised InsufficientStockError
     | None =>
         match products (session w) !! OrderDetail.product_id item,
               required (session w) item with
         | Some _, Some _ => Raised InvalidOperation
         | _, _ => Raised AttributeError
         end
     end, w).
Proof.
  unfold check_stock, item_product_unit, stock_verdict, required. run.
  destruct (products (session w) !! OrderDetail.product_id item); [|reflexivity].
  cbn.
  destruct (product_units (session w) !! OrderDetail.product_unit_id item);
    [|reflexivity].
  cbn.
  destruct (Float.number_lt _ _) as [[|]|]; reflexivity.
Qed.

Lemma check_loop_passes (items : list OrderDetail.t) (w : World) :
  Forall (fun item => stock_verdict (session w) item = Some false) items ->
  for_each check_stock items w = (Returned tt, w).
Proof.
  induction 1 as [|item items Hitem _ IH]; [reflexivity|].
  cbn [for_each]. unfold bind at 1.
  rewrite check_stock_run, Hitem. exact IH.
Qed.


Lemma check_loop_keeps_world (items : list OrderDetail.t) (w : World) :
  snd (for_each check_stock items w) = w.
Proof.
  induction items as [|item items IH]; [reflexivity|].
  cbn [for_each]. unfold bind at 1. rewrite check_stock_run.
  destruct (stock_verdict (session w) item) as [[|]|]; cbn; try reflexivity.
  - exact IH.
  - destruct (products (session w) !! _); [|reflexivity].
    destruct (required (session w) item); reflexivity.
Qed.

Ltac tables :=
  cbn [session committed orders next_order_id order_details products
       product_units customers inventory_transactions bookkeeping_entries
       with_movements with_details set_orders set_customers
       add_bookkeeping_entry add_inventory_transaction add_order_detail
       add_order].

Lemma with_movements_nil (t : Tables) : with_movements t [] = t.
Proof. destruct t. unfold with_movements. cbn. rewrite app_nil_r. reflexivity. Qed.

Lemma with_movements_app (t : Tables) (a b : list InventoryTransaction.t) :
  with_movements (with_movements t a) b = with_movements t (a ++ b).
Proof. unfold with_movements. cbn. rewrite <- app_assoc. reflexivity. Qed.

Section Loops.
Variable numeric_of_float : float -> Decimal.

(** The movement loops write one row per line, in order, when every line's
    unit row exists; [sign] is [Float.neg] for the deduction and the
    identity for the restoration. *)
Lemma movement_loop
    (body : OrderDetail.t -> Session unit) (sign : float -> float)
    (ref : string) (order_id : Z) (order : Order.t) (user : User.t) :
  (forall item w,
     body item w =
       match required (session w) item with
       | Some r =>
           (Returned tt,
            mkWorld
              (with_movements (session w)
                 [InventoryTransaction.mk (Order.store_id order)
                    (OrderDetail.product_id item)
                    (Some (OrderDetail.product_unit_id item))
                    (numeric_of_float (sign r)) (Some ref) (Some order_id)
                    (User.id user)])
              (committed w))
       | None => (Raised AttributeError, w)
       end) ->
  forall (items : list OrderDetail.t) (w : World),
    Forall (fun item => is_Some (required (session w) item)) items ->
    exists new,
      for_each body items w
      = (Returned tt, mkWorld (with_movements (session w) new) (committed w))
      /\ Forall2 (fun item tx =>
                    exists r, required (session w) item = Some r /\
                      movement_for numeric_of_float ref order_id order user
                        item (sign r) tx) items new.
Proof.
  intros Hbody items. induction items as [|item items IH]; intros w Hall.
  - exists []. rewrite with_movements_nil. destruct w. split; [reflexivity|constructor].
  - inversion Hall as [|? ? [r Hr] Hrest]; subst.
    cbn [for_each]. unfold bind at 1. rewrite Hbody, Hr.
    set (tx := InventoryTransaction.mk _ _ _ _ _ _ _).
    destruct (IH (mkWorld (with_movements (session w) [tx]) (committed w)))
      as (new & Hrun & Hnew).
    { exact Hrest. }
    exists (tx :: new). split.
    + rewrite Hrun. cbn [session committed]. rewrite with_movements_app.
      reflexivity.
    + constructor; [exists r; split; [exact Hr|reflexivity]|exact Hnew].
Qed.

Lemma deduct_stock_run (order_id : Z) (order : Order.t) (user : User.t)
    (item : OrderDetail.t) (w : World) :
  deduct_stock numeric_of_float order_id order user item w =
    match required (session w) item with
    | Some r =>
        (Returned tt,
         mkWorld
           (with_movements (session w)
              [InventoryTransaction.mk (Order.store_id order)
                 (OrderDetail.product_id item)
                 (Some (OrderDetail.product_unit_id item))
                 (numeric_of_float (Float.neg r)) (Some "order")
                 (Some order_id) (User.id user)])
           (committed w))
    | None => (Raised AttributeError, w)
    end.
Proof.
  unfold deduct_stock, item_product_unit, required. run.
  destruct (product_units (session w) !! OrderDetail.product_unit_id item);
    reflexivity.
Qed.

Lemma restore_stock_run (order_id : Z) (order : Order.t) (user : User.t)
    (item : OrderDetail.t) (w : World) :
  restore_stock numeric_of_float order_id order user item w =
    match required (session w) item with
    | Some r =>
        (Returned tt,
         mkWorld
           (with_movements (session w)
              [InventoryTransaction.mk (Order.store_id order)
                 (OrderDetail.product_id item)
                 (Some (OrderDetail.product_unit_id item))
                 (numeric_of_float ((fun x => x) r)) (Some "order_cancel")
                 (Some order_id) (User.id user)])
           (committed w))
    | None => (Raised AttributeError, w)
    end.
Proof.
  unfold restore_stock, item_product_unit, required. run.
  destruct (product_units (session w) !! OrderDetail.product_unit_id item);
    reflexivity.
Qed.
End Loops.

Lemma verdict_required (t : Tables) (item : OrderDetail.t) (v : bool) :
  stock_verdict t item = Some v -> is_Some (required t item).
Proof.
  unfold stock_verdict. destruct (products t !! _); [|discriminate].
  destruct (required t item); [eauto|discriminate].
Qed.


(** [Float.number_lt] compares the two exact values. *)
Lemma number_lt_value (n : Py.number) (f : float) (v : Q) :
  Float.value f = Some v ->
  Float.number_lt n f = Some (negb (Qle_bool v (Py.value n))).
Proof.
  destruct f as [s|s| |s m e], n as [z|d];
    cbn [Float.value Float.number_lt Float.exact_lt];
    try discriminate; intros [= <-]; reflexivity.
Qed.


Lemma verdict_covered (t : Tables) (item : OrderDetail.t) :
  line_covered t item -> stock_verdict t item = Some false.
Proof.
  intros (p & pu & v & Hp & Hpu & Hv & Hle).
  unfold stock_verdict, required. rewrite Hp, Hpu. cbn [fmap option_fmap option_map].
  rewrite (number_lt_value _ _ v Hv). f_equal. apply negb_false_iff.
  apply Qle_bool_iff, Hle.
Qed.




(** ** Confirmation *)

Section Confirm.
Variable numeric_of_float : float -> Decimal.
Variable clock : Clock.


End Confirm.

(** ** Cancellation *)

Lemma canceled_status (order : Order.t) (reason : option string) :
  Order.status (canceled order reason) = CANCELED.
Proof.
  unfold canceled. destruct reason as [r|]; [|reflexivity].
  destruct (bool_decide (r = "")); reflexivity.
Qed.



Lemma reduce_debt_value (c : Customer.t) (amount : Decimal) :
  (Dec.value (Customer.debt_balance (Customer.reduce_debt c amount))
   == Qmax 0 (Dec.value (Customer.debt_balance c) - Dec.value amount))%Q.
Proof.
  unfold Customer.reduce_debt. cbn [Customer.debt_balance].
  rewrite Dec_value_max, Dec_value_sub. reflexivity.
Qed.

Section Cancel.
Variable numeric_of_float : float -> Decimal.

End Cancel.

(** ** Terminal states *)

(** A loop whose body leaves the order table alone leaves it alone,
    whether it completes or raises. *)
Lemma for_each_keeps_orders {A} (body : A -> Session unit) :
  (forall x w, orders (session (body x w).2) = orders (session w)) ->
  forall l w, orders (session (for_each body l w).2) = orders (session w).
Proof.
  intros Hbody l. induction l as [|x l IH]; intros w; [reflexivity|].
  cbn [for_each]. unfold bind. specialize (Hbody x w).
  destruct (body x w) as [[[]|e] w1]; cbn [snd] in *.
  - rewrite IH. exact Hbody.
  - exact Hbody.
Qed.

Section Terminal.
Variable numeric_of_float : float -> Decimal.
Variable clock : Clock.

Lemma deduct_stock_keeps_orders order_id order user item w :
  orders (session (deduct_stock numeric_of_float order_id order user item w).2)
  = orders (session w).
Proof.
  rewrite deduct_stock_run. destruct (required (session w) item); reflexivity.
Qed.

Lemma restore_stock_keeps_orders order_id order user item w :
  orders (session (restore_stock numeric_of_float order_id order user item w).2)
  = orders (session w).
Proof.
  rewrite restore_stock_run. destruct (required (session w) item); reflexivity.
Qed.

(** [confirm_order] writes the order table at most once: the confirmed row
    of a NEW order, at the very end. *)
Lemma confirm_order_orders (order_id : Z) (user : User.t) (w w' : World)
    (r : Outcome Order.t) :
  confirm_order numeric_of_float clock order_id user w = (r, w') ->
  orders (session w') = orders (session w) \/
  exists order,
    orders (session w) !! order_id = Some order /\ Order.status order = NEW /\
    orders (session w')
    = <[order_id := Order.confirm order (User.id user) (utcnow clock)]>
        (orders (session w)).
Proof.
  intros H. unfold confirm_order in H.
  unfold bind at 1 in H; unfold query at 1 in H.
  destruct (orders (session w) !! order_id) as [order|] eqn:Horder;
    [|left; injection H as _ <-; reflexivity].
  destruct (User.can_access_store user (Order.store_id order));
    [|left; injection H as _ <-; reflexivity].
  cbn [negb] in H. destruct (bool_decide (Order.status order = NEW)) eqn:Hnew;
    [|left; injection H as _ <-; reflexivity].
  apply bool_decide_eq_true_1 in Hnew. cbn [negb] in H.
  unfold bind at 1 in H; unfold query at 1 in H. unfold bind at 1 in H.
  pose proof (check_loop_keeps_world (order_items (session w) order_id) w) as Hw.
  destruct (for_each check_stock _ w) as [[[]|e] w1]; cbn [snd] in Hw; subst w1;
    [|left; injection H as _ <-; reflexivity].
  unfold bind at 1 in H.
  pose proof (for_each_keeps_orders
                (deduct_stock numeric_of_float order_id order user)
                (deduct_stock_keeps_orders order_id order user)
                (order_items (session w) order_id) w) as Hd.
  destruct (for_each (deduct_stock _ _ _ _) _ w) as [[[]|e] w2];
    cbn [snd] in Hd; [|left; injection H as _ <-; exact Hd].
  right. exists order. repeat split; try assumption.
  revert H. unfold order_customer.
  destruct (Order.is_credit order).
  - destruct (Order.customer_id order) as [cid|].
    + run. tables. destruct (customers (session w2) !! cid); tables;
        intros H; injection H as _ <-; tables; rewrite Hd; reflexivity.
    + run. tables. intros H; injection H as _ <-; tables.
      rewrite Hd. reflexivity.
  - run. tables. intros H; injection H as _ <-; tables.
    rewrite Hd. reflexivity.
Qed.

(** [cancel_order] writes the order table at most once: the canceled row
    of an order that is not COMPLETED, at the very end. *)
Lemma cancel_order_orders (order_id : Z) (user : User.t)
    (reason : option string) (w w' : World) (r : Outcome Order.t) :
  cancel_order numeric_of_float order_id user reason w = (r, w') ->
  orders (session w') = orders (session w) \/
  exists order,
    orders (session w) !! order_id = Some order /\
    Order.status order <> COMPLETED /\
    orders (session w')
    = <[order_id := canceled order reason]> (orders (session w)).
Proof.
  intros H. unfold cancel_order in H.
  unfold bind at 1 in H; unfold query at 1 in H.
  destruct (orders (session w) !! order_id) as [order|] eqn:Horder;
    [|left; injection H as _ <-; reflexivity].
  destruct (User.can_access_store user (Order.store_id order));
    [|left; injection H as _ <-; reflexivity].
  cbn [negb] in H.
  destruct (bool_decide (Order.status order = COMPLETED)) eqn:Hc;
    [left; injection H as _ <-; reflexivity|].
  apply bool_decide_eq_false_1 in Hc.
  destruct (bool_decide (Order.status order = CONFIRMED)).
  - unfold bind at 1 in H. unfold bind at 1 in H. unfold query at 1 in H.
    unfold bind at 1 in H.
    pose proof (for_each_keeps_orders
                  (restore_stock numeric_of_float order_id order user)
                  (restore_stock_keeps_orders order_id order user)
                  (order_items (session w) order_id) w) as Hd.
    destruct (for_each (restore_stock _ _ _ _) _ w) as [[[]|e] w2];
      cbn [snd] in Hd; [|left; injection H as _ <-; exact Hd].
    right. exists order. repeat split; try assumption.
    revert H. unfold canceled, order_customer.
    destruct (Order.is_credit order), (Order.customer_id order) as [cid|];
      run; tables;
      try (intros H; injection H as _ <-; tables; rewrite Hd; reflexivity).
    destruct (customers (session w2) !! cid); tables;
      intros H; injection H as _ <-; tables; rewrite Hd; reflexivity.
  - right. exists order. repeat split; try assumption.
    revert H. unfold canceled. run. intros H; injection H as _ <-.
    reflexivity.
Qed.

(** C6, as the service has it.  For an order the actor may access:
    - [confirm_order] on any order that is not NEW (CONFIRMED, COMPLETED
      or CANCELED) raises [OrderAlreadyConfirmedError] and changes
      nothing;
    - [cancel_order] on a COMPLETED order raises [ValidationError] and
      changes nothing;
    - [cancel_order] on a CANCELED order returns: the status stays
      CANCELED, no movement, ledger entry or debt change is written;
    - whatever order id, actor and reason [confirm_order] or
      [cancel_order] is called with, and whatever its outcome, every order
      that was COMPLETED or CANCELED keeps its status. *)
Theorem C6_terminal_states
    (w : World) (order_id : Z) (order : Order.t) (current_user : User.t)
    (reason : option string) :
  orders (session w) !! order_id = Some order ->
  User.can_access_store current_user (Order.store_id order) = true ->
  (Order.status order <> NEW ->
   confirm_order numeric_of_float clock order_id current_user w
   = (Raised OrderAlreadyConfirmedError, w))
  /\ (Order.status order = COMPLETED ->
      cancel_order numeric_of_float order_id current_user reason w
      = (Raised ValidationError, w))
  /\ (Order.status order = CANCELED ->
      exists w',
        cancel_order numeric_of_float order_id current_user reason w
        = (Returned (canceled order reason), w')
        /\ Order.status (canceled order reason) = CANCELED
        /\ orders (session w')
           = <[order_id := canceled order reason]> (orders (session w))
        /\ inventory_transactions (session w')
           = inventory_transactions (session w)
        /\ bookkeeping_entries (session w') = bookkeeping_entries (session w)
        /\ customers (session w') = customers (session w))
  /\ (forall (k : Z) (o : Order.t) (any_id : Z) (any_user : User.t)
        (any_reason : option string),
        orders (session w) !! k = Some o ->
        Order.status o = COMPLETED \/ Order.status o = CANCELED ->
        (exists o',
           orders (session
             (confirm_order numeric_of_float clock any_id any_user w).2) !! k
           = Some o' /\ Order.status o' = Order.status o)
        /\ (exists o',
              orders (session
                (cancel_order numeric_of_float any_id any_user any_reason w).2)
                !! k
              = Some o' /\ Order.status o' = Order.status o)).
Proof.
  intros Horder Haccess. repeat split.
  - intros Hst. unfold confirm_order. unfold bind at 1; unfold query at 1.
    rewrite Horder, Haccess. cbn [negb].
    rewrite bool_decide_eq_false_2 by exact Hst. reflexivity.
  - intros Hst. unfold cancel_order. unfold bind at 1; unfold query at 1.
    rewrite Horder, Haccess, Hst. cbn [negb].
    rewrite bool_decide_eq_true_2 by reflexivity. reflexivity.
  - intros Hst. unfold cancel_order. unfold bind at 1; unfold query at 1.
    rewrite Horder, Haccess, Hst. cbn [negb].
    rewrite !bool_decide_eq_false_2 by discriminate.
    eexists. split; [unfold canceled; run; reflexivity|].
    tables. repeat split; try reflexivity. apply canceled_status.
  - destruct (confirm_order_orders any_id any_user w _ _ (surjective_pairing _))
      as [Hsame|(o1 & Ho1 & Hnew & Hins)].
    + exists o. rewrite Hsame. split; [assumption|reflexivity].
    + rewrite Hins. destruct (decide (any_id = k)) as [->|Hne].
      * assert (o1 = o) by congruence. subst o1.
        destruct H0 as [Hs|Hs]; rewrite Hs in Hnew; discriminate.
      * exists o. rewrite lookup_insert_ne by exact Hne.
        split; [assumption|reflexivity].
  - destruct (cancel_order_orders any_id any_user any_reason w _ _
                (surjective_pairing _))
      as [Hsame|(o1 & Ho1 & Hnc & Hins)].
    + exists o. rewrite Hsame. split; [assumption|reflexivity].
    + rewrite Hins. destruct (decide (any_id = k)) as [->|Hne].
      * assert (o1 = o) by congruence. subst o1.
        exists (canceled o any_reason). rewrite lookup_insert_eq.
        split; [reflexivity|]. rewrite canceled_status.
        destruct H0 as [Hs|Hs]; [contradiction|symmetry; exact Hs].
      * exists o. rewrite lookup_insert_ne by exact Hne.
        split; [assumption|reflexivity].
Qed.
End Terminal.

(** ** The debt account *)

(** X27.  [Customer.can_add_debt] answers [True] exactly when the
    customer has no limit (none, or zero) or the balance plus the amount
    stays within the limit. *)
Lemma can_add_debt_spec (c : Customer.t) (amount : Decimal) :
  Customer.can_add_debt c amount = true <-> within_limit c amount.
Proof.
  unfold Customer.can_add_debt, within_limit.
  destruct (Customer.debt_limit c) as [limit|]; [|tauto].
  destruct (Dec.is_zero limit) eqn:Hz.
  - apply Dec_is_zero_value in Hz. tauto.
  - rewrite Dec_leb_value, Dec_value_add. split; [tauto|].
    intros [Hzero|Hle]; [|exact Hle].
    apply Dec_is_zero_value in Hzero. congruence.
Qed.

(** C8.  [reduce_debt] floors at zero.  For every balance [x] and amount
    [a], the balance after [reduce_debt(a)] is [max(0, x - a)], hence
    never negative; after a second [reduce_debt(a)] it is
    [max(0, max(0, x - a) - a)], still never negative. *)
Theorem C8_reduce_debt_floor (c : Customer.t) (a : Decimal) :
  let x := Dec.value (Customer.debt_balance c) in
  let once := Customer.reduce_debt c a in
  let twice := Customer.reduce_debt once a in
  (Dec.value (Customer.debt_balance once) == Qmax 0 (x - Dec.value a))%Q
  /\ (0 <= Dec.value (Customer.debt_balance once))%Q
  /\ (Dec.value (Customer.debt_balance twice)
      == Qmax 0 (Qmax 0 (x - Dec.value a) - Dec.value a))%Q
  /\ (0 <= Dec.value (Customer.debt_balance twice))%Q.
Proof.
  cbv zeta. repeat split.
  - apply reduce_debt_value.
  - rewrite reduce_debt_value. apply Q.le_max_l.
  - rewrite !reduce_debt_value. reflexivity.
  - rewrite reduce_debt_value. apply Q.le_max_l.
Qed.

(** ** Current stock *)

Lemma fold_add_value (l : list Decimal) (d : Decimal) :
  (Dec.value (fold_left Dec.add l d)
   == Dec.value d + fold_right (fun x acc => Dec.value x + acc) 0 l)%Q.
Proof.
  revert d. induction l as [|x l IH]; intros d; cbn [fold_left fold_right].
  - ring.
  - rewrite IH, Dec_value_add. ring.
Qed.

(** The value of [... if result else Decimal('0')] over a selection of
    movements is the sum of their values. *)
Lemma sql_sum_value (l : list Decimal) :
  (Dec.value
     match sql_sum l with
     | Some r => if Dec.is_zero r then Dec.zero else r
     | None => Dec.zero
     end
   == fold_right (fun x acc => Dec.value x + acc) 0 l)%Q.
Proof.
  destruct l as [|d l]; cbn [sql_sum fold_right]; [reflexivity|].
  destruct (Dec.is_zero _) eqn:Hz.
  - apply Dec_is_zero_value in Hz. rewrite <- fold_add_value, Hz. reflexivity.
  - apply fold_add_value.
Qed.

(** So is the value of [result or 0]. *)
Lemma sql_sum_or_zero_value (l : list Decimal) :
  (Py.value
     match sql_sum l with
     | Some r => if Dec.is_zero r then Py.int 0 else Py.decimal r
     | None => Py.int 0
     end
   == fold_right (fun x acc => Dec.value x + acc) 0 l)%Q.
Proof.
  destruct l as [|d l]; cbn [sql_sum fold_right]; [reflexivity|].
  destruct (Dec.is_zero _) eqn:Hz; cbn [Py.value].
  - apply Dec_is_zero_value in Hz. rewrite <- fold_add_value, Hz. reflexivity.
  - apply fold_add_value.
Qed.

Lemma get_product_stock_value (txs : list InventoryTransaction.t)
    (store_id product_id : Z) :
  (Dec.value (get_product_stock txs store_id product_id)
   == store_product_total txs store_id product_id)%Q.
Proof.
  unfold get_product_stock. rewrite sql_sum_value.
  induction txs as [|tx txs IH]; [reflexivity|].
  cbn [store_product_total]. rewrite filter_cons.
  destruct (decide _) as [[Hs Hp]|Hn].
  - rewrite Hs, Hp, !Z.eqb_refl. cbn [andb map fold_right]. rewrite IH.
    reflexivity.
  - replace (_ && _) with false.
    + rewrite IH. ring.
    + symmetry. apply andb_false_iff.
      destruct (Z.eqb_spec (InventoryTransaction.store_id tx) store_id);
        destruct (Z.eqb_spec (InventoryTransaction.product_id tx) product_id);
        tauto.
Qed.

Lemma current_stock_value (txs : list InventoryTransaction.t) (product_id : Z) :
  (Py.value (Product.current_stock txs product_id)
   == product_total txs product_id)%Q.
Proof.
  unfold Product.current_stock. rewrite sql_sum_or_zero_value.
  induction txs as [|tx txs IH]; [reflexivity|].
  cbn [product_total]. rewrite filter_cons.
  destruct (decide _) as [Hp|Hn].
  - rewrite Hp, Z.eqb_refl. cbn [map fold_right]. rewrite IH. reflexivity.
  - apply Z.eqb_neq in Hn. rewrite Hn, IH. ring.
Qed.

Lemma totals_agree (txs : list InventoryTransaction.t) (store_id product_id : Z) :
  Forall (fun tx => InventoryTransaction.product_id tx = product_id ->
                    InventoryTransaction.store_id tx = store_id) txs ->
  (product_total txs product_id
   == store_product_total txs store_id product_id)%Q.
Proof.
  induction 1 as [|tx txs Htx _ IH]; [reflexivity|].
  cbn [product_total store_product_total]. rewrite IH.
  destruct (Z.eqb_spec (InventoryTransaction.product_id tx) product_id) as [Hp|Hp].
  - rewrite (Htx Hp), Z.eqb_refl. reflexivity.
  - rewrite andb_false_r. reflexivity.
Qed.

Lemma store_product_total_app (a b : list InventoryTransaction.t) (s p : Z) :
  (store_product_total (a ++ b) s p
   == store_product_total a s p + store_product_total b s p)%Q.
Proof.
  induction a as [|tx a IH]; cbn [app store_product_total]; [ring|].
  rewrite IH. ring.
Qed.



(** Outside consistent tables the two queries part: were movements of a
    product of store 1 recorded under store 2 as well, the stock query of
    store 1 would not count them and the check would. *)
Lemma stock_queries_part_without_consistency :
  let txs := inventory_transactions Sample.shop_two_stores in
  (Dec.value (get_product_stock txs 1 1) == 3)%Q
  /\ (Py.value (Product.current_stock txs 1) == 58)%Q
  /\ ~ consistent Sample.shop_two_stores.
Proof.
  cbv zeta. split; [vm_compute; reflexivity|].
  split; [vm_compute; reflexivity|].
  intros [Hm _ _]. unfold Sample.shop_two_stores in Hm. cbn in Hm.
  inversion Hm as [|? ? _ Hrest]; subst.
  inversion Hrest as [|? ? (p & Hp & Hs) _]; subst.
  vm_compute in Hp. injection Hp as <-. discriminate Hs.
Qed.

(** ** Creation *)

Lemma with_details_nil (t : Tables) : with_details t [] = t.
Proof. destruct t. unfold with_details. cbn. rewrite app_nil_r. reflexivity. Qed.

Lemma with_details_app (t : Tables) (a b : list OrderDetail.t) :
  with_details (with_details t a) b = with_details t (a ++ b).
Proof. unfold with_details. cbn. rewrite <- app_assoc. reflexivity. Qed.

Section CreateLoop.
Variable numeric : nat -> Decimal -> Decimal.

Lemma add_item_run (store_id order_id : Z) (total : Decimal) (item : Item)
    (w : World) :
  item_in_store (session w) store_id item = true ->
  exists pu,
    product_units (session w) !! product_unit_id item = Some pu /\
    add_item numeric store_id order_id total item w
    = (Returned (Dec.add total (item_total item pu)),
       mkWorld (with_details (session w) [detail_of numeric order_id item pu])
         (committed w)).
Proof.
  unfold item_in_store, add_item. run.
  destruct (product_units (session w) !! product_unit_id item) as [pu|];
    [|discriminate].
  destruct (products (session w) !! ProductUnit.product_id pu) as [p|];
    [|discriminate].
  intros Hstore. exists pu. split; [reflexivity|]. run.
  rewrite Hstore. reflexivity.
Qed.

Lemma request_total_units (t t' : Tables) (items : list Item) :
  product_units t' = product_units t ->
  forall start, request_total t' items start = request_total t items start.
Proof. unfold request_total. intros ->. reflexivity. Qed.

(** The loop over the request lines writes one row per line and adds up
    the line totals, whatever the quantities. *)
Lemma add_items_run (store_id order_id : Z) (items : list Item) :
  forall (total : Decimal) (w : World),
    Forall (fun item => item_in_store (session w) store_id item = true) items ->
    exists new,
      for_fold (add_item numeric store_id order_id) total items w
      = (Returned (request_total (session w) items total),
         mkWorld (with_details (session w) new) (committed w))
      /\ Forall2 (fun item d =>
                    exists pu,
                      product_units (session w) !! product_unit_id item = Some pu
                      /\ d = detail_of numeric order_id item pu) items new.
Proof.
  induction items as [|item items IH]; intros total w Hall.
  - exists []. rewrite with_details_nil. destruct w.
    split; [reflexivity|constructor].
  - inversion Hall as [|? ? Hitem Hrest]; subst.
    destruct (add_item_run store_id order_id total item w Hitem)
      as (pu & Hpu & Hrun).
    cbn [for_fold]. unfold bind at 1. rewrite Hrun.
    destruct (IH (Dec.add total (item_total item pu))
                (mkWorld (with_details (session w)
                            [detail_of numeric order_id item pu])
                   (committed w)) Hrest) as (new & Hloop & Hrows).
    exists (detail_of numeric order_id item pu :: new). split.
    + rewrite Hloop. cbn [session committed].
      rewrite with_details_app.
      rewrite (request_total_units (session w)) by reflexivity.
      unfold request_total at 2. cbn [fold_left]. rewrite Hpu. reflexivity.
    + constructor; [exists pu; split; [exact Hpu|reflexivity]|exact Hrows].
Qed.

Lemma add_item_keeps_orders (store_id order_id : Z) (total : Decimal)
    (item : Item) (w : World) :
  orders (session (add_item numeric store_id order_id total item w).2)
  = orders (session w).
Proof.
  unfold add_item. run.
  destruct (product_units (session w) !! product_unit_id item) as [pu|];
    [|reflexivity].
  destruct (products (session w) !! ProductUnit.product_id pu) as [p|];
    [|reflexivity].
  run. destruct (negb _); reflexivity.
Qed.

Lemma add_items_keep_orders (store_id order_id : Z) (items : list Item) :
  forall (total : Decimal) (w : World),
    orders (session (for_fold (add_item numeric store_id order_id) total items w).2)
    = orders (session w).
Proof.
  induction items as [|item items IH]; intros total w; [reflexivity|].
  cbn [for_fold]. unfold bind.
  pose proof (add_item_keeps_orders store_id order_id total item w) as Hitem.
  destruct (add_item numeric store_id order_id total item w) as [[total'|e] w1];
    cbn [snd] in *.
  - rewrite IH. exact Hitem.
  - exact Hitem.
Qed.

End CreateLoop.

Section Create.
Variable numeric : nat -> Decimal -> Decimal.
Variable clock : Clock.

(** [create_order], check by check. *)
Lemma create_order_steps
    (w : World) (store_id : Z) (items : list Item) (current_user : User.t)
    (customer_id : option Z) (is_credit : bool) (notes : option string)
    (source_draft_order_id : option Z) :
  create_order numeric clock store_id items current_user customer_id is_credit
    notes source_draft_order_id w
  = if negb (User.can_access_store current_user store_id)
    then (Raised AuthorizationError, w)
    else
      match named_customer (session w) store_id customer_id with
      | None => (Raised NotFoundError, w)
      | Some customer =>
          if is_credit && negb (bool_decide (is_Some customer))
          then (Raised ValidationError, w)
          else
            let number := generate_order_number (session w) clock store_id in
            if order_number_taken (session w) number
            then (Raised IntegrityError, w)
            else
              let order_id := next_order_id (session w) in
              let order :=
                Order.mk store_id customer_id number NEW is_credit Dec.zero
                  Dec.zero notes (User.id current_user) None None
                  source_draft_order_id (utcnow clock) in
              match for_fold (add_item numeric store_id order_id) Dec.zero items
                      (mkWorld (add_order order (session w)) (committed w)) with
              | (Returned total, w1) =>
                  let order :=
                    created_order numeric clock (session w) store_id
                      current_user customer_id is_credit notes
                      source_draft_order_id total in
                  let t' := set_orders (insert order_id order) (session w1) in
                  (Returned (order_id, order), mkWorld t' t')
              | (Raised e, w1) => (Raised e, w1)
              end
      end.
Proof.
  unfold create_order, named_customer.
  destruct (negb _); [reflexivity|].
  assert (Hrest : forall customer : option Customer.t,
    (if is_credit && negb (bool_decide (is_Some customer))
     then raise ValidationError
     else
       let* number := query (fun t => generate_order_number t clock store_id) in
       let order :=
         Order.mk store_id customer_id number NEW is_credit Dec.zero Dec.zero
           notes (User.id current_user) None None source_draft_order_id
           (utcnow clock) in
       let* order_id := flush_order order in
       let* total := for_fold (add_item numeric store_id order_id) Dec.zero items in
       let total := numeric 2%nat total in
       let order :=
         Order.with_amounts order total
           (if is_credit then Order.paid_amount order else total) in
       let* _ := update (set_orders (insert order_id order)) in
       let* _ := commit in
       ret (order_id, order)) w
    = if is_credit && negb (bool_decide (is_Some customer))
      then (Raised ValidationError, w)
      else
        let number := generate_order_number (session w) clock store_id in
        if order_number_taken (session w) number
        then (Raised IntegrityError, w)
        else
          let order_id := next_order_id (session w) in
          let order :=
            Order.mk store_id customer_id number NEW is_credit Dec.zero
              Dec.zero notes (User.id current_user) None None
              source_draft_order_id (utcnow clock) in
          match for_fold (add_item numeric store_id order_id) Dec.zero items
                  (mkWorld (add_order order (session w)) (committed w)) with
          | (Returned total, w1) =>
              let order :=
                created_order numeric clock (session w) store_id
                  current_user customer_id is_credit notes
                  source_draft_order_id total in
              let t' := set_orders (insert order_id order) (session w1) in
              (Returned (order_id, order), mkWorld t' t')
          | (Raised e, w1) => (Raised e, w1)
          end).
  { intros customer.
    destruct (is_credit && negb (bool_decide (is_Some customer)));
      [reflexivity|].
    unfold bind at 1; unfold query at 1. cbv zeta.
    unfold bind at 1; unfold flush_order.
    unfold bind at 1; unfold query at 1. cbn [Order.order_number].
    destruct (order_number_taken (session w) _); [reflexivity|].
    unfold bind at 1; unfold query at 1.
    unfold bind at 1; unfold update at 1. unfold ret at 1.
    unfold bind at 1. cbn [session committed].
    destruct (for_fold _ _ _ _) as [[total|e] w1]; [|reflexivity].
    run. reflexivity. }
  destruct customer_id as [cid|].
  - destruct (cid =? 0).
    + unfold bind at 1, ret at 1. apply Hrest.
    + unfold bind at 1. unfold bind at 1. unfold query at 1.
      destruct (customers (session w) !! cid) as [c|]; [|reflexivity].
      destruct (Customer.store_id c =? store_id); [|reflexivity].
      unfold ret at 1. apply Hrest.
  - unfold bind at 1, ret at 1. apply Hrest.
Qed.

Lemma named_customer_found (t : Tables) (store_id : Z)
    (customer_id : option Z) (is_credit : bool) :
  (forall cid, customer_id = Some cid -> cid <> 0 ->
     exists c, customers t !! cid = Some c /\ Customer.store_id c = store_id) ->
  (is_credit = true -> exists cid, customer_id = Some cid /\ cid <> 0) ->
  exists customer,
    named_customer t store_id customer_id = Some customer
    /\ is_credit && negb (bool_decide (is_Some customer)) = false.
Proof.
  intros Hcust Hcredit. unfold named_customer.
  destruct customer_id as [cid|].
  - destruct (Z.eqb_spec cid 0) as [Hz|Hnz].
    + exists None. split; [reflexivity|]. destruct is_credit; [|reflexivity].
      destruct (Hcredit eq_refl) as (cid' & Heq & Hne). congruence.
    + destruct (Hcust cid eq_refl Hnz) as (c & -> & ->). rewrite Z.eqb_refl.
      exists (Some c). split; [reflexivity|].
      rewrite bool_decide_eq_true_2 by eauto. apply andb_false_r.
  - exists None. split; [reflexivity|]. destruct is_credit; [|reflexivity].
    destruct (Hcredit eq_refl) as (cid' & Heq & Hne). discriminate.
Qed.

Lemma named_customer_checked (t : Tables) (store_id : Z)
    (customer_id : option Z) (is_credit : bool) (customer : option Customer.t) :
  named_customer t store_id customer_id = Some customer ->
  is_credit && negb (bool_decide (is_Some customer)) = false ->
  (forall cid, customer_id = Some cid -> cid <> 0 ->
     exists c, customers t !! cid = Some c /\ Customer.store_id c = store_id)
  /\ (is_credit = true -> exists cid, customer_id = Some cid /\ cid <> 0).
Proof.
  unfold named_customer. intros Hnamed Hguard.
  assert (Hsome : is_credit = true -> is_Some customer).
  { intros ->. cbn in Hguard. apply negb_false_iff in Hguard.
    apply bool_decide_eq_true_1 in Hguard. exact Hguard. }
  destruct customer_id as [cid|].
  - destruct (Z.eqb_spec cid 0) as [Hz|Hnz].
    + injection Hnamed as <-. split.
      * intros cid' [= <-] Hne. contradiction.
      * intros Hcr. destruct (Hsome Hcr) as [c Hc]. discriminate Hc.
    + destruct (customers t !! cid) as [c|] eqn:Hc; [|discriminate Hnamed].
      destruct (Z.eqb_spec (Customer.store_id c) store_id) as [Hs|Hs];
        [|discriminate Hnamed].
      split.
      * intros cid' [= <-] _. eauto.
      * intros _. eauto.
  - injection Hnamed as <-. split.
    + intros cid' [=].
    + intros Hcr. destruct (Hsome Hcr) as [c Hc]. discriminate Hc.
Qed.

(** The order row and the tables a creation request ends with, when the
    actor may access the store, the customer (if any) is one of the store,
    a credit sale names a customer, the order number is free and every
    line names a unit of a product of the store. *)
Lemma create_order_run
    (w : World) (store_id : Z) (items : list Item) (current_user : User.t)
    (customer_id : option Z) (is_credit : bool) (notes : option string)
    (source_draft_order_id : option Z) :
  User.can_access_store current_user store_id = true ->
  (forall cid, customer_id = Some cid -> cid <> 0 ->
     exists c, customers (session w) !! cid = Some c /\
               Customer.store_id c = store_id) ->
  (is_credit = true -> exists cid, customer_id = Some cid /\ cid <> 0) ->
  order_number_taken (session w)
    (generate_order_number (session w) clock store_id) = false ->
  Forall (fun item => item_in_store (session w) store_id item = true) items ->
  exists new : list OrderDetail.t,
    Forall2 (fun item d =>
               exists pu,
                 product_units (session w) !! product_unit_id item = Some pu
                 /\ d = detail_of numeric (next_order_id (session w)) item pu)
      items new
    /\ create_order numeric clock store_id items current_user customer_id
         is_credit notes source_draft_order_id w
       = (Returned
            (next_order_id (session w),
             created_order numeric clock (session w) store_id current_user
               customer_id is_credit notes source_draft_order_id
               (request_total (session w) items Dec.zero)),
          let t' :=
            created_tables (session w)
              (created_order numeric clock (session w) store_id current_user
                 customer_id is_credit notes source_draft_order_id
                 (request_total (session w) items Dec.zero)) new in
          mkWorld t' t').
Proof.
  intros Haccess Hcust Hcredit Hfree Hitems.
  rewrite create_order_steps, Haccess. cbn [negb].
  destruct (named_customer_found _ _ _ _ Hcust Hcredit)
    as (customer & -> & ->).
  cbv zeta. rewrite Hfree.
  set (order0 := Order.mk store_id customer_id
                   (generate_order_number (session w) clock store_id) NEW
                   is_credit Dec.zero Dec.zero notes (User.id current_user)
                   None None source_draft_order_id (utcnow clock)).
  destruct (add_items_run numeric store_id (next_order_id (session w)) items
              Dec.zero (mkWorld (add_order order0 (session w)) (committed w))
              Hitems) as (new & Hloop & Hrows).
  exists new. split; [exact Hrows|].
  rewrite Hloop. cbn [session].
  rewrite (request_total_units (session w)) by reflexivity.
  unfold created_tables, set_orders, with_details, add_order. tables.
  rewrite insert_insert_eq. reflexivity.
Qed.

(** The order number is unique: a request that passes the checks and is
    given a number some order already carries fails at the flush, and the
    session is as it stood. *)
Lemma create_order_number_clash
    (w : World) (store_id : Z) (items : list Item) (current_user : User.t)
    (customer_id : option Z) (is_credit : bool) (notes : option string)
    (source_draft_order_id : option Z) :
  User.can_access_store current_user store_id = true ->
  (forall cid, customer_id = Some cid -> cid <> 0 ->
     exists c, customers (session w) !! cid = Some c /\
               Customer.store_id c = store_id) ->
  (is_credit = true -> exists cid, customer_id = Some cid /\ cid <> 0) ->
  order_number_taken (session w)
    (generate_order_number (session w) clock store_id) = true ->
  create_order numeric clock store_id items current_user customer_id
    is_credit notes source_draft_order_id w
  = (Raised IntegrityError, w).
Proof.
  intros Haccess Hcust Hcredit Htaken.
  rewrite create_order_steps, Haccess. cbn [negb].
  destruct (named_customer_found _ _ _ _ Hcust Hcredit)
    as (customer & -> & ->).
  cbv zeta. rewrite Htaken. reflexivity.
Qed.

(** C9, as the service has it.  [create_order] does not look at the sign
    of a quantity.  When the actor may access the store, the customer id
    (if one is given) names a customer of the store, a credit sale names a
    customer, the order number is not taken and every line's product unit
    exists with its product in the store, the order is created and
    committed in NEW state with one row per request line.  The row holds
    the column value of the requested quantity, positive, zero or
    negative, which is the quantity itself when it has at most four
    fractional digits, and as line total the column value of
    [quantity * unit_price - discount], within a cent of it; the order
    holds the column value of the sum of the line totals.  Nothing is
    written to the movement log, the ledger or the customers. *)
Theorem C9_create_accepts_any_quantity
    (w : World) (store_id : Z) (items : list Item) (current_user : User.t)
    (customer_id : option Z) (is_credit : bool) (notes : option string)
    (source_draft_order_id : option Z) :
  decimal_column numeric ->
  User.can_access_store current_user store_id = true ->
  (forall cid, customer_id = Some cid -> cid <> 0 ->
     exists c, customers (session w) !! cid = Some c /\
               Customer.store_id c = store_id) ->
  (is_credit = true -> exists cid, customer_id = Some cid /\ cid <> 0) ->
  order_number_taken (session w)
    (generate_order_number (session w) clock store_id) = false ->
  Forall (fun item => item_in_store (session w) store_id item = true) items ->
  exists (new : list OrderDetail.t) (order : Order.t) (w' : World),
    let order_id := next_order_id (session w) in
    create_order numeric clock store_id items current_user customer_id
      is_credit notes source_draft_order_id w
    = (Returned (order_id, order), w')
    /\ committed w' = session w'
    /\ orders (session w') = <[order_id := order]> (orders (session w))
    /\ Order.status order = NEW
    /\ order_details (session w') = order_details (session w) ++ new
    /\ Forall2 (fun item d =>
                  exists pu,
                    product_units (session w) !! product_unit_id item = Some pu
                    /\ d = detail_of numeric order_id item pu
                    /\ OrderDetail.quantity d = numeric 4%nat (quantity item)
                    /\ (Dec.fits 4 (quantity item) ->
                        Dec.value (OrderDetail.quantity d)
                        == Dec.value (quantity item))%Q
                    /\ (Qabs (Dec.value (OrderDetail.line_total d)
                              - (Dec.value (quantity item)
                                 * Dec.value
                                     (default (ProductUnit.price pu)
                                        (unit_price item))
                                 - Dec.value (default Dec.zero (discount item))))
                        <= 1 # 100)%Q
                    /\ (Dec.fits 2 (item_total item pu) ->
                        Dec.value (OrderDetail.line_total d)
                        == Dec.value (quantity item)
                           * Dec.value
                               (default (ProductUnit.price pu) (unit_price item))
                           - Dec.value (default Dec.zero (discount item)))%Q)
         items new
    /\ Order.total_amount order
       = numeric 2%nat (request_total (session w) items Dec.zero)
    /\ inventory_transactions (session w') = inventory_transactions (session w)
    /\ bookkeeping_entries (session w') = bookkeeping_entries (session w)
    /\ customers (session w') = customers (session w).
Proof.
  intros Hcolumn Haccess Hcust Hcredit Hfree Hitems.
  destruct (create_order_run w store_id items current_user customer_id
              is_credit notes source_draft_order_id Haccess Hcust Hcredit
              Hfree Hitems) as (new & Hrows & Hrun).
  exists new. eexists _, _. cbv zeta. split; [exact Hrun|].
  cbn [session committed]. unfold created_tables. tables.
  split; [reflexivity|]. split; [reflexivity|]. split; [reflexivity|].
  split; [reflexivity|]. split; [|repeat split; reflexivity].
  eapply Forall2_impl; [exact Hrows|]. intros item d (pu & Hpu & ->).
  exists pu. unfold detail_of.
  cbn [OrderDetail.quantity OrderDetail.line_total].
  assert (Htotal : (Dec.value (item_total item pu)
                    == Dec.value (quantity item)
                       * Dec.value (default (ProductUnit.price pu) (unit_price item))
                       - Dec.value (default Dec.zero (discount item)))%Q).
  { unfold item_total. rewrite Dec_value_sub, Dec_value_mul. reflexivity. }
  split; [exact Hpu|]. split; [reflexivity|]. split; [reflexivity|].
  split; [apply (decimal_column_exact _ Hcolumn)|].
  split.
  - rewrite <- Htotal. apply (decimal_column_near _ Hcolumn 2%nat).
  - intros Hfit. rewrite <- Htotal.
    apply (decimal_column_exact _ Hcolumn), Hfit.
Qed.

(** C10.  The customer is looked up within the order's store.  When the
    actor may access the store and the customer id supplied exists but
    belongs to another store, [create_order] raises [NotFoundError],
    credit sale or not, and the world is the one it started from: no
    order was added to the session, let alone committed. *)
Theorem C10_customer_of_other_store
    (w : World) (store_id : Z) (items : list Item) (current_user : User.t)
    (cid : Z) (c : Customer.t) (is_credit : bool) (notes : option string)
    (source_draft_order_id : option Z) :
  User.can_access_store current_user store_id = true ->
  cid <> 0 ->
  customers (session w) !! cid = Some c ->
  Customer.store_id c <> store_id ->
  create_order numeric clock store_id items current_user (Some cid) is_credit
    notes source_draft_order_id w
  = (Raised NotFoundError, w).
Proof.
  intros Haccess Hnz Hc Hstore.
  unfold create_order. rewrite Haccess. cbn [negb].
  apply Z.eqb_neq in Hnz, Hstore.
  unfold bind at 1. unfold bind at 1. unfold query at 1.
  rewrite Hnz, Hc, Hstore. reflexivity.
Qed.
End Create.

Section CreateReturns.
Variable numeric : nat -> Decimal -> Decimal.
Variable clock : Clock.

(** X29.  Conversely, an order that [create_order] returns for a non-zero
    customer id names a customer of the order's store. *)
Lemma create_order_customer_in_store
    (w w' : World) (store_id : Z) (items : list Item) (current_user : User.t)
    (cid : Z) (is_credit : bool) (notes : option string)
    (source_draft_order_id : option Z) (order_id : Z) (order : Order.t) :
  cid <> 0 ->
  create_order numeric clock store_id items current_user (Some cid) is_credit
    notes source_draft_order_id w
  = (Returned (order_id, order), w') ->
  exists c, customers (session w) !! cid = Some c /\
            Customer.store_id c = store_id.
Proof.
  intros Hnz H. unfold create_order in H.
  destruct (User.can_access_store current_user store_id); [|discriminate H].
  cbn [negb] in H. apply Z.eqb_neq in Hnz. rewrite Hnz in H.
  unfold bind at 1 in H. unfold bind at 1 in H. unfold query at 1 in H.
  destruct (customers (session w) !! cid) as [c|]; [|discriminate H].
  destruct (Z.eqb_spec (Customer.store_id c) store_id) as [Hs|Hs];
    [|discriminate H].
  exists c. split; [reflexivity|exact Hs].
Qed.
End CreateReturns.

Section CreateKeeps.
Variable numeric : nat -> Decimal -> Decimal.
Variable clock : Clock.

(** X30.  [create_order] writes the order table at the next primary key
    only: every other row, terminal or not, is as it was, whether the call
    returns or raises. *)
Lemma create_order_keeps_existing_orders
    (w w' : World) (store_id : Z) (items : list Item) (current_user : User.t)
    (customer_id : option Z) (is_credit : bool) (notes : option string)
    (source_draft_order_id : option Z) (r : Outcome (Z * Order.t)) (k : Z) :
  create_order numeric clock store_id items current_user customer_id is_credit
    notes source_draft_order_id w = (r, w') ->
  k <> next_order_id (session w) ->
  orders (session w') !! k = orders (session w) !! k.
Proof.
  intros H Hk. rewrite create_order_steps in H.
  destruct (negb _); [injection H as _ <-; reflexivity|].
  destruct (named_customer _ _ _) as [customer|];
    [|injection H as _ <-; reflexivity].
  destruct (is_credit && negb _); [injection H as _ <-; reflexivity|].
  cbv zeta in H.
  destruct (order_number_taken _ _); [injection H as _ <-; reflexivity|].
  match type of H with
  | context [for_fold ?b ?a ?l ?w0] =>
      pose proof (add_items_keep_orders numeric store_id
                    (next_order_id (session w)) items a w0) as Hloop;
      destruct (for_fold b a l w0) as [[total|e] w1]
  end; cbn [snd] in Hloop.
  - injection H as _ <-. tables.
    rewrite lookup_insert_ne by congruence. rewrite Hloop. tables.
    rewrite lookup_insert_ne by congruence. reflexivity.
  - injection H as _ <-. rewrite Hloop. tables.
    rewrite lookup_insert_ne by congruence. reflexivity.
Qed.
End CreateKeeps.

(** ** The debt limit is never consulted *)

Lemma for_each_raises {A} (P : Error -> Prop) (body : A -> Session unit) :
  (forall x w e w', body x w = (Raised e, w') -> P e) ->
  forall l w e w', for_each body l w = (Raised e, w') -> P e.
Proof.
  intros Hbody l. induction l as [|x l IH]; intros w e w' H.
  - discriminate H.
  - cbn [for_each] in H. unfold bind in H.
    destruct (body x w) as [[[]|e1] w1] eqn:Hx.
    + eapply IH, H.
    + injection H as <- _. eapply Hbody, Hx.
Qed.

Section Raises.
Variable numeric_of_float : float -> Decimal.
Variable clock : Clock.

(** X28.  Whatever the tables, the order and the actor, [confirm_order]
    does not raise [InsufficientBalanceError]. *)
Lemma confirm_order_never_insufficient_balance
    (order_id : Z) (user : User.t) (w : World) :
  (confirm_order numeric_of_float clock order_id user w).1
  <> Raised InsufficientBalanceError.
Proof.
  destruct (confirm_order _ _ _ _ w) as [r w'] eqn:H. cbn [fst].
  intros ->. unfold confirm_order in H.
  unfold bind at 1 in H; unfold query at 1 in H.
  destruct (orders (session w) !! order_id) as [order|]; [|discriminate H].
  destruct (User.can_access_store user (Order.store_id order));
    [|discriminate H].
  cbn [negb] in H. destruct (bool_decide (Order.status order = NEW));
    [|discriminate H].
  cbn [negb] in H.
  unfold bind at 1 in H; unfold query at 1 in H. unfold bind at 1 in H.
  destruct (for_each check_stock _ w) as [[[]|e] w1] eqn:Hcheck.
  - unfold bind at 1 in H.
    destruct (for_each (deduct_stock _ _ _ _) _ w1) as [[[]|e] w2] eqn:Hded.
    + revert H. unfold order_customer.
      destruct (Order.is_credit order).
      * destruct (Order.customer_id order) as [cid|]; run; tables.
        -- destruct (customers (session w2) !! cid); discriminate.
        -- discriminate.
      * run. discriminate.
    + injection H as -> _.
      eapply (for_each_raises (fun e => e <> InsufficientBalanceError)) in Hded;
        [contradiction|].
      intros item w0 e w0' Hb. rewrite deduct_stock_run in Hb.
      destruct (required (session w0) item); [discriminate Hb|].
      injection Hb as <- _. discriminate.
  - injection H as -> _.
    eapply (for_each_raises (fun e => e <> InsufficientBalanceError)) in Hcheck;
      [contradiction|].
    intros item w0 e w0' Hb. rewrite check_stock_run in Hb.
    destruct (stock_verdict (session w0) item) as [[|]|].
    + injection Hb as <- _. discriminate.
    + discriminate Hb.
    + destruct (products (session w0) !! _);
        [destruct (required (session w0) item)|];
        injection Hb as <- _; discriminate.
Qed.
End Raises.

(** * The sample shop, run *)

(** ** Confirmation and cancellation on the sample shop *)

Ltac computed := vm_compute; first [reflexivity | discriminate].

Ltac line_facts :=
  repeat first
    [ apply Forall_nil
    | apply Forall_cons
    | eexists
    | split
    | computed ].







(** ** Terminal states on the sample shop *)

(** C6 fails as stated: canceling order 103, which is already CANCELED,
    does not fail; the call returns the order. *)
Lemma C6_cancel_of_canceled_returns :
  orders Sample.shop !! 103
  = Some (Sample.order 4 None CANCELED false (Sample.money 10000))
  /\ (cancel_order Sample.quantize4 103 Sample.clerk None Sample.world).1
     = Returned (Sample.order 4 None CANCELED false (Sample.money 10000)).
Proof. vm_compute. split; reflexivity. Qed.

Lemma C6_witness :
  confirm_order Sample.quantize4 Sample.clock 105 Sample.clerk Sample.world
  = (Raised OrderAlreadyConfirmedError, Sample.world)
  /\ cancel_order Sample.quantize4 105 Sample.clerk None Sample.world
     = (Raised ValidationError, Sample.world).
Proof.
  assert (Horder : orders (session Sample.world) !! 105
                   = Some (Sample.order 6 None COMPLETED false
                             (Sample.money 10000)))
    by (vm_compute; reflexivity).
  assert (Haccess : User.can_access_store Sample.clerk 1 = true)
    by (vm_compute; reflexivity).
  destruct (C6_terminal_states Sample.quantize4 Sample.clock Sample.world 105
              _ Sample.clerk None Horder Haccess)
    as (Hconfirm & Hcancel & _).
  split; [apply Hconfirm; discriminate|apply Hcancel; reflexivity].
Defined.

(** ** The debt limit on the sample shop *)

(** C5 on the code.  Customer 7 owes 200.00 against a limit of 500.00, and
    order 100 is a credit sale of 2,400.00 to that customer:
    [can_add_debt] answers no, yet [confirm_order] returns the confirmed
    order and commits a balance of 2,600.00. *)
Lemma C5_confirm_ignores_debt_limit :
  let c := Customer.mk 1 (Sample.money 20000) (Some (Sample.money 50000)) in
  let order := Sample.order 1 (Some 7) NEW true (Sample.money 240000) in
  let run := confirm_order Sample.quantize4 Sample.clock 100 Sample.clerk
               Sample.world in
  customers Sample.shop !! 7 = Some c
  /\ orders Sample.shop !! 100 = Some order
  /\ Customer.can_add_debt c (Order.total_amount order) = false
  /\ run.1 = Returned (Order.confirm order 2 1700000000)
  /\ customers (committed run.2) !! 7
     = Some (Customer.mk 1 (Sample.money 260000) (Some (Sample.money 50000))).
Proof. vm_compute. repeat split; reflexivity. Qed.

(** ** Binary64 in the stock check *)

(** C7 on the code.  Product 2 has 0.3000 kg in stock and order 104 asks
    for 3 units of 0.1000 kg.  The exact requirement is 3/10, which the
    stock covers; the service computes [float(3) * float(0.1)], the
    binary64 number 5404319552844596 * 2^-54 (0.30000000000000004), finds
    the stock below it and raises [InsufficientStockError]. *)
Lemma C7_stock_check_rounds :
  let item := Sample.line 104 12 (Sample.qty 30000) (Sample.money 3000) 2 in
  let pu := ProductUnit.mk 2 (Sample.money 3000) (Sample.qty 1000) in
  let exact := (Dec.value (OrderDetail.quantity item)
                * Dec.value (ProductUnit.conversion_factor pu))%Q in
  let stock := Product.current_stock (inventory_transactions Sample.shop) 2 in
  order_items Sample.shop 104 = [item]
  /\ product_units Sample.shop !! 12 = Some pu
  /\ (exact == 3 # 10)%Q
  /\ (Py.value stock == 3 # 10)%Q
  /\ Float.value (qty_base item pu)
     = Some (inject_Z 5404319552844596 * Qpower 2 (-54))%Q
  /\ (exact < inject_Z 5404319552844596 * Qpower 2 (-54))%Q
  /\ confirm_order Sample.quantize4 Sample.clock 104 Sample.clerk Sample.world
     = (Raised InsufficientStockError, Sample.world).
Proof. cbv zeta. repeat split; vm_compute; reflexivity. Qed.

(** The rounding goes the other way too.  With 200,000,003.0000 in stock,
    a line of quantity 20,000.0001 in a unit of factor 10,000.0001 needs
    200,000,003.00000001 exactly, more than the stock; the binary64 product
    is 200,000,003, and the check lets the line through. *)
Lemma stock_check_rounds_down :
  let quantity := Dec.mk 200000001 4 in
  let factor := Dec.mk 100000001 4 in
  let stock := Py.decimal (Dec.mk 2000000030000 4) in
  let required :=
    Float.mul (Float.of_decimal quantity) (Float.of_decimal factor) in
  (Py.value stock < Dec.value quantity * Dec.value factor)%Q
  /\ (exists v, Float.value required = Some v /\ (v == 200000003)%Q)
  /\ Float.number_lt stock required = Some false.
Proof.
  cbv zeta. repeat split; try (vm_compute; reflexivity).
  eexists. split; vm_compute; reflexivity.
Qed.

(** ** Creation on the sample shop *)

(** C9 fails as stated: a request with a line of quantity -1 and a line of
    quantity 0 is not rejected; order 106 is created and committed. *)
Lemma C9_nonpositive_quantity_accepted :
  let request := [mkItem 10 (Sample.qty (-10000)) None None;
                  mkItem 10 (Sample.qty 0) None None] in
  let run := create_order Sample.quantize Sample.clock 1 request Sample.clerk
               None false None None Sample.world in
  exists order,
    run.1 = Returned (106, order)
    /\ Order.status order = NEW
    /\ orders (committed run.2) !! 106 = Some order
    /\ map OrderDetail.quantity (order_items (committed run.2) 106)
       = [Sample.qty (-10000); Sample.qty 0]
    /\ run.1 <> Raised ValidationError.
Proof.
  cbv zeta. eexists. split; [vm_compute; reflexivity|].
  repeat split; try (vm_compute; reflexivity). vm_compute. discriminate.
Qed.

Lemma C9_witness :
  exists (order : Order.t) (w' : World),
    create_order Sample.quantize Sample.clock 1
      [mkItem 10 (Sample.qty (-10000)) None None;
       mkItem 10 (Sample.qty 0) None None]
      Sample.clerk None false None None Sample.world
    = (Returned (106, order), w')
    /\ Order.status order = NEW
    /\ Order.total_amount order = Sample.money (-10000)
    /\ order_details (session w')
       = order_details Sample.shop ++
         [ OrderDetail.mk 106 1 10 (Sample.qty (-10000)) (Sample.money 10000)
             (Sample.money 0) (Sample.money (-10000));
           OrderDetail.mk 106 1 10 (Sample.qty 0) (Sample.money 10000)
             (Sample.money 0) (Sample.money 0) ].
Proof.
  assert (Haccess : User.can_access_store Sample.clerk 1 = true)
    by (vm_compute; reflexivity).
  assert (Hitems : Forall (fun item =>
                             item_in_store (session Sample.world) 1 item = true)
                     [mkItem 10 (Sample.qty (-10000)) None None;
                      mkItem 10 (Sample.qty 0) None None]).
  { repeat constructor; vm_compute; reflexivity. }
  assert (Hcustomer : forall cid : Z, @None Z = Some cid -> cid <> 0 ->
            exists c, customers (session Sample.world) !! cid = Some c /\
                      Customer.store_id c = 1)
    by (intros cid H; discriminate H).
  assert (Hcredit : false = true ->
            exists cid : Z, @None Z = Some cid /\ cid <> 0)
    by (intros H; discriminate H).
  assert (Hfree : order_number_taken (session Sample.world)
                    (generate_order_number (session Sample.world)
                       Sample.clock 1) = false)
    by (vm_compute; reflexivity).
  destruct (C9_create_accepts_any_quantity Sample.quantize Sample.clock
              Sample.world 1 _ Sample.clerk None false None None
              quantize_column Haccess Hcustomer Hcredit Hfree Hitems)
    as (new & order & w' & Hrun & _ & _ & Hnew & _).
  exists order, w'. split; [exact Hrun|]. split; [exact Hnew|].
  assert (Hw : w' = (create_order Sample.quantize Sample.clock 1
                       [mkItem 10 (Sample.qty (-10000)) None None;
                        mkItem 10 (Sample.qty 0) None None]
                       Sample.clerk None false None None Sample.world).2)
    by (rewrite Hrun; reflexivity).
  assert (Ho : Returned (106, order)
               = (create_order Sample.quantize Sample.clock 1
                    [mkItem 10 (Sample.qty (-10000)) None None;
                     mkItem 10 (Sample.qty 0) None None]
                    Sample.clerk None false None None Sample.world).1)
    by (rewrite Hrun; reflexivity).
  vm_compute in Ho. injection Ho as ->.
  rewrite Hw. split; vm_compute; reflexivity.
Defined.

Lemma C10_witness :
  create_order Sample.quantize Sample.clock 1
    [mkItem 10 (Sample.qty 10000) None None]
    Sample.clerk (Some 8) true None None Sample.world
  = (Raised NotFoundError, Sample.world).
Proof.
  apply (C10_customer_of_other_store Sample.quantize Sample.clock Sample.world
           1 _ Sample.clerk 8 (Customer.mk 2 (Sample.money 0) None)).
  - vm_compute. reflexivity.
  - discriminate.
  - vm_compute. reflexivity.
  - discriminate.
Defined.

(** * Further facts *)

(** ** Pagination *)

(** X1.  For a positive page size and a non-negative row count,
    [paginated_response] reports the least number of pages that hold all
    the rows. *)
Theorem paginated_total_pages_least (page per_page total : Z) :
  0 < per_page ->
  0 <= total ->
  let pages :=
    Responses.total_pages (Responses.paginated_response page per_page total) in
  total <= pages * per_page
  /\ (forall n, total <= n * per_page -> pages <= n).
Proof.
  intros Hpp Htotal. cbn.
  destruct (Z.ltb_spec 0 per_page) as [_|]; [|lia].
  pose proof (Z.div_mod (total + per_page - 1) per_page ltac:(lia)) as Hdm.
  pose proof (Z.mod_pos_bound (total + per_page - 1) per_page Hpp) as Hmod.
  split; [nia|]. intros n Hn. nia.
Qed.

Lemma paginated_total_pages_least_witness :
  let pages := Responses.total_pages (Responses.paginated_response 1 20 45) in
  45 <= pages * 20 /\ (forall n, 45 <= n * 20 -> pages <= n).
Proof. apply (paginated_total_pages_least 1 20 45); lia. Defined.

(** X2.  For a positive page size, [has_next] is set exactly when rows
    remain after the pages up to the current one; a page size that is not
    positive gives no page at all, without a division. *)
Theorem paginated_has_next (page per_page total : Z) :
  let meta := Responses.paginated_response page per_page total in
  (0 < per_page ->
   (Responses.has_next meta = true <-> page * per_page < total))
  /\ (per_page <= 0 -> Responses.total_pages meta = 0).
Proof.
  cbn. split.
  - intros Hpp. destruct (Z.ltb_spec 0 per_page) as [_|]; [|lia].
    pose proof (Z.div_mod (total + per_page - 1) per_page ltac:(lia)) as Hdm.
    pose proof (Z.mod_pos_bound (total + per_page - 1) per_page Hpp) as Hmod.
    rewrite Z.ltb_lt. split; intros H; nia.
  - intros Hpp. destruct (Z.ltb_spec 0 per_page); [lia|reflexivity].
Qed.

(** ** Roles, permissions and guards *)

Lemma Role_of_value_Some (value : string) (role : Role) :
  Role_of_value value = Some role <-> value = Role_value role.
Proof.
  unfold Role_of_value. split.
  - repeat case_bool_decide; intros Heq; inversion Heq; subst; reflexivity.
  - intros ->. destruct role; reflexivity.
Qed.

Lemma require_permission_spec (permission : string)
    (identity : Decorators.Identity) :
  Decorators.require_permission permission (Some identity) = Decorators.Proceed
  <-> exists role,
        Decorators.role identity = Some (Role_value role)
        /\ permission ∈ PERMISSIONS role.
Proof.
  unfold Decorators.require_permission, has_permission.
  destruct (Decorators.role identity) as [value|]; cbn.
  - destruct (Role_of_value value) as [role|] eqn:Hrole.
    + apply Role_of_value_Some in Hrole. subst value.
      case_bool_decide as Hp; cbn.
      * split; [eauto|reflexivity].
      * split; [discriminate|].
        intros (role' & Heq & Hin).
        assert (role' = role) by (destruct role, role'; cbn in Heq; congruence).
        subst. contradiction.
    + split; [discriminate|]. intros (role & Heq & _).
      injection Heq as ->.
      assert (Role_of_value (Role_value role) = Some role)
        by (apply Role_of_value_Some; reflexivity).
      congruence.
  - split; [discriminate|]. intros (role & Heq & _). discriminate.
Qed.

Ltac permission_list :=
  repeat match goal with
         | H : _ ∈ [] |- _ => apply elem_of_nil in H; contradiction
         | H : _ ∈ _ :: _ |- _ => apply elem_of_cons in H; destruct H as [H|H]
         | H : @eq string _ _ |- _ => discriminate H
         end.

(** X3.  The guards of the order and stock endpoints, read off the
    permission table for any identity a token may carry: orders are created
    by owners and employees; they are confirmed and canceled, and stock is
    imported, by owners only.  An administrator passes none of these
    guards. *)
Theorem order_guards_by_role (identity : Decorators.Identity) :
  let passes permission :=
    Decorators.require_permission permission (Some identity)
    = Decorators.Proceed in
  let role := Decorators.role identity in
  (passes "create_orders" <-> role = Some "owner" \/ role = Some "employee")
  /\ (passes "manage_orders" <-> role = Some "owner")
  /\ (passes "manage_inventory" <-> role = Some "owner")
  /\ (role = Some "admin" ->
      ~ passes "create_orders" /\ ~ passes "view_orders"
      /\ ~ passes "manage_orders" /\ ~ passes "manage_inventory").
Proof.
  cbv zeta. rewrite !require_permission_spec.
  split; [|split; [|split]].
  - split.
    + intros (role & Heq & Hin).
      destruct role; cbn in *; permission_list; auto.
    + intros [H|H]; [exists OWNER|exists EMPLOYEE];
        (split; [exact H|cbn; set_solver]).
  - split.
    + intros (role & Heq & Hin).
      destruct role; cbn in *; permission_list; auto.
    + intros H. exists OWNER. split; [exact H|cbn; set_solver].
  - split.
    + intros (role & Heq & Hin).
      destruct role; cbn in *; permission_list; auto.
    + intros H. exists OWNER. split; [exact H|cbn; set_solver].
  - intros H. repeat split; intros (role & Heq & Hin); rewrite H in Heq;
      destruct role; cbn in *; permission_list; discriminate Heq.
Qed.

(** X4.  The report endpoints are guarded by role, not by permission:
    [require_role(OWNER, ADMIN)] lets through whoever holds
    ["view_reports"], and the administrator besides, who does not hold
    it. *)
Theorem report_guard_by_role (identity : Decorators.Identity) :
  (Decorators.require_role [OWNER; ADMIN] (Some identity) = Decorators.Proceed
   <-> Decorators.require_permission "view_reports" (Some identity)
       = Decorators.Proceed
       \/ Decorators.role identity = Some "admin")
  /\ has_permission ADMIN "view_reports" = false.
Proof.
  split; [|reflexivity].
  rewrite require_permission_spec. unfold Decorators.require_role.
  destruct (Decorators.role identity) as [value|]; cbn.
  - case_bool_decide as Hin; split; try discriminate.
    + intros _. permission_list; subst.
      * left. exists OWNER. split; [reflexivity|cbn; set_solver].
      * right. reflexivity.
    + reflexivity.
    + intros [(role & Heq & Hp)|Heq]; exfalso; apply Hin.
      * injection Heq as ->. destruct role; cbn in Hp; permission_list;
          cbn; set_solver.
      * injection Heq as ->. set_solver.
  - split; [discriminate|]. intros [(role & Heq & _)|Heq]; discriminate.
Qed.

Lemma can_access_store_employee (user : User.t) (store : Z) :
  User.role user = EMPLOYEE ->
  User.can_access_store user store = true <-> User.store_id user = Some store.
Proof.
  intros Hrole. unfold User.can_access_store, User.is_admin, User.is_owner,
    User.is_employee. rewrite Hrole.
  rewrite !bool_decide_eq_false_2 by discriminate.
  rewrite bool_decide_eq_true_2 by reflexivity.
  destruct (User.store_id user) as [s|].
  - rewrite Z.eqb_eq. split; congruence.
  - split; discriminate.
Qed.

(** X5.  [require_store_access], applied to the identity [login] issues
    for a user, never refuses a store that [User.can_access_store] grants;
    for administrators and employees the two agree, while an owner passes
    the guard for every store and is left to the service check. *)
Theorem require_store_access_vs_can_access_store (user : User.t) (store : Z) :
  store <> 0 ->
  let guard :=
    Decorators.require_store_access (Some store)
      (Some (Decorators.identity_of user)) in
  (User.can_access_store user store = true -> guard = Decorators.Proceed)
  /\ (User.role user <> OWNER ->
      (guard = Decorators.Proceed <-> User.can_access_store user store = true))
  /\ (User.role user = OWNER -> guard = Decorators.Proceed).
Proof.
  intros Hstore. cbv zeta. unfold Decorators.require_store_access.
  apply Z.eqb_neq in Hstore. rewrite Hstore.
  cbn [Decorators.identity_of Decorators.role Decorators.store_id].
  destruct (User.role user) eqn:Hrole; cbn.
  - assert (Hadmin : User.can_access_store user store = true).
    { unfold User.can_access_store, User.is_admin. rewrite Hrole. reflexivity. }
    split; [reflexivity|]. split; [|reflexivity].
    intros _. split; [intros _; exact Hadmin|reflexivity].
  - split; [reflexivity|]. split; [congruence|reflexivity].
  - pose proof (can_access_store_employee user store Hrole) as Hemp.
    repeat (rewrite bool_decide_eq_false_2 by discriminate).
    rewrite bool_decide_eq_true_2 by reflexivity.
    case_bool_decide as Hs; cbn in Hs.
    + split; [|split; [|discriminate]].
      * intros H. apply Hemp in H. congruence.
      * intros _. split; [discriminate|].
        intros H. apply Hemp in H. congruence.
    + split; [reflexivity|]. split; [|discriminate].
      intros _. split; [intros _; apply Hemp, Hs|reflexivity].
Qed.

Lemma require_store_access_vs_can_access_store_witness :
  let guard :=
    Decorators.require_store_access (Some 2)
      (Some (Decorators.identity_of Sample.clerk)) in
  (User.can_access_store Sample.clerk 2 = true -> guard = Decorators.Proceed)
  /\ (User.role Sample.clerk <> OWNER ->
      (guard = Decorators.Proceed
       <-> User.can_access_store Sample.clerk 2 = true))
  /\ (User.role Sample.clerk = OWNER -> guard = Decorators.Proceed).
Proof.
  apply (require_store_access_vs_can_access_store Sample.clerk 2). lia.
Defined.

(** X6.  An employee has access to one store at most. *)
Theorem employee_single_store (user : User.t) (s1 s2 : Z) :
  User.role user = EMPLOYEE ->
  User.can_access_store user s1 = true ->
  User.can_access_store user s2 = true ->
  s1 = s2.
Proof.
  intros Hrole H1 H2.
  apply (can_access_store_employee user _ Hrole) in H1, H2. congruence.
Qed.

Lemma employee_single_store_witness :
  User.role Sample.clerk = EMPLOYEE
  /\ User.can_access_store Sample.clerk 1 = true
  /\ forall s, User.can_access_store Sample.clerk s = true -> s = 1.
Proof.
  split; [reflexivity|]. split; [reflexivity|].
  intros s Hs.
  apply (employee_single_store Sample.clerk s 1); [reflexivity|exact Hs|].
  reflexivity.
Defined.

(** ** Customer debt *)

(** X7.  Adding a debt and reducing it by the same amount brings a
    balance that was not negative back to its value; the other columns are
    untouched. *)
Theorem debt_round_trip (c : Customer.t) (amount : Decimal) :
  (0 <= Dec.value (Customer.debt_balance c))%Q ->
  let c' := Customer.reduce_debt (Customer.add_debt c amount) amount in
  (Dec.value (Customer.debt_balance c') == Dec.value (Customer.debt_balance c))%Q
  /\ Customer.store_id c' = Customer.store_id c
  /\ Customer.debt_limit c' = Customer.debt_limit c.
Proof.
  intros Hpos. cbv zeta. split; [|split; reflexivity].
  rewrite reduce_debt_value.
  cbn [Customer.add_debt Customer.debt_balance].
  rewrite Dec_value_add.
  assert (E : (Dec.value (Customer.debt_balance c) + Dec.value amount
               - Dec.value amount == Dec.value (Customer.debt_balance c))%Q)
    by ring.
  rewrite E. apply Q.max_r, Hpos.
Qed.

Lemma debt_round_trip_witness :
  let c := Customer.mk 1 (Sample.money 20000) (Some (Sample.money 50000)) in
  let c' :=
    Customer.reduce_debt (Customer.add_debt c (Sample.money 240000))
      (Sample.money 240000) in
  (Dec.value (Customer.debt_balance c') == Dec.value (Customer.debt_balance c))%Q
  /\ Customer.store_id c' = Customer.store_id c
  /\ Customer.debt_limit c' = Customer.debt_limit c.
Proof.
  apply (debt_round_trip
           (Customer.mk 1 (Sample.money 20000) (Some (Sample.money 50000)))
           (Sample.money 240000)).
  vm_compute. discriminate.
Defined.

(** ** What [create_order] stores *)

Lemma item_in_store_products (t t' : Tables) (store_id : Z) (item : Item) :
  products t' = products t ->
  product_units t' = product_units t ->
  item_in_store t' store_id item = item_in_store t store_id item.
Proof. unfold item_in_store. intros -> ->. reflexivity. Qed.

Section CreateRun.
Variable numeric : nat -> Decimal -> Decimal.
Variable clock : Clock.

Lemma add_item_returned (store_id order_id : Z) (total total' : Decimal)
    (item : Item) (w w' : World) :
  add_item numeric store_id order_id total item w = (Returned total', w') ->
  item_in_store (session w) store_id item = true.
Proof.
  unfold add_item, item_in_store. run.
  destruct (product_units (session w) !! product_unit_id item) as [pu|];
    [|discriminate].
  destruct (products (session w) !! ProductUnit.product_id pu) as [p|];
    [|discriminate].
  run. destruct (Product.store_id p =? store_id); [reflexivity|discriminate].
Qed.

Lemma add_items_returned (store_id order_id : Z) (items : list Item) :
  forall (total total' : Decimal) (w w' : World),
    for_fold (add_item numeric store_id order_id) total items w
    = (Returned total', w') ->
    Forall (fun item => item_in_store (session w) store_id item = true) items.
Proof.
  induction items as [|item items IH]; intros total total' w w' H;
    [constructor|].
  cbn [for_fold] in H. unfold bind at 1 in H.
  destruct (add_item numeric store_id order_id total item w)
    as [[t1|e] w1] eqn:Hitem; [|discriminate H].
  pose proof (add_item_returned _ _ _ _ _ _ _ Hitem) as Hin.
  constructor; [exact Hin|].
  destruct (add_item_run numeric store_id order_id total item w Hin)
    as (pu & _ & Hrun).
  rewrite Hrun in Hitem. injection Hitem as <- <-.
  apply IH in H. eapply Forall_impl; [exact H|].
  intros item' Hitem'. rewrite <- Hitem'. symmetry.
  apply item_in_store_products; reflexivity.
Qed.

(** Conversely, a creation request that returns met the conditions of
    [create_order_run]. *)
Lemma create_order_returned
    (w w' : World) (store_id : Z) (items : list Item) (current_user : User.t)
    (customer_id : option Z) (is_credit : bool) (notes : option string)
    (source_draft_order_id : option Z) (order_id : Z) (order : Order.t) :
  create_order numeric clock store_id items current_user customer_id is_credit
    notes source_draft_order_id w
  = (Returned (order_id, order), w') ->
  User.can_access_store current_user store_id = true
  /\ (forall cid, customer_id = Some cid -> cid <> 0 ->
        exists c, customers (session w) !! cid = Some c /\
                  Customer.store_id c = store_id)
  /\ (is_credit = true -> exists cid, customer_id = Some cid /\ cid <> 0)
  /\ order_number_taken (session w)
       (generate_order_number (session w) clock store_id) = false
  /\ Forall (fun item => item_in_store (session w) store_id item = true) items.
Proof.
  intros H. rewrite create_order_steps in H.
  destruct (User.can_access_store current_user store_id); [|discriminate H].
  split; [reflexivity|]. cbn [negb] in H.
  destruct (named_customer _ _ _) as [customer|] eqn:Hnamed;
    [|discriminate H].
  destruct (is_credit && negb _) eqn:Hguard; [discriminate H|].
  destruct (named_customer_checked _ _ _ _ _ Hnamed Hguard) as [Hcust Hcredit].
  split; [exact Hcust|]. split; [exact Hcredit|].
  cbv zeta in H.
  destruct (order_number_taken _ _); [discriminate H|].
  split; [reflexivity|].
  destruct (for_fold _ _ _ _) as [[total|e] w1] eqn:Hloop; [|discriminate H].
  apply add_items_returned in Hloop. exact Hloop.
Qed.

(** What a returned creation wrote, whatever the request. *)
Lemma create_order_result
    (w w' : World) (store_id : Z) (items : list Item) (current_user : User.t)
    (customer_id : option Z) (is_credit : bool) (notes : option string)
    (source_draft_order_id : option Z) (order_id : Z) (order : Order.t) :
  create_order numeric clock store_id items current_user customer_id is_credit
    notes source_draft_order_id w
  = (Returned (order_id, order), w') ->
  exists new : list OrderDetail.t,
    Forall2 (fun item d =>
               exists pu,
                 product_units (session w) !! product_unit_id item = Some pu
                 /\ d = detail_of numeric (next_order_id (session w)) item pu)
      items new
    /\ Forall (fun item => item_in_store (session w) store_id item = true) items
    /\ order_id = next_order_id (session w)
    /\ order = created_order numeric clock (session w) store_id current_user
                 customer_id is_credit notes source_draft_order_id
                 (request_total (session w) items Dec.zero)
    /\ w' = mkWorld (created_tables (session w) order new)
              (created_tables (session w) order new).
Proof.
  intros H.
  destruct (create_order_returned _ _ _ _ _ _ _ _ _ _ _ H)
    as (Haccess & Hcust & Hcredit & Hfree & Hitems).
  destruct (create_order_run numeric clock w store_id items current_user
              customer_id is_credit notes source_draft_order_id Haccess Hcust
              Hcredit Hfree Hitems) as (new & Hrows & Hrun).
  rewrite Hrun in H. cbv zeta in H. injection H as <- <- <-.
  exists new. repeat split; assumption.
Qed.

End CreateRun.

(** ** The outcomes of [confirm_order] and [cancel_order] *)

Lemma check_loop_returned (items : list OrderDetail.t) (w w' : World) :
  for_each check_stock items w = (Returned tt, w') ->
  Forall (fun item => stock_verdict (session w) item = Some false) items.
Proof.
  induction items as [|item items IH]; intros H; [constructor|].
  cbn [for_each] in H. unfold bind at 1 in H. rewrite check_stock_run in H.
  destruct (stock_verdict (session w) item) as [[|]|] eqn:Hv.
  - discriminate H.
  - constructor; [exact Hv|]. apply IH, H.
  - destruct (products (session w) !! _); [|discriminate H].
    destruct (required (session w) item); discriminate H.
Qed.

Lemma for_each_keeps_committed {A} (body : A -> Session unit) :
  (forall x w, committed (body x w).2 = committed w) ->
  forall l w, committed (for_each body l w).2 = committed w.
Proof.
  intros Hbody l. induction l as [|x l IH]; intros w; [reflexivity|].
  cbn [for_each]. unfold bind. pose proof (Hbody x w) as Hx.
  destruct (body x w) as [[[]|e] w1]; cbn [snd] in *.
  - rewrite IH. exact Hx.
  - exact Hx.
Qed.

Lemma movement_loop_raises (body : OrderDetail.t -> Session unit)
    (row : OrderDetail.t -> float -> InventoryTransaction.t) :
  (forall item w,
     body item w =
       match required (session w) item with
       | Some r =>
           (Returned tt,
            mkWorld (with_movements (session w) [row item r]) (committed w))
       | None => (Raised AttributeError, w)
       end) ->
  forall (items : list OrderDetail.t) (w w' : World) (e : Error),
    for_each body items w = (Raised e, w') ->
    e = AttributeError
    /\ committed w' = committed w
    /\ Exists (fun item => required (session w) item = None) items.
Proof.
  intros Hbody items. induction items as [|item items IH]; intros w w' e H.
  - discriminate H.
  - cbn [for_each] in H. unfold bind at 1 in H. rewrite Hbody in H.
    destruct (required (session w) item) as [r|] eqn:Hr.
    + apply IH in H as (He & Hc & Hex). repeat split; try assumption.
      apply Exists_cons_tl. exact Hex.
    + injection H as <- <-. repeat split. apply Exists_cons_hd. exact Hr.
Qed.

Section Outcomes.
Variable numeric_of_float : float -> Decimal.
Variable clock : Clock.

(** A confirmation that passes its guards and its stock check returns the
    confirmed row and commits [confirmed_tables]. *)
Lemma confirm_order_run
    (w : World) (order_id : Z) (order : Order.t) (current_user : User.t) :
  orders (session w) !! order_id = Some order ->
  User.can_access_store current_user (Order.store_id order) = true ->
  Order.status order = NEW ->
  Forall (fun item => stock_verdict (session w) item = Some false)
    (order_items (session w) order_id) ->
  exists new : list InventoryTransaction.t,
    Forall2 (fun item tx =>
               exists r, required (session w) item = Some r /\
                 movement_for numeric_of_float "order" order_id order
                   current_user item (Float.neg r) tx)
      (order_items (session w) order_id) new
    /\ confirm_order numeric_of_float clock order_id current_user w
       = (Returned (Order.confirm order (User.id current_user) (utcnow clock)),
          mkWorld
            (confirmed_tables clock (session w) order_id order current_user new)
            (confirmed_tables clock (session w) order_id order current_user new)).
Proof.
  intros Horder Haccess Hnew Hok.
  assert (Hreq : Forall (fun item => is_Some (required (session w) item))
                   (order_items (session w) order_id)).
  { eapply Forall_impl; [exact Hok|]. intros item Hv.
    eapply verdict_required, Hv. }
  destruct (movement_loop numeric_of_float
              (deduct_stock numeric_of_float order_id order current_user)
              Float.neg "order" order_id order current_user
              (deduct_stock_run numeric_of_float order_id order current_user)
              _ w Hreq) as (new & Hrun & Hrows).
  exists new. split; [exact Hrows|].
  unfold confirm_order.
  unfold bind at 1; unfold query at 1. rewrite Horder, Haccess, Hnew.
  cbn [negb]. rewrite bool_decide_eq_true_2 by reflexivity. cbn [negb].
  unfold bind at 1; unfold query at 1. unfold bind at 1.
  rewrite (check_loop_passes _ _ Hok).
  unfold bind at 1. rewrite Hrun.
  unfold confirmed_tables, order_customer.
  destruct (Order.is_credit order) eqn:Hcredit.
  - destruct (Order.customer_id order) as [cid|] eqn:Hcid.
    + run. tables. destruct (customers (session w) !! cid) as [c|] eqn:Hc;
        reflexivity.
    + run. reflexivity.
  - run. reflexivity.
Qed.

(** [confirm_order] either raises and leaves the world as it was, or it
    met the conditions of [confirm_order_run]. *)
Lemma confirm_order_cases (w : World) (order_id : Z) (current_user : User.t) :
  (exists e,
     confirm_order numeric_of_float clock order_id current_user w
     = (Raised e, w))
  \/ (exists order,
        orders (session w) !! order_id = Some order
        /\ User.can_access_store current_user (Order.store_id order) = true
        /\ Order.status order = NEW
        /\ Forall (fun item => stock_verdict (session w) item = Some false)
             (order_items (session w) order_id)).
Proof.
  destruct (orders (session w) !! order_id) as [order|] eqn:Horder.
  - destruct (User.can_access_store current_user (Order.store_id order))
      eqn:Haccess.
    + destruct (decide (Order.status order = NEW)) as [Hnew|Hnew].
      * destruct (for_each check_stock (order_items (session w) order_id) w)
          as [[[]|e] w1] eqn:Hcheck.
        -- right. exists order. repeat split; try assumption.
           eapply check_loop_returned, Hcheck.
        -- left. exists e. unfold confirm_order.
           unfold bind at 1; unfold query at 1. rewrite Horder, Haccess.
           cbn [negb]. rewrite bool_decide_eq_true_2 by exact Hnew.
           cbn [negb]. unfold bind at 1; unfold query at 1. unfold bind at 1.
           pose proof (check_loop_keeps_world
                         (order_items (session w) order_id) w) as Hw.
           rewrite Hcheck in *. cbn [snd] in Hw. subst w1. reflexivity.
      * left. exists OrderAlreadyConfirmedError. unfold confirm_order.
        unfold bind at 1; unfold query at 1. rewrite Horder, Haccess.
        cbn [negb]. rewrite bool_decide_eq_false_2 by exact Hnew. reflexivity.
    + left. exists AuthorizationError. unfold confirm_order.
      unfold bind at 1; unfold query at 1. rewrite Horder, Haccess. reflexivity.
  - left. exists NotFoundError. unfold confirm_order.
    unfold bind at 1; unfold query at 1. rewrite Horder. reflexivity.
Qed.

(** A cancellation that passes its guards returns the canceled row and
    commits [canceled_tables], provided the unit rows of the lines of a
    CONFIRMED order exist. *)
Lemma cancel_order_run
    (w : World) (order_id : Z) (order : Order.t) (current_user : User.t)
    (reason : option string) :
  orders (session w) !! order_id = Some order ->
  User.can_access_store current_user (Order.store_id order) = true ->
  Order.status order <> COMPLETED ->
  (Order.status order = CONFIRMED ->
   Forall (fun item => is_Some (required (session w) item))
     (order_items (session w) order_id)) ->
  exists new : list InventoryTransaction.t,
    (if bool_decide (Order.status order = CONFIRMED)
     then Forall2 (fun item tx =>
                     exists r, required (session w) item = Some r /\
                       movement_for numeric_of_float "order_cancel" order_id
                         order current_user item r tx)
            (order_items (session w) order_id) new
     else new = [])
    /\ cancel_order numeric_of_float order_id current_user reason w
       = (Returned (canceled order reason),
          mkWorld (canceled_tables (session w) order_id order reason new)
            (canceled_tables (session w) order_id order reason new)).
Proof.
  intros Horder Haccess Hnc Hreq.
  unfold cancel_order.
  unfold bind at 1; unfold query at 1. rewrite Horder, Haccess.
  cbn [negb].
  rewrite (bool_decide_eq_false_2 (Order.status order = COMPLETED)) by exact Hnc.
  unfold canceled_tables.
  case_bool_decide as Hconf.
  - destruct (movement_loop numeric_of_float
                (restore_stock numeric_of_float order_id order current_user)
                (fun x => x) "order_cancel" order_id order current_user
                (restore_stock_run numeric_of_float order_id order current_user)
                _ w (Hreq Hconf)) as (new & Hrun & Hrows).
    exists new. split; [exact Hrows|].
    unfold bind at 1. unfold bind at 1. unfold query at 1.
    unfold bind at 1. rewrite Hrun.
    unfold canceled, order_customer.
    destruct (Order.is_credit order) eqn:Hcredit.
    + destruct (Order.customer_id order) as [cid|] eqn:Hcid.
      * run. tables. destruct (customers (session w) !! cid) as [c|] eqn:Hc;
          reflexivity.
      * run. reflexivity.
    + run. destruct (match Order.customer_id order with
                     | Some cid => customers (session w) !! cid
                     | None => None
                     end); reflexivity.
  - exists []. split; [reflexivity|].
    unfold canceled. run. rewrite with_movements_nil. destruct reason as [r|].
    + destruct (bool_decide (r = "")); reflexivity.
    + reflexivity.
Qed.

End Outcomes.

(** ** Amounts of a created order *)

Lemma order_items_created (t : Tables) (order : Order.t)
    (new : list OrderDetail.t) :
  Forall (fun d => OrderDetail.order_id d = next_order_id t) new ->
  order_items (created_tables t order new) (next_order_id t)
  = order_items t (next_order_id t) ++ new.
Proof.
  intros Hnew. unfold order_items, created_tables. tables.
  rewrite filter_app. f_equal.
  induction Hnew as [|d new Hd _ IH]; [reflexivity|].
  rewrite filter_cons_True by exact Hd. f_equal. exact IH.
Qed.

Lemma created_lines_order_id {A} (P : A -> OrderDetail.t -> Prop)
    (order_id : Z) (items : list A) (new : list OrderDetail.t) :
  (forall item d, P item d -> OrderDetail.order_id d = order_id) ->
  Forall2 P items new ->
  Forall (fun d => OrderDetail.order_id d = order_id) new.
Proof.
  intros HP H. induction H as [|item d items new Hd _ IH]; constructor.
  - eapply HP, Hd.
  - exact IH.
Qed.

Lemma py_sum_value (l : list Decimal) :
  (Py.value (py_sum l) == Dec.value (fold_left Dec.add l Dec.zero))%Q.
Proof. destruct l; reflexivity. Qed.

Lemma Dec_fits_value (s : nat) (a b : Decimal) :
  (Dec.value a == Dec.value b)%Q -> Dec.fits s a -> Dec.fits s b.
Proof. intros Hab [n Hn]. exists n. rewrite <- Hab. exact Hn. Qed.

Section CreateAmounts.
Variable numeric : nat -> Decimal -> Decimal.
Variable clock : Clock.

(** X8.  The payment columns of a created order.  Whenever [create_order]
    returns, the order is committed under the id returned, in NEW state;
    a cash sale is stored as paid in full ([paid_amount = total_amount],
    [is_fully_paid]), a credit sale with nothing paid, so that what
    remains is the whole total. *)
Theorem create_order_payment
    (w w' : World) (store_id : Z) (items : list Item) (current_user : User.t)
    (customer_id : option Z) (is_credit : bool) (notes : option string)
    (source_draft_order_id : option Z) (order_id : Z) (order : Order.t) :
  create_order numeric clock store_id items current_user customer_id is_credit
    notes source_draft_order_id w
  = (Returned (order_id, order), w') ->
  orders (committed w') !! order_id = Some order
  /\ Order.status order = NEW
  /\ Order.is_credit order = is_credit
  /\ (is_credit = false ->
      Order.paid_amount order = Order.total_amount order
      /\ is_fully_paid order = true)
  /\ (is_credit = true ->
      Order.paid_amount order = Dec.zero
      /\ (Dec.value (Order.remaining_amount order)
          == Dec.value (Order.total_amount order))%Q).
Proof.
  intros H.
  destruct (create_order_result numeric clock _ _ _ _ _ _ _ _ _ _ _ H)
    as (new & _ & _ & -> & Horder & ->).
  split.
  { cbn [committed]. unfold created_tables. tables.
    apply lookup_insert_eq. }
  subst order. unfold created_order.
  cbn [Order.status Order.is_credit Order.paid_amount Order.total_amount].
  split; [reflexivity|]. split; [reflexivity|]. split.
  - intros ->. split; [reflexivity|].
    unfold is_fully_paid, Order.remaining_amount.
    cbn [Order.paid_amount Order.total_amount].
    apply Dec_leb_value. rewrite Dec_value_sub.
    match goal with |- (?x - ?x <= _)%Q =>
      assert (E : (x - x == 0)%Q) by ring; rewrite E end.
    vm_compute. discriminate.
  - intros ->. split; [reflexivity|].
    unfold Order.remaining_amount.
    cbn [Order.paid_amount Order.total_amount].
    rewrite Dec_value_sub.
    assert (E : (Dec.value Dec.zero == 0)%Q) by reflexivity.
    rewrite E. ring.
Qed.

(** The stored lines of a request whose numbers need no rounding add up
    to its running total, and each has the value
    [OrderDetail.calculate_line_total] recomputes. *)
Lemma created_lines_total (t : Tables) (order_id : Z) (items : list Item)
    (new : list OrderDetail.t) :
  decimal_column numeric ->
  Forall (item_fits t) items ->
  Forall2 (fun item d =>
             exists pu,
               product_units t !! product_unit_id item = Some pu
               /\ d = detail_of numeric order_id item pu) items new ->
  Forall (fun d =>
            (Dec.value (OrderDetail.line_total (calculate_line_total d))
             == Dec.value (OrderDetail.line_total d))%Q) new
  /\ forall a b,
       (Dec.value a == Dec.value b)%Q -> Dec.fits 2 a ->
       (Dec.value (request_total t items a)
        == Dec.value (fold_left Dec.add (map OrderDetail.line_total new) b))%Q
       /\ Dec.fits 2 (request_total t items a).
Proof.
  intros Hcolumn Hfit Hrows.
  induction Hrows as [|item d items new (pu & Hpu & ->) _ IH].
  - split; [constructor|]. intros a b Hab Ha. split; assumption.
  - inversion Hfit as [|? ? Hitem Hrest]; subst.
    unfold item_fits in Hitem. rewrite Hpu in Hitem.
    destruct Hitem as (Hq & Hp & Hd & Ht).
    destruct (IH Hrest) as [IHlines IHtotal].
    assert (Hline : (Dec.value
                       (OrderDetail.line_total (detail_of numeric order_id item pu))
                     == Dec.value (item_total item pu))%Q).
    { unfold detail_of. cbn [OrderDetail.line_total].
      apply (decimal_column_exact _ Hcolumn), Ht. }
    split.
    + constructor; [|exact IHlines].
      rewrite Hline. unfold calculate_line_total, detail_of, item_total.
      cbn [OrderDetail.line_total OrderDetail.quantity OrderDetail.unit_price
           OrderDetail.discount].
      rewrite !Dec_value_sub, !Dec_value_mul.
      rewrite (decimal_column_exact _ Hcolumn _ _ Hq),
        (decimal_column_exact _ Hcolumn _ _ Hp),
        (decimal_column_exact _ Hcolumn _ _ Hd).
      reflexivity.
    + intros a b Hab Ha. unfold request_total. cbn [fold_left map].
      rewrite Hpu. apply IHtotal.
      * rewrite !Dec_value_add, Hab, Hline. reflexivity.
      * apply Dec_fits_add; assumption.
Qed.

(** X9.  The total of a created order is the sum of its stored lines,
    when the numbers of the request need no rounding: quantities of at
    most four fractional digits, prices, discounts and line totals of at
    most two, in columns that store such numbers as they are.  When no
    line was stored under the id to be issued, the lines of the new order
    are one per request item, each has the line total that
    [OrderDetail.calculate_line_total] recomputes, and
    [Order.calculate_total] recomputes from them the value [create_order]
    stored as [total_amount]. *)
Theorem create_order_total_matches_lines
    (w w' : World) (store_id : Z) (items : list Item) (current_user : User.t)
    (customer_id : option Z) (is_credit : bool) (notes : option string)
    (source_draft_order_id : option Z) (order_id : Z) (order : Order.t) :
  decimal_column numeric ->
  order_items (session w) (next_order_id (session w)) = [] ->
  Forall (item_fits (session w)) items ->
  create_order numeric clock store_id items current_user customer_id is_credit
    notes source_draft_order_id w
  = (Returned (order_id, order), w') ->
  length (order_items (session w') order_id) = length items
  /\ Forall (fun d =>
               (Dec.value (OrderDetail.line_total (calculate_line_total d))
                == Dec.value (OrderDetail.line_total d))%Q)
       (order_items (session w') order_id)
  /\ (Py.value (calculate_total (session w') order_id)
      == Dec.value (Order.total_amount order))%Q.
Proof.
  intros Hcolumn Hfresh Hfit H.
  destruct (create_order_result numeric clock _ _ _ _ _ _ _ _ _ _ _ H)
    as (new & Hrows & _ & -> & Horder & ->).
  cbn [session].
  assert (Hids : Forall (fun d => OrderDetail.order_id d
                                  = next_order_id (session w)) new).
  { eapply created_lines_order_id; [|exact Hrows].
    intros item d (pu & _ & ->). reflexivity. }
  unfold calculate_total.
  rewrite (order_items_created _ _ _ Hids), Hfresh. cbn [app].
  destruct (created_lines_total _ _ _ _ Hcolumn Hfit Hrows)
    as [Hlines Htotal].
  destruct (Htotal Dec.zero Dec.zero ltac:(reflexivity) (Dec_fits_zero 2))
    as [Hsum Hfits].
  split; [symmetry; eapply Forall2_length, Hrows|].
  split; [exact Hlines|].
  subst order. unfold created_order. cbn [Order.total_amount].
  rewrite py_sum_value, <- Hsum.
  symmetry. apply (decimal_column_exact _ Hcolumn), Hfits.
Qed.

End CreateAmounts.

(** ** Guards of the order lookups *)

Section Guards.
Variable numeric_of_float : float -> Decimal.
Variable clock : Clock.

(** X10.  [get_order_by_id], [confirm_order] and [cancel_order] guard the
    order in the same way and in the same order: an id that names no order
    raises [NotFoundError], an order of a store the actor cannot access
    raises [AuthorizationError], and in both cases the world is left as it
    was; an accessible order is returned by [get_order_by_id] without any
    write. *)
Theorem order_lookup_guards
    (w : World) (order_id : Z) (current_user : User.t)
    (reason : option string) :
  match orders (session w) !! order_id with
  | None =>
      get_order_by_id order_id current_user w = (Raised NotFoundError, w)
      /\ confirm_order numeric_of_float clock order_id current_user w
         = (Raised NotFoundError, w)
      /\ cancel_order numeric_of_float order_id current_user reason w
         = (Raised NotFoundError, w)
  | Some order =>
      if User.can_access_store current_user (Order.store_id order)
      then get_order_by_id order_id current_user w = (Returned order, w)
      else
        get_order_by_id order_id current_user w = (Raised AuthorizationError, w)
        /\ confirm_order numeric_of_float clock order_id current_user w
           = (Raised AuthorizationError, w)
        /\ cancel_order numeric_of_float order_id current_user reason w
           = (Raised AuthorizationError, w)
  end.
Proof.
  destruct (orders (session w) !! order_id) as [order|] eqn:Horder.
  - destruct (User.can_access_store current_user (Order.store_id order))
      eqn:Haccess.
    + unfold get_order_by_id. unfold bind at 1; unfold query at 1.
      rewrite Horder, Haccess. reflexivity.
    + split; [|split].
      * unfold get_order_by_id. unfold bind at 1; unfold query at 1.
        rewrite Horder, Haccess. reflexivity.
      * unfold confirm_order. unfold bind at 1; unfold query at 1.
        rewrite Horder, Haccess. reflexivity.
      * unfold cancel_order. unfold bind at 1; unfold query at 1.
        rewrite Horder, Haccess. reflexivity.
  - split; [|split].
    + unfold get_order_by_id. unfold bind at 1; unfold query at 1.
      rewrite Horder. reflexivity.
    + unfold confirm_order. unfold bind at 1; unfold query at 1.
      rewrite Horder. reflexivity.
    + unfold cancel_order. unfold bind at 1; unfold query at 1.
      rewrite Horder. reflexivity.
Qed.

(** X11.  [confirm_order] is all or nothing: whatever it raises, it
    raises with the world (session and committed tables) as it found it;
    when it returns, the order it returns is CONFIRMED, stored under the
    id asked for, and everything is committed. *)
Theorem confirm_order_all_or_nothing
    (w : World) (order_id : Z) (current_user : User.t) :
  match confirm_order numeric_of_float clock order_id current_user w with
  | (Raised _, w') => w' = w
  | (Returned order, w') =>
      committed w' = session w'
      /\ orders (session w') !! order_id = Some order
      /\ Order.status order = CONFIRMED
  end.
Proof.
  destruct (confirm_order_cases numeric_of_float clock w order_id current_user)
    as [[e He]|(order & Horder & Haccess & Hnew & Hok)].
  - rewrite He. reflexivity.
  - destruct (confirm_order_run numeric_of_float clock w order_id order
                current_user Horder Haccess Hnew Hok) as (new & _ & Hrun).
    rewrite Hrun. cbn [session committed].
    split; [reflexivity|]. split; [|reflexivity].
    unfold confirmed_tables. tables. apply lookup_insert_eq.
Qed.

Lemma cancel_order_raised (w w' : World) (order_id : Z) (current_user : User.t)
    (reason : option string) (e : Error) :
  cancel_order numeric_of_float order_id current_user reason w = (Raised e, w') ->
  committed w' = committed w /\ (e <> AttributeError -> w' = w).
Proof.
  intros H. unfold cancel_order in H.
  unfold bind at 1 in H; unfold query at 1 in H.
  destruct (orders (session w) !! order_id) as [order|];
    [|injection H as _ <-; split; reflexivity].
  destruct (User.can_access_store current_user (Order.store_id order));
    [|injection H as _ <-; split; reflexivity].
  cbn [negb] in H.
  destruct (bool_decide (Order.status order = COMPLETED));
    [injection H as _ <-; split; reflexivity|].
  destruct (bool_decide (Order.status order = CONFIRMED)).
  - unfold bind at 1 in H. unfold bind at 1 in H. unfold query at 1 in H.
    unfold bind at 1 in H.
    destruct (for_each (restore_stock _ _ _ _) _ w) as [[[]|e1] w2] eqn:Hloop.
    + exfalso. revert H. unfold order_customer.
      destruct (Order.is_credit order), (Order.customer_id order) as [cid|];
        run; tables; try discriminate.
      destruct (customers (session w2) !! cid); discriminate.
    + injection H as <- <-.
      eapply (movement_loop_raises _
                (fun item r =>
                   InventoryTransaction.mk (Order.store_id order)
                     (OrderDetail.product_id item)
                     (Some (OrderDetail.product_unit_id item))
                     (numeric_of_float r) (Some "order_cancel")
                     (Some order_id) (User.id current_user)))
        in Hloop as (-> & Hc & _).
      * split; [exact Hc|]. intros Hne. contradiction.
      * intros item w0. apply restore_stock_run.
  - exfalso. revert H. run. discriminate.
Qed.

Lemma cancel_order_returned_committed (w w' : World) (order_id : Z)
    (current_user : User.t) (reason : option string) (order : Order.t) :
  cancel_order numeric_of_float order_id current_user reason w
  = (Returned order, w') ->
  committed w' = session w'.
Proof.
  intros H. unfold cancel_order in H.
  unfold bind at 1 in H; unfold query at 1 in H.
  destruct (orders (session w) !! order_id) as [o|]; [|discriminate H].
  destruct (User.can_access_store current_user (Order.store_id o));
    [|discriminate H].
  cbn [negb] in H.
  destruct (bool_decide (Order.status o = COMPLETED)); [discriminate H|].
  destruct (bool_decide (Order.status o = CONFIRMED)).
  - unfold bind at 1 in H. unfold bind at 1 in H. unfold query at 1 in H.
    unfold bind at 1 in H.
    destruct (for_each (restore_stock _ _ _ _) _ w) as [[[]|e1] w2];
      [|discriminate H].
    revert H. unfold order_customer.
    destruct (Order.is_credit o), (Order.customer_id o) as [cid|];
      run; tables;
      try (intros H; injection H as _ <-; reflexivity).
    destruct (customers (session w2) !! cid);
      intros H; injection H as _ <-; reflexivity.
  - revert H. run. intros H; injection H as _ <-. reflexivity.
Qed.

Variable numeric : nat -> Decimal -> Decimal.

Lemma add_item_keeps_committed (store_id order_id : Z) (total : Decimal)
    (item : Item) (w : World) :
  committed (add_item numeric store_id order_id total item w).2 = committed w.
Proof.
  unfold add_item. run.
  destruct (product_units (session w) !! product_unit_id item) as [pu|];
    [|reflexivity].
  destruct (products (session w) !! ProductUnit.product_id pu) as [p|];
    [|reflexivity].
  run. destruct (negb _); reflexivity.
Qed.

Lemma add_items_keep_committed (store_id order_id : Z) (items : list Item) :
  forall (total : Decimal) (w : World),
    committed (for_fold (add_item numeric store_id order_id) total items w).2
    = committed w.
Proof.
  induction items as [|item items IH]; intros total w; [reflexivity|].
  cbn [for_fold]. unfold bind.
  pose proof (add_item_keeps_committed store_id order_id total item w) as Hitem.
  destruct (add_item numeric store_id order_id total item w)
    as [[total'|e] w1]; cbn [snd] in *.
  - rewrite IH. exact Hitem.
  - exact Hitem.
Qed.

Lemma create_order_raised
    (w w' : World) (store_id : Z) (items : list Item) (current_user : User.t)
    (customer_id : option Z) (is_credit : bool) (notes : option string)
    (source_draft_order_id : option Z) (e : Error) :
  create_order numeric clock store_id items current_user customer_id is_credit
    notes source_draft_order_id w = (Raised e, w') ->
  committed w' = committed w.
Proof.
  intros H. rewrite create_order_steps in H.
  destruct (negb _); [injection H as _ <-; reflexivity|].
  destruct (named_customer _ _ _) as [customer|];
    [|injection H as _ <-; reflexivity].
  destruct (is_credit && negb _); [injection H as _ <-; reflexivity|].
  cbv zeta in H.
  destruct (order_number_taken _ _); [injection H as _ <-; reflexivity|].
  match type of H with
  | context [for_fold ?b ?a ?l ?w0] =>
      pose proof (add_items_keep_committed store_id
                    (next_order_id (session w)) items a w0) as Hloop;
      destruct (for_fold b a l w0) as [[total|e1] w1]
  end; cbn [snd] in Hloop.
  - discriminate H.
  - injection H as _ <-. exact Hloop.
Qed.

(** X12.  The three order services respect the transaction: whatever the
    arguments and the tables, what a call returns is committed, and a call
    that raises has committed nothing. *)
Theorem order_services_transactional
    (store_id : Z) (items : list Item) (current_user : User.t)
    (customer_id : option Z) (is_credit : bool) (notes : option string)
    (source_draft_order_id : option Z) (order_id : Z)
    (reason : option string) :
  transactional
    (create_order numeric clock store_id items current_user customer_id
       is_credit notes source_draft_order_id)
  /\ transactional (confirm_order numeric_of_float clock order_id current_user)
  /\ transactional
       (cancel_order numeric_of_float order_id current_user reason).
Proof.
  split; [|split]; intros w.
  - destruct (create_order _ _ _ _ _ _ _ _ _ w) as [[[oid order]|e] w'] eqn:H.
    + destruct (create_order_result numeric clock _ _ _ _ _ _ _ _ _ _ _ H)
        as (new & _ & _ & _ & _ & ->). reflexivity.
    + eapply create_order_raised, H.
  - destruct (confirm_order_cases numeric_of_float clock w order_id
                current_user)
      as [[e He]|(order & Horder & Haccess & Hnew & Hok)].
    + rewrite He. reflexivity.
    + destruct (confirm_order_run numeric_of_float clock w order_id order
                  current_user Horder Haccess Hnew Hok) as (new & _ & Hrun).
      rewrite Hrun. reflexivity.
  - destruct (cancel_order _ _ _ _ w) as [[order|e] w'] eqn:H.
    + eapply cancel_order_returned_committed, H.
    + eapply cancel_order_raised, H.
Qed.

End Guards.

(** ** Stock levels of a store *)

Lemma stock_sums_fold (store_id product_id : Z)
    (txs : list InventoryTransaction.t) :
  forall sums : gmap Z Decimal,
    fold_left
      (fun sums tx =>
         if bool_decide (InventoryTransaction.store_id tx = store_id) then
           let product_id := InventoryTransaction.product_id tx in
           let qty := InventoryTransaction.qty_change tx in
           <[product_id := match sums !! product_id with
                           | Some stock => Dec.add stock qty
                           | None => qty
                           end]> sums
         else sums)
      txs sums !! product_id
    = let qs :=
        map InventoryTransaction.qty_change
          (filter (fun tx =>
                     InventoryTransaction.store_id tx = store_id /\
                     InventoryTransaction.product_id tx = product_id) txs) in
      match sums !! product_id with
      | Some stock => Some (fold_left Dec.add qs stock)
      | None => sql_sum qs
      end.
Proof.
  induction txs as [|tx txs IH]; intros sums.
  - cbn. destruct (sums !! product_id); reflexivity.
  - cbn [fold_left]. rewrite IH. cbv zeta.
    case_bool_decide as Hs.
    + destruct (decide (InventoryTransaction.product_id tx = product_id))
        as [Hp|Hp].
      * rewrite filter_cons_True by (split; assumption).
        rewrite Hp, lookup_insert_eq.
        destruct (sums !! product_id); reflexivity.
      * rewrite filter_cons_False by (intros [_ ?]; contradiction).
        rewrite lookup_insert_ne by exact Hp. reflexivity.
    + rewrite filter_cons_False by (intros [? _]; contradiction).
      reflexivity.
Qed.

Lemma of_decimal_or_zero (r : Decimal) :
  Float.of_decimal (if Dec.is_zero r then Dec.zero else r) = Float.of_decimal r.
Proof.
  unfold Dec.is_zero. destruct (Z.eqb_spec (Dec.coef r) 0) as [Hz|]; [|reflexivity].
  unfold Float.of_decimal. rewrite Hz. reflexivity.
Qed.

(** X13.  [get_all_stock_levels] and [get_product_stock] agree: the
    dictionary has a key for exactly the products with a movement recorded
    under the store, and the value under a key is the float of what
    [get_product_stock] returns for that product. *)
Theorem get_all_stock_levels_agrees
    (txs : list InventoryTransaction.t) (store_id product_id : Z) :
  let moved tx :=
    InventoryTransaction.store_id tx = store_id
    /\ InventoryTransaction.product_id tx = product_id in
  (get_all_stock_levels txs store_id !! product_id = None
   <-> Forall (fun tx => ~ moved tx) txs)
  /\ (forall level,
        get_all_stock_levels txs store_id !! product_id = Some level ->
        level = Float.of_decimal (get_product_stock txs store_id product_id)).
Proof.
  cbv zeta. unfold get_all_stock_levels, stock_sums, get_product_stock.
  rewrite lookup_fmap, stock_sums_fold, lookup_empty. cbv zeta.
  destruct (filter _ txs) as [|tx0 rest] eqn:Hf.
  - cbn. split; [|discriminate]. split; [|reflexivity]. intros _.
    apply Forall_forall. intros tx Hin Hm.
    assert (Hin' : tx ∈ filter (fun tx =>
                     InventoryTransaction.store_id tx = store_id /\
                     InventoryTransaction.product_id tx = product_id) txs).
    { apply list_elem_of_filter. split; [exact Hm|exact Hin]. }
    rewrite Hf in Hin'. apply elem_of_nil in Hin'. exact Hin'.
  - cbn [map sql_sum fmap option_fmap option_map]. split.
    + split; [discriminate|]. intros Hall. exfalso.
      assert (Hin : tx0 ∈ filter (fun tx =>
                      InventoryTransaction.store_id tx = store_id /\
                      InventoryTransaction.product_id tx = product_id) txs).
      { rewrite Hf. apply list_elem_of_here. }
      apply list_elem_of_filter in Hin as [Hm Hin].
      rewrite Forall_forall in Hall. apply (Hall tx0); [exact Hin|exact Hm].
    + intros level [= <-]. symmetry. apply of_decimal_or_zero.
Qed.

(** ** Stock import *)

Section StockImport.
Variable numeric : nat -> Decimal -> Decimal.

Lemma import_item_in_store_products (t t' : Tables) (store_id : Z)
    (item : ProductController.ImportItem) :
  products t' = products t ->
  import_item_in_store t' store_id item = import_item_in_store t store_id item.
Proof. unfold import_item_in_store. intros ->. reflexivity. Qed.

Lemma import_item_run (store_id : Z) (current_user : User.t)
    (transactions : list InventoryTransaction.t)
    (item : ProductController.ImportItem) (w : World) :
  ProductController.import_item numeric store_id current_user transactions item w
  = if import_item_in_store (session w) store_id item
    then (Returned (transactions ++ [import_row numeric store_id current_user item]),
          mkWorld
            (with_movements (session w)
               [import_row numeric store_id current_user item])
            (committed w))
    else (Raised NotFoundError, w).
Proof.
  unfold ProductController.import_item, import_item_in_store, import_row.
  run. destruct (ProductController.product_id item) as [pid|]; cbn;
    [|reflexivity].
  destruct (products (session w) !! pid) as [p|]; cbn; [|reflexivity].
  destruct (Product.store_id p =? store_id); reflexivity.
Qed.

Lemma import_items_run (store_id : Z) (current_user : User.t)
    (items : list ProductController.ImportItem) :
  forall (transactions : list InventoryTransaction.t) (w : World),
    match for_fold (ProductController.import_item numeric store_id current_user)
            transactions items w with
    | (Returned result, w') =>
        Forall (fun item =>
                  import_item_in_store (session w) store_id item = true) items
        /\ result = transactions ++ map (import_row numeric store_id current_user) items
        /\ w' = mkWorld
                  (with_movements (session w)
                     (map (import_row numeric store_id current_user) items))
                  (committed w)
    | (Raised e, w') =>
        e = NotFoundError
        /\ Exists (fun item =>
                     import_item_in_store (session w) store_id item = false)
             items
        /\ committed w' = committed w
    end.
Proof.
  induction items as [|item items IH]; intros transactions w.
  - cbn. rewrite app_nil_r, with_movements_nil. destruct w.
    repeat split. constructor.
  - cbn [for_fold]. unfold bind at 1. rewrite import_item_run.
    destruct (import_item_in_store (session w) store_id item) eqn:Hitem.
    + specialize (IH (transactions ++ [import_row numeric store_id current_user item])
                    (mkWorld
                       (with_movements (session w)
                          [import_row numeric store_id current_user item])
                       (committed w))).
      destruct (for_fold _ _ items _) as [[result|e] w'].
      * destruct IH as (Hall & -> & ->). cbn [session committed map].
        rewrite with_movements_app, <- app_assoc. repeat split.
        constructor; [exact Hitem|].
        eapply Forall_impl; [exact Hall|]. intros item' <-. symmetry.
        apply import_item_in_store_products. reflexivity.
      * destruct IH as (-> & Hex & Hc). repeat split; [|exact Hc].
        apply Exists_cons_tl. eapply Exists_impl; [exact Hex|].
        intros item' <-. symmetry.
        apply import_item_in_store_products. reflexivity.
    + repeat split. apply Exists_cons_hd. exact Hitem.
Qed.

Lemma imported_rows_total (store_id : Z) (current_user : User.t)
    (t : Tables) (items : list ProductController.ImportItem) (s p : Z) :
  Forall (fun item => import_item_in_store t store_id item = true) items ->
  (store_product_total (map (import_row numeric store_id current_user) items) s p
   == if s =? store_id then imported_total numeric items p else 0)%Q.
Proof.
  induction 1 as [|item items Hitem _ IH].
  - cbn. destruct (s =? store_id); reflexivity.
  - cbn [map store_product_total imported_total]. rewrite IH.
    unfold import_row at 1 2 3.
    cbn [InventoryTransaction.store_id InventoryTransaction.product_id
         InventoryTransaction.qty_change].
    unfold import_item_in_store in Hitem.
    destruct (ProductController.product_id item) as [pid|]; [|discriminate].
    cbn [from_option id]. rewrite (Z.eqb_sym store_id s).
    destruct (s =? store_id); cbn [andb].
    + destruct (Z.eqb_spec pid p) as [->|Hne].
      * rewrite bool_decide_eq_true_2 by reflexivity. reflexivity.
      * rewrite bool_decide_eq_false_2 by congruence. reflexivity.
    + ring.
Qed.

Lemma import_inventory_run
    (w : World) (store_id : Z) (items : list ProductController.ImportItem)
    (current_user : User.t) :
  User.can_access_store current_user store_id = true ->
  Forall (fun item => import_item_in_store (session w) store_id item = true)
    items ->
  ProductController.import_inventory numeric store_id items current_user w
  = (Returned (map (import_row numeric store_id current_user) items),
     mkWorld
       (with_movements (session w)
          (map (import_row numeric store_id current_user) items))
       (with_movements (session w)
          (map (import_row numeric store_id current_user) items))).
Proof.
  intros Haccess Hitems.
  unfold ProductController.import_inventory, or_rollback.
  rewrite Haccess. cbn [negb]. unfold bind at 1.
  pose proof (import_items_run store_id current_user items [] w) as Hrun.
  destruct (for_fold _ _ items w) as [[result|e] w'].
  - destruct Hrun as (_ & -> & ->). reflexivity.
  - destruct Hrun as (_ & Hex & _). exfalso.
    apply Exists_exists in Hex as (item & Hin & Hfalse).
    rewrite Forall_forall in Hitems. rewrite (Hitems item Hin) in Hfalse.
    discriminate.
Qed.

Lemma imported_total_requested
    (items : list ProductController.ImportItem) (p : Z) :
  decimal_column numeric ->
  Forall (fun item =>
            Dec.fits 4 (default Dec.zero (ProductController.quantity item)))
    items ->
  (imported_total numeric items p == requested_total items p)%Q.
Proof.
  intros Hcolumn Hfit. induction Hfit as [|item items Hitem _ IH];
    [reflexivity|].
  cbn [imported_total requested_total]. rewrite IH.
  destruct (bool_decide _); [|reflexivity].
  rewrite (decimal_column_exact _ Hcolumn _ _ Hitem). reflexivity.
Qed.

(** X14.  A stock import by an actor with access to the store, all of
    whose lines name products of the store, records one movement per line
    under that store and commits.  Every product's stock in the store
    rises by the sum of the values the movement column takes for the
    quantities imported for it, which is the sum of those quantities when
    they have at most four fractional digits and the column stores such
    numbers as they are; the stock of other stores is as it was. *)
Theorem import_inventory_records
    (w : World) (store_id : Z) (items : list ProductController.ImportItem)
    (current_user : User.t) :
  User.can_access_store current_user store_id = true ->
  Forall (fun item => import_item_in_store (session w) store_id item = true)
    items ->
  let rows := map (import_row numeric store_id current_user) items in
  let t' := with_movements (session w) rows in
  ProductController.import_inventory numeric store_id items current_user w
  = (Returned rows, mkWorld t' t')
  /\ (forall p,
        (Dec.value (get_product_stock (inventory_transactions t') store_id p)
         == Dec.value
              (get_product_stock (inventory_transactions (session w))
                 store_id p)
            + imported_total numeric items p)%Q)
  /\ (decimal_column numeric ->
      Forall (fun item =>
                Dec.fits 4 (default Dec.zero (ProductController.quantity item)))
        items ->
      forall p,
        (Dec.value (get_product_stock (inventory_transactions t') store_id p)
         == Dec.value
              (get_product_stock (inventory_transactions (session w))
                 store_id p)
            + requested_total items p)%Q)
  /\ (forall s p,
        s <> store_id ->
        (Dec.value (get_product_stock (inventory_transactions t') s p)
         == Dec.value
              (get_product_stock (inventory_transactions (session w)) s p))%Q).
Proof.
  intros Haccess Hitems. cbv zeta.
  assert (Hrise : forall p,
    (Dec.value
       (get_product_stock
          (inventory_transactions
             (with_movements (session w)
                (map (import_row numeric store_id current_user) items)))
          store_id p)
     == Dec.value
          (get_product_stock (inventory_transactions (session w)) store_id p)
        + imported_total numeric items p)%Q).
  { intros p. tables.
    rewrite !get_product_stock_value, store_product_total_app.
    rewrite (imported_rows_total _ _ _ _ _ _ Hitems), Z.eqb_refl.
    reflexivity. }
  split; [apply import_inventory_run; assumption|].
  split; [exact Hrise|]. split.
  - intros Hcolumn Hfit p. rewrite Hrise.
    rewrite (imported_total_requested _ _ Hcolumn Hfit). reflexivity.
  - intros s p Hs. tables.
    rewrite !get_product_stock_value, store_product_total_app.
    rewrite (imported_rows_total _ _ _ _ _ _ Hitems).
    apply Z.eqb_neq in Hs. rewrite Hs. ring.
Qed.

(** X15.  A stock import is all or nothing.  When it is refused, for want
    of access or because one line names no product of the store, the
    session is rolled back to the committed tables, whatever the lines
    before the faulty one; when it answers, one movement per line is
    committed. *)
Theorem import_inventory_all_or_nothing
    (w : World) (store_id : Z) (items : list ProductController.ImportItem)
    (current_user : User.t) :
  match ProductController.import_inventory numeric store_id items current_user w with
  | (Raised e, w') =>
      w' = mkWorld (committed w) (committed w)
      /\ (if User.can_access_store current_user store_id
          then e = NotFoundError
               /\ Exists (fun item =>
                            import_item_in_store (session w) store_id item
                            = false) items
          else e = AuthorizationError)
  | (Returned rows, w') =>
      committed w' = session w'
      /\ length rows = length items
      /\ inventory_transactions (session w')
         = inventory_transactions (session w) ++ rows
  end.
Proof.
  unfold ProductController.import_inventory, or_rollback.
  destruct (User.can_access_store current_user store_id); cbn [negb].
  - unfold bind at 1.
    pose proof (import_items_run store_id current_user items [] w) as Hrun.
    destruct (for_fold _ _ items w) as [[result|e] w'].
    + destruct Hrun as (_ & -> & ->). cbn. rewrite length_map.
      repeat split.
    + destruct Hrun as (-> & Hex & Hc). cbn. rewrite Hc. repeat split.
      exact Hex.
  - cbn. repeat split.
Qed.

End StockImport.

(** ** The references between the tables *)

Lemma consistent_with_movements (t : Tables)
    (new : list InventoryTransaction.t) :
  consistent t ->
  Forall (fun tx =>
            exists p,
              products t !! InventoryTransaction.product_id tx = Some p
              /\ Product.store_id p = InventoryTransaction.store_id tx) new ->
  consistent (with_movements t new).
Proof.
  intros [Hm Hl Hk] Hnew. constructor; tables.
  - apply Forall_app. split; assumption.
  - exact Hl.
  - exact Hk.
Qed.

(** The references hold while there is neither a movement nor an order
    line, and gaining product rows keeps them. *)
Lemma consistent_no_rows (t : Tables) :
  inventory_transactions t = [] ->
  order_details t = [] ->
  (forall k, next_order_id t <= k -> orders t !! k = None) ->
  consistent t.
Proof.
  intros Hm Hl Hk. constructor; [rewrite Hm|rewrite Hl|exact Hk]; constructor.
Qed.

Lemma consistent_more_products (t : Tables) (rows : gmap Z Product.t) :
  products t ⊆ rows ->
  consistent t ->
  consistent
    (mkTables (orders t) (next_order_id t) (order_details t) rows
       (product_units t) (customers t) (inventory_transactions t)
       (bookkeeping_entries t)).
Proof.
  intros Hsub [Hm Hl Hk]. constructor; cbn.
  - eapply Forall_impl; [exact Hm|]. intros tx (p & Hp & Hs).
    exists p. split; [|exact Hs]. eapply lookup_weaken; eassumption.
  - eapply Forall_impl; [exact Hl|]. intros d (o & p & Ho & Hp & Hs).
    exists o, p. split; [exact Ho|]. split; [|exact Hs].
    eapply lookup_weaken; eassumption.
  - exact Hk.
Qed.

Lemma consistent_set_customers (t : Tables)
    (f : gmap Z Customer.t -> gmap Z Customer.t) :
  consistent t -> consistent (set_customers f t).
Proof. intros [Hm Hl Hk]. constructor; tables; assumption. Qed.

Lemma consistent_add_bookkeeping_entry (t : Tables) (e : BookkeepingEntry.t) :
  consistent t -> consistent (add_bookkeeping_entry e t).
Proof. intros [Hm Hl Hk]. constructor; tables; assumption. Qed.

Lemma consistent_set_order (t : Tables) (order_id : Z) (o o' : Order.t) :
  consistent t ->
  orders t !! order_id = Some o ->
  Order.store_id o' = Order.store_id o ->
  consistent (set_orders (insert order_id o') t).
Proof.
  intros [Hm Hl Hk] Ho Hstore. constructor; tables.
  - exact Hm.
  - eapply Forall_impl; [exact Hl|]. intros d (o0 & p & Hd & Hp & Hs).
    destruct (decide (OrderDetail.order_id d = order_id)) as [Heq|Hne].
    + exists o', p. rewrite Heq, lookup_insert_eq.
      rewrite Heq, Ho in Hd. injection Hd as <-.
      repeat split; [exact Hp|congruence].
    + exists o0, p. rewrite lookup_insert_ne by congruence.
      repeat split; assumption.
  - intros k Hle. destruct (decide (k = order_id)) as [->|Hne].
    + rewrite (Hk _ Hle) in Ho. discriminate.
    + rewrite lookup_insert_ne by congruence. apply Hk, Hle.
Qed.

Lemma canceled_store_id (order : Order.t) (reason : option string) :
  Order.store_id (canceled order reason) = Order.store_id order.
Proof.
  unfold canceled. destruct reason as [r|]; [|reflexivity].
  destruct (bool_decide (r = "")); reflexivity.
Qed.

Lemma order_line_movements (numeric_of_float : float -> Decimal)
    (ref : string) (t : Tables) (order_id : Z) (order : Order.t)
    (user : User.t) (sign : float -> float)
    (new : list InventoryTransaction.t) :
  consistent t ->
  orders t !! order_id = Some order ->
  Forall2 (fun item tx =>
             exists r, required t item = Some r /\
               movement_for numeric_of_float ref order_id order user item
                 (sign r) tx)
    (order_items t order_id) new ->
  Forall (fun tx =>
            exists p,
              products t !! InventoryTransaction.product_id tx = Some p
              /\ Product.store_id p = InventoryTransaction.store_id tx) new.
Proof.
  intros [_ Hl _] Horder Hrows.
  assert (Hitems : Forall (fun d =>
            exists p,
              products t !! OrderDetail.product_id d = Some p
              /\ Product.store_id p = Order.store_id order)
            (order_items t order_id)).
  { apply Forall_forall. intros d Hin. unfold order_items in Hin.
    apply list_elem_of_filter in Hin as [Hid Hin].
    rewrite Forall_forall in Hl.
    destruct (Hl d Hin) as (o & p & Ho & Hp & Hs).
    rewrite Hid, Horder in Ho. injection Ho as <-. eauto. }
  revert Hitems. induction Hrows as [|item tx items new (r & _ & ->) _ IH];
    intros Hitems; [constructor|].
  inversion Hitems as [|? ? (p & Hp & Hs) Hrest]; subst.
  constructor; [|apply IH, Hrest].
  exists p. cbn. split; assumption.
Qed.

Lemma movement_loop_returned (body : OrderDetail.t -> Session unit)
    (row : OrderDetail.t -> float -> InventoryTransaction.t) :
  (forall item w,
     body item w =
       match required (session w) item with
       | Some r =>
           (Returned tt,
            mkWorld (with_movements (session w) [row item r]) (committed w))
       | None => (Raised AttributeError, w)
       end) ->
  forall (items : list OrderDetail.t) (w w' : World),
    for_each body items w = (Returned tt, w') ->
    Forall (fun item => is_Some (required (session w) item)) items.
Proof.
  intros Hbody items. induction items as [|item items IH]; intros w w' H;
    [constructor|].
  cbn [for_each] in H. unfold bind at 1 in H. rewrite Hbody in H.
  destruct (required (session w) item) as [r|] eqn:Hr; [|discriminate H].
  constructor; [eauto|]. apply IH in H. exact H.
Qed.

Section Consistency.
Variable numeric_of_float : float -> Decimal.
Variable numeric : nat -> Decimal -> Decimal.
Variable clock : Clock.

Lemma confirm_order_returned
    (w w' : World) (order_id : Z) (current_user : User.t) (order' : Order.t) :
  confirm_order numeric_of_float clock order_id current_user w
  = (Returned order', w') ->
  exists (order : Order.t) (new : list InventoryTransaction.t),
    orders (session w) !! order_id = Some order
    /\ User.can_access_store current_user (Order.store_id order) = true
    /\ Order.status order = NEW
    /\ Forall (fun item => stock_verdict (session w) item = Some false)
         (order_items (session w) order_id)
    /\ Forall2 (fun item tx =>
                  exists r, required (session w) item = Some r /\
                    movement_for numeric_of_float "order" order_id order
                      current_user item (Float.neg r) tx)
         (order_items (session w) order_id) new
    /\ order' = Order.confirm order (User.id current_user) (utcnow clock)
    /\ w' = mkWorld
              (confirmed_tables clock (session w) order_id order current_user
                 new)
              (confirmed_tables clock (session w) order_id order current_user
                 new).
Proof.
  intros H.
  destruct (confirm_order_cases numeric_of_float clock w order_id current_user)
    as [[e He]|(order & Horder & Haccess & Hnew & Hok)].
  - rewrite He in H. discriminate H.
  - destruct (confirm_order_run numeric_of_float clock w order_id order
                current_user Horder Haccess Hnew Hok) as (new & Hrows & Hrun).
    rewrite Hrun in H. injection H as <- <-.
    exists order, new. repeat split; assumption.
Qed.

Lemma cancel_order_returned
    (w w' : World) (order_id : Z) (current_user : User.t)
    (reason : option string) (order' : Order.t) :
  cancel_order numeric_of_float order_id current_user reason w
  = (Returned order', w') ->
  exists (order : Order.t) (new : list InventoryTransaction.t),
    orders (session w) !! order_id = Some order
    /\ User.can_access_store current_user (Order.store_id order) = true
    /\ Order.status order <> COMPLETED
    /\ (if bool_decide (Order.status order = CONFIRMED)
        then Forall2 (fun item tx =>
                        exists r, required (session w) item = Some r /\
                          movement_for numeric_of_float "order_cancel"
                            order_id order current_user item r tx)
               (order_items (session w) order_id) new
        else new = [])
    /\ order' = canceled order reason
    /\ w' = mkWorld (canceled_tables (session w) order_id order reason new)
              (canceled_tables (session w) order_id order reason new).
Proof.
  intros H.
  assert (Hcond : exists order,
    orders (session w) !! order_id = Some order
    /\ User.can_access_store current_user (Order.store_id order) = true
    /\ Order.status order <> COMPLETED
    /\ (Order.status order = CONFIRMED ->
        Forall (fun item => is_Some (required (session w) item))
          (order_items (session w) order_id))).
  { unfold cancel_order in H.
    unfold bind at 1 in H; unfold query at 1 in H.
    destruct (orders (session w) !! order_id) as [order|]; [|discriminate H].
    destruct (User.can_access_store current_user (Order.store_id order))
      eqn:Haccess; [|discriminate H].
    cbn [negb] in H.
    destruct (bool_decide (Order.status order = COMPLETED)) eqn:Hc;
      [discriminate H|].
    apply bool_decide_eq_false_1 in Hc.
    exists order. split; [reflexivity|]. split; [exact Haccess|].
    split; [exact Hc|].
    intros Hconf. rewrite bool_decide_eq_true_2 in H by exact Hconf.
    unfold bind at 1 in H. unfold bind at 1 in H. unfold query at 1 in H.
    unfold bind at 1 in H.
    destruct (for_each (restore_stock _ _ _ _) _ w) as [[[]|e1] w2] eqn:Hloop;
      [|discriminate H].
    eapply (movement_loop_returned _
              (fun item r =>
                 InventoryTransaction.mk (Order.store_id order)
                   (OrderDetail.product_id item)
                   (Some (OrderDetail.product_unit_id item))
                   (numeric_of_float r) (Some "order_cancel")
                   (Some order_id) (User.id current_user))); [|exact Hloop].
    intros item w0. apply restore_stock_run. }
  destruct Hcond as (order & Horder & Haccess & Hnc & Hreq).
  destruct (cancel_order_run numeric_of_float w order_id order current_user
              reason Horder Haccess Hnc Hreq) as (new & Hrows & Hrun).
  rewrite Hrun in H. injection H as <- <-.
  exists order, new. repeat split; assumption.
Qed.

(** X16.  In tables whose references are consistent, the two stock
    queries agree: for a product of the store, [Product.current_stock],
    which the confirmation check reads, has the value of
    [get_product_stock] for the product's store, and [get_product_stock]
    for any other store is zero. *)
Theorem consistent_stock_queries_agree
    (t : Tables) (product_id : Z) (product : Product.t) :
  consistent t ->
  products t !! product_id = Some product ->
  (Py.value (Product.current_stock (inventory_transactions t) product_id)
   == Dec.value
        (get_product_stock (inventory_transactions t)
           (Product.store_id product) product_id))%Q
  /\ (forall s,
        s <> Product.store_id product ->
        (Dec.value (get_product_stock (inventory_transactions t) s product_id)
         == 0)%Q).
Proof.
  intros [Hm _ _] Hp.
  assert (Hall : Forall (fun tx =>
            InventoryTransaction.product_id tx = product_id ->
            InventoryTransaction.store_id tx = Product.store_id product)
            (inventory_transactions t)).
  { eapply Forall_impl; [exact Hm|]. intros tx (p & Hlook & Hs) Hid.
    rewrite Hid, Hp in Hlook. injection Hlook as <-. congruence. }
  split.
  - rewrite current_stock_value, get_product_stock_value.
    apply totals_agree, Hall.
  - intros s Hs. rewrite get_product_stock_value. clear Hm.
    induction Hall as [|tx txs Htx _ IH]; [reflexivity|].
    cbn [store_product_total]. rewrite IH.
    destruct (Z.eqb_spec (InventoryTransaction.store_id tx) s) as [Hst|];
      [|cbn; ring].
    destruct (Z.eqb_spec (InventoryTransaction.product_id tx) product_id)
      as [Hpt|]; [|cbn; ring].
    exfalso. apply Hs. rewrite <- Hst. apply Htx, Hpt.
Qed.

(** X17.  A stock import that answers keeps the references consistent. *)
Theorem import_inventory_keeps_consistent
    (w w' : World) (store_id : Z) (items : list ProductController.ImportItem)
    (current_user : User.t) (rows : list InventoryTransaction.t) :
  consistent (session w) ->
  ProductController.import_inventory numeric store_id items current_user w
  = (Returned rows, w') ->
  consistent (session w').
Proof.
  intros Hcons H.
  unfold ProductController.import_inventory, or_rollback in H.
  destruct (User.can_access_store current_user store_id); [|discriminate H].
  cbn [negb] in H. unfold bind at 1 in H.
  pose proof (import_items_run numeric store_id current_user items [] w)
    as Hrun.
  destruct (for_fold _ _ items w) as [[result|e] w1]; [|discriminate H].
  destruct Hrun as (Hall & -> & ->). injection H as _ <-.
  cbn [session]. apply consistent_with_movements; [exact Hcons|].
  clear -Hall. induction Hall as [|item items Hitem _ IH]; [constructor|].
  cbn [map]. constructor; [|exact IH].
  unfold import_item_in_store in Hitem. unfold import_row. cbn.
  destruct (ProductController.product_id item) as [pid|]; [|discriminate].
  destruct (products (session w) !! pid) as [p|] eqn:Hp; [|discriminate].
  exists p. split; [exact Hp|]. apply Z.eqb_eq, Hitem.
Qed.

(** X18.  An order creation that returns keeps the references
    consistent: the new lines belong to the new order and name products
    of its store, and the id issued was free. *)
Theorem create_order_keeps_consistent
    (w w' : World) (store_id : Z) (items : list Item) (current_user : User.t)
    (customer_id : option Z) (is_credit : bool) (notes : option string)
    (source_draft_order_id : option Z) (order_id : Z) (order : Order.t) :
  consistent (session w) ->
  create_order numeric clock store_id items current_user customer_id is_credit
    notes source_draft_order_id w
  = (Returned (order_id, order), w') ->
  consistent (session w').
Proof.
  intros [Hm Hl Hk] H.
  destruct (create_order_result numeric clock _ _ _ _ _ _ _ _ _ _ _ H)
    as (new & Hrows & Hitems & -> & Horder & ->).
  cbn [session]. unfold created_tables. constructor; tables.
  - exact Hm.
  - apply Forall_app. split.
    + eapply Forall_impl; [exact Hl|]. intros d (o & p & Hd & Hp & Hs).
      exists o, p. repeat split; try assumption.
      rewrite lookup_insert_ne; [exact Hd|].
      intros Heq. rewrite <- Heq in Hd.
      rewrite (Hk (next_order_id (session w))) in Hd by lia. discriminate.
    + assert (Hst : Order.store_id order = store_id)
        by (rewrite Horder; reflexivity).
      clear -Hrows Hitems Hst. revert Hitems.
      induction Hrows as [|item d items new (pu & Hpu & ->) _ IH];
        intros Hitems; [constructor|].
      inversion Hitems as [|? ? Hitem Hrest]; subst.
      constructor; [|apply IH, Hrest].
      unfold item_in_store in Hitem. rewrite Hpu in Hitem.
      destruct (products (session w) !! ProductUnit.product_id pu) as [p|]
        eqn:Hp; [|discriminate].
      exists order, p. unfold detail_of.
      cbn [OrderDetail.order_id OrderDetail.product_id].
      rewrite lookup_insert_eq. repeat split; [exact Hp|].
      apply Z.eqb_eq, Hitem.
  - intros k Hle. rewrite lookup_insert_ne by lia. apply Hk. lia.
Qed.

(** X19.  A confirmation that returns keeps the references consistent:
    every movement it writes is recorded under the store of its
    product. *)
Theorem confirm_order_keeps_consistent
    (w w' : World) (order_id : Z) (current_user : User.t) (order' : Order.t) :
  consistent (session w) ->
  confirm_order numeric_of_float clock order_id current_user w
  = (Returned order', w') ->
  consistent (session w').
Proof.
  intros Hcons H.
  destruct (confirm_order_returned _ _ _ _ _ H)
    as (order & new & Horder & _ & _ & _ & Hrows & _ & ->).
  cbn [session]. unfold confirmed_tables.
  pose proof (order_line_movements _ _ _ _ _ _ _ _ Hcons Horder Hrows) as Hnew.
  pose proof (consistent_with_movements _ _ Hcons Hnew) as Hmoved.
  eapply consistent_set_order with (o := order); [| |reflexivity].
  - destruct (Order.is_credit order).
    + destruct (order_customer (session w) order), (Order.customer_id order);
        try apply consistent_set_customers;
        apply consistent_add_bookkeeping_entry, Hmoved.
    + apply consistent_add_bookkeeping_entry, Hmoved.
  - destruct (Order.is_credit order);
      [destruct (order_customer (session w) order), (Order.customer_id order)|];
      exact Horder.
Qed.

(** X20.  A cancellation that returns keeps the references
    consistent. *)
Theorem cancel_order_keeps_consistent
    (w w' : World) (order_id : Z) (current_user : User.t)
    (reason : option string) (order' : Order.t) :
  consistent (session w) ->
  cancel_order numeric_of_float order_id current_user reason w
  = (Returned order', w') ->
  consistent (session w').
Proof.
  intros Hcons H.
  destruct (cancel_order_returned _ _ _ _ _ _ H)
    as (order & new & Horder & _ & _ & Hrows & _ & ->).
  cbn [session]. unfold canceled_tables.
  assert (Hnew : Forall (fun tx =>
            exists p,
              products (session w) !! InventoryTransaction.product_id tx
              = Some p
              /\ Product.store_id p = InventoryTransaction.store_id tx) new).
  { destruct (bool_decide (Order.status order = CONFIRMED)).
    - eapply (order_line_movements _ _ _ _ _ _ (fun x => x)); eassumption.
    - subst new. constructor. }
  pose proof (consistent_with_movements _ _ Hcons Hnew) as Hmoved.
  eapply consistent_set_order with (o := order);
    [| |apply canceled_store_id].
  - destruct (bool_decide (Order.status order = CONFIRMED)); [|exact Hmoved].
    destruct (Order.is_credit order), (order_customer (session w) order),
      (Order.customer_id order);
      try apply consistent_set_customers; exact Hmoved.
  - destruct (bool_decide (Order.status order = CONFIRMED)); [|exact Horder].
    destruct (Order.is_credit order), (order_customer (session w) order),
      (Order.customer_id order); exact Horder.
Qed.

End Consistency.

(** ** Confirmation followed by cancellation *)

Lemma confirmed_tables_parts (clock : Clock) (t : Tables) (order_id : Z)
    (order : Order.t) (user : User.t) (new : list InventoryTransaction.t) :
  let t' := confirmed_tables clock t order_id order user new in
  orders t'
  = <[order_id := Order.confirm order (User.id user) (utcnow clock)]> (orders t)
  /\ next_order_id t' = next_order_id t
  /\ order_details t' = order_details t
  /\ products t' = products t
  /\ product_units t' = product_units t
  /\ inventory_transactions t' = inventory_transactions t ++ new
  /\ bookkeeping_entries t'
     = bookkeeping_entries t ++ [order_entry clock order_id order user]
  /\ customers t'
     = match Order.is_credit order, order_customer t order,
             Order.customer_id order with
       | true, Some c, Some cid =>
           <[cid := Customer.add_debt c (Order.total_amount order)]>
             (customers t)
       | _, _, _ => customers t
       end.
Proof.
  unfold confirmed_tables, order_entry, create_debt_entry,
    create_revenue_entry.
  destruct (Order.is_credit order);
    [destruct (order_customer t order), (Order.customer_id order)|];
    repeat split.
Qed.

Lemma canceled_tables_parts (t : Tables) (order_id : Z) (order : Order.t)
    (reason : option string) (new : list InventoryTransaction.t) :
  let t' := canceled_tables t order_id order reason new in
  orders t' = <[order_id := canceled order reason]> (orders t)
  /\ next_order_id t' = next_order_id t
  /\ order_details t' = order_details t
  /\ products t' = products t
  /\ product_units t' = product_units t
  /\ inventory_transactions t' = inventory_transactions t ++ new
  /\ bookkeeping_entries t' = bookkeeping_entries t
  /\ customers t'
     = match bool_decide (Order.status order = CONFIRMED),
             Order.is_credit order, order_customer t order,
             Order.customer_id order with
       | true, true, Some c, Some cid =>
           <[cid := Customer.reduce_debt c (Order.total_amount order)]>
             (customers t)
       | _, _, _, _ => customers t
       end.
Proof.
  unfold canceled_tables.
  destruct (bool_decide (Order.status order = CONFIRMED));
    [destruct (Order.is_credit order), (order_customer t order),
       (Order.customer_id order)|];
    repeat split.
Qed.

Lemma opposite_movements (numeric_of_float : float -> Decimal)
    (ref1 ref2 : string) (order_id : Z) (order1 order2 : Order.t)
    (user1 user2 : User.t) (t : Tables) (s p : Z) :
  (forall f, (Dec.value (numeric_of_float (Float.neg f))
              == - Dec.value (numeric_of_float f))%Q) ->
  Order.store_id order1 = Order.store_id order2 ->
  forall (items : list OrderDetail.t) (outs ins : list InventoryTransaction.t),
    Forall2 (fun item tx =>
               exists r, required t item = Some r /\
                 movement_for numeric_of_float ref1 order_id order1 user1 item
                   (Float.neg r) tx) items outs ->
    Forall2 (fun item tx =>
               exists r, required t item = Some r /\
                 movement_for numeric_of_float ref2 order_id order2 user2 item
                   r tx) items ins ->
    (store_product_total outs s p + store_product_total ins s p == 0)%Q.
Proof.
  intros Hsym Hstore items outs ins Houts. revert ins.
  induction Houts as [|item out items outs (r & Hr & ->) _ IH];
    intros ins Hins; inversion Hins as [|? tx ? ins' (r' & Hr' & ->) Hrest];
    subst; [reflexivity|].
  rewrite Hr in Hr'. injection Hr' as <-.
  cbn [store_product_total InventoryTransaction.store_id
       InventoryTransaction.product_id InventoryTransaction.qty_change].
  specialize (IH _ Hrest). rewrite Hstore.
  destruct ((Order.store_id order2 =? s) && (OrderDetail.product_id item =? p)).
  - rewrite Hsym.
    match goal with
    | |- (- ?a + ?x + (?a + ?y) == 0)%Q =>
        assert (E : (- a + x + (a + y) == x + y)%Q) by ring; rewrite E
    end.
    exact IH.
  - match goal with
    | |- (0 + ?x + (0 + ?y) == 0)%Q =>
        assert (E : (0 + x + (0 + y) == x + y)%Q) by ring; rewrite E
    end.
    exact IH.
Qed.

Lemma same_debts_refl (a : gmap Z Customer.t) : same_debts a a.
Proof.
  intros cid. destruct (a !! cid); [|exact I].
  split; [reflexivity|split; reflexivity].
Qed.

Section RoundTrip.
Variable numeric_of_float : float -> Decimal.
Variable clock : Clock.

(** X21.  Confirming a NEW order and canceling it next.  When the driver
    stores the negation of a float as the opposite of what it stores for
    the float, and the customer's balance was not negative, the
    cancellation returns and commits, and afterwards
    - the order is CANCELED;
    - every stock ([get_product_stock] of any store and product) has the
      value it had before the confirmation;
    - every customer's debt has the value it had;
    - the ledger has kept the entry the confirmation wrote: cancellation
      writes no reversal. *)
Theorem confirm_then_cancel
    (w : World) (order_id : Z) (order : Order.t) (current_user : User.t)
    (reason : option string) :
  (forall f, (Dec.value (numeric_of_float (Float.neg f))
              == - Dec.value (numeric_of_float f))%Q) ->
  orders (session w) !! order_id = Some order ->
  User.can_access_store current_user (Order.store_id order) = true ->
  Order.status order = NEW ->
  Forall (line_covered (session w)) (order_items (session w) order_id) ->
  (forall c, order_customer (session w) order = Some c ->
     (0 <= Dec.value (Customer.debt_balance c))%Q) ->
  exists (w1 w2 : World),
    let confirmed :=
      Order.confirm order (User.id current_user) (utcnow clock) in
    confirm_order numeric_of_float clock order_id current_user w
    = (Returned confirmed, w1)
    /\ cancel_order numeric_of_float order_id current_user reason w1
       = (Returned (canceled confirmed reason), w2)
    /\ committed w2 = session w2
    /\ orders (session w2) !! order_id = Some (canceled confirmed reason)
    /\ Order.status (canceled confirmed reason) = CANCELED
    /\ (forall s p,
          (Dec.value (get_product_stock (inventory_transactions (session w2)) s p)
           == Dec.value
                (get_product_stock (inventory_transactions (session w)) s p))%Q)
    /\ same_debts (customers (session w2)) (customers (session w))
    /\ bookkeeping_entries (session w2)
       = bookkeeping_entries (session w)
         ++ [order_entry clock order_id order current_user].
Proof.
  intros Hsym Horder Haccess Hnew Hcovered Hbalance.
  pose proof (Forall_impl _ _ _ Hcovered (verdict_covered (session w))) as Hok.
  destruct (confirm_order_run numeric_of_float clock w order_id order
              current_user Horder Haccess Hnew Hok) as (outs & Houts & Hrun).
  set (confirmed := Order.confirm order (User.id current_user) (utcnow clock))
    in *.
  set (t1 := confirmed_tables clock (session w) order_id order current_user
               outs) in *.
  destruct (confirmed_tables_parts clock (session w) order_id order
              current_user outs)
    as (Ho1 & Hn1 & Hd1 & Hp1 & Hu1 & Hi1 & Hb1 & Hc1).
  fold t1 in Ho1, Hn1, Hd1, Hp1, Hu1, Hi1, Hb1, Hc1.
  assert (Hitems1 : order_items t1 order_id = order_items (session w) order_id)
    by (unfold order_items; rewrite Hd1; reflexivity).
  assert (Hreq1 : forall item, required t1 item = required (session w) item)
    by (intros item; unfold required; rewrite Hu1; reflexivity).
  assert (Horder1 : orders (session (mkWorld t1 t1)) !! order_id
                    = Some confirmed).
  { cbn [session]. rewrite Ho1. apply lookup_insert_eq. }
  destruct (cancel_order_run numeric_of_float (mkWorld t1 t1) order_id
              confirmed current_user reason Horder1 Haccess)
    as (ins & Hins & Hcancel).
  { discriminate. }
  { intros _. cbn [session]. rewrite Hitems1.
    eapply Forall_impl; [exact Hok|]. intros item Hv. rewrite Hreq1.
    eapply verdict_required, Hv. }
  rewrite bool_decide_eq_true_2 in Hins by reflexivity.
  cbn [session] in Hins, Hcancel. rewrite Hitems1 in Hins.
  set (t2 := canceled_tables t1 order_id confirmed reason ins) in *.
  destruct (canceled_tables_parts t1 order_id confirmed reason ins)
    as (Ho2 & Hn2 & Hd2 & Hp2 & Hu2 & Hi2 & Hb2 & Hc2).
  fold t2 in Ho2, Hn2, Hd2, Hp2, Hu2, Hi2, Hb2, Hc2.
  exists (mkWorld t1 t1), (mkWorld t2 t2). cbv zeta. fold confirmed.
  split; [exact Hrun|]. split; [exact Hcancel|]. split; [reflexivity|].
  cbn [session]. split; [rewrite Ho2; apply lookup_insert_eq|].
  split; [apply canceled_status|]. split; [|split].
  - intros s p. rewrite !get_product_stock_value, Hi2, Hi1.
    rewrite !store_product_total_app.
    assert (Hzero : (store_product_total outs s p + store_product_total ins s p
                     == 0)%Q).
    { eapply (opposite_movements numeric_of_float "order" "order_cancel"
                order_id order confirmed current_user current_user
                (session w) s p Hsym eq_refl); [exact Houts|].
      eapply Forall2_impl; [exact Hins|].
      intros item tx (r & Hr & Htx). exists r. rewrite <- Hreq1.
      split; assumption. }
    match goal with
    | |- (?a + ?x + ?y == ?a)%Q =>
        assert (E : (a + x + y == a + (x + y))%Q) by ring; rewrite E
    end.
    rewrite Hzero. ring.
  - rewrite Hc2. rewrite bool_decide_eq_true_2 by reflexivity.
    change (Order.is_credit confirmed) with (Order.is_credit order).
    change (Order.customer_id confirmed) with (Order.customer_id order).
    change (Order.total_amount confirmed) with (Order.total_amount order).
    unfold order_customer at 1.
    change (Order.customer_id confirmed) with (Order.customer_id order).
    rewrite Hc1.
    destruct (Order.is_credit order); [|apply same_debts_refl].
    unfold order_customer in *.
    destruct (Order.customer_id order) as [cid|]; [|apply same_debts_refl].
    destruct (customers (session w) !! cid) as [c|] eqn:Hc.
    + rewrite lookup_insert_eq, insert_insert_eq.
      intros cid'. destruct (decide (cid' = cid)) as [->|Hne].
      * rewrite lookup_insert_eq, Hc. split; [|split; reflexivity].
        rewrite reduce_debt_value.
        cbn [Customer.add_debt Customer.debt_balance].
        rewrite Dec_value_add.
        match goal with
        | |- (Qmax 0 (?b + ?a - ?a) == ?b)%Q =>
            assert (E : (b + a - a == b)%Q) by ring; rewrite E
        end.
        apply Q.max_r, Hbalance. reflexivity.
      * rewrite lookup_insert_ne by congruence.
        apply same_debts_refl.
    + rewrite Hc. apply same_debts_refl.
  - rewrite Hb2, Hb1. reflexivity.
Qed.

End RoundTrip.

(** ** Reports *)

Lemma add_entry_value (s : ReportController.Summary) (e : BookkeepingEntry.t)
    (ty : TransactionType) :
  ty <> EXPENSE ->
  (Dec.value (summary_of (ReportController.add_entry s e) ty)
   == Dec.value (summary_of s ty)
      + (if bool_decide (BookkeepingEntry.entry_type e = ty)
         then Dec.value (BookkeepingEntry.amount e) else 0))%Q.
Proof.
  intros Hty. unfold ReportController.add_entry.
  destruct (BookkeepingEntry.entry_type e), ty; try contradiction;
    cbn [summary_of ReportController.revenue ReportController.debt_in
         ReportController.debt_out ReportController.payment_in
         ReportController.payment_out ReportController.inventory_in
         ReportController.inventory_out];
    try (rewrite bool_decide_eq_true_2 by reflexivity; apply Dec_value_add);
    try (rewrite bool_decide_eq_false_2 by discriminate; ring).
Qed.

Lemma fold_add_entry_ledger (store_id from_date to_date : Z)
    (ty : TransactionType) (l : list BookkeepingEntry.t) :
  ty <> EXPENSE ->
  Forall (fun e =>
            BookkeepingEntry.store_id e = store_id /\
            from_date <= BookkeepingEntry.entry_date e /\
            BookkeepingEntry.entry_date e <= to_date) l ->
  forall s : ReportController.Summary,
    (Dec.value (summary_of (fold_left ReportController.add_entry l s) ty)
     == Dec.value (summary_of s ty)
        + ledger_total l store_id ty from_date to_date)%Q.
Proof.
  intros Hty Hall. induction Hall as [|e l (Hs & Hf & Ht) _ IH]; intros s.
  - cbn. ring.
  - cbn [fold_left ledger_total]. rewrite IH, (add_entry_value _ _ _ Hty).
    apply Z.eqb_eq in Hs. apply Z.leb_le in Hf, Ht. rewrite Hs, Hf, Ht.
    cbn [andb]. rewrite !andb_true_r. ring.
Qed.

Lemma ledger_total_Permutation (store_id from_date to_date : Z)
    (ty : TransactionType) (l l' : list BookkeepingEntry.t) :
  l ≡ₚ l' ->
  (ledger_total l store_id ty from_date to_date
   == ledger_total l' store_id ty from_date to_date)%Q.
Proof.
  induction 1 as [|x l l' _ IH|x y l|l l' l'' _ IH1 _ IH2].
  - reflexivity.
  - cbn [ledger_total]. rewrite IH. reflexivity.
  - cbn [ledger_total]. ring.
  - rewrite IH1. exact IH2.
Qed.

Lemma insert_by_date_Permutation (e : BookkeepingEntry.t)
    (l : list BookkeepingEntry.t) :
  ReportController.insert_by_date e l ≡ₚ e :: l.
Proof.
  induction l as [|x l IH]; [reflexivity|].
  cbn [ReportController.insert_by_date].
  destruct (_ <=? _); [reflexivity|].
  rewrite IH. apply perm_swap.
Qed.

Lemma order_by_date_Permutation (l : list BookkeepingEntry.t) :
  ReportController.order_by_date l ≡ₚ l.
Proof.
  induction l as [|x l IH]; [reflexivity|].
  unfold ReportController.order_by_date in *. cbn [fold_right].
  rewrite insert_by_date_Permutation, IH. reflexivity.
Qed.

Lemma ledger_total_filter (store_id from_date to_date : Z)
    (ty : TransactionType) (l : list BookkeepingEntry.t) :
  (ledger_total
     (filter (fun e =>
                BookkeepingEntry.store_id e = store_id /\
                (from_date <= BookkeepingEntry.entry_date e)%Z /\
                (BookkeepingEntry.entry_date e <= to_date)%Z) l)
     store_id ty from_date to_date
   == ledger_total l store_id ty from_date to_date)%Q.
Proof.
  induction l as [|e l IH]; [reflexivity|].
  destruct (decide (BookkeepingEntry.store_id e = store_id /\
                    from_date <= BookkeepingEntry.entry_date e /\
                    BookkeepingEntry.entry_date e <= to_date)) as [Hp|Hp].
  - rewrite filter_cons_True by exact Hp. cbn [ledger_total].
    rewrite IH. reflexivity.
  - rewrite filter_cons_False by exact Hp. cbn [ledger_total]. rewrite IH.
    destruct (Z.eqb_spec (BookkeepingEntry.store_id e) store_id);
      [|cbn; ring].
    destruct (Z.leb_spec from_date (BookkeepingEntry.entry_date e));
      [|rewrite andb_false_r; cbn; ring].
    destruct (Z.leb_spec (BookkeepingEntry.entry_date e) to_date);
      [|rewrite andb_false_r; ring].
    exfalso. apply Hp. repeat split; assumption.
Qed.

Lemma ledger_total_app (store_id from_date to_date : Z)
    (ty : TransactionType) (a b : list BookkeepingEntry.t) :
  (ledger_total (a ++ b) store_id ty from_date to_date
   == ledger_total a store_id ty from_date to_date
      + ledger_total b store_id ty from_date to_date)%Q.
Proof.
  induction a as [|e a IH]; cbn [app ledger_total]; [ring|].
  rewrite IH. ring.
Qed.

Lemma operations_summary_value (t : Tables) (store_id from_date to_date : Z)
    (ty : TransactionType) :
  ty <> EXPENSE ->
  (Dec.value
     (summary_of
        (ReportController.operations_summary t store_id from_date to_date) ty)
   == ledger_total (bookkeeping_entries t) store_id ty from_date to_date)%Q.
Proof.
  intros Hty.
  unfold ReportController.operations_summary, ReportController.report_entries.
  rewrite (fold_add_entry_ledger store_id from_date to_date ty _ Hty).
  - rewrite (ledger_total_Permutation _ _ _ _ _ _
               (order_by_date_Permutation _)).
    rewrite ledger_total_filter.
    assert (E : (Dec.value (summary_of ReportController.empty_summary ty)
                 == 0)%Q) by (destruct ty; reflexivity).
    rewrite E. ring.
  - apply Forall_forall. intros e Hin.
    rewrite order_by_date_Permutation in Hin.
    apply list_elem_of_filter in Hin as [Hp _]. exact Hp.
Qed.

(** X22.  The operations report adds up the ledger: each of its seven
    buckets has the value of the sum of the amounts of the entries of its
    type that the store booked within the period, whatever the order of
    the rows; no bucket counts an [EXPENSE] entry; and the outstanding
    debt of the TT88 summary is the float of a decimal whose value is
    the debt booked minus the payments received. *)
Theorem operations_report_totals
    (t : Tables) (store_id from_date to_date : Z) :
  let summary :=
    ReportController.operations_summary t store_id from_date to_date in
  let total ty :=
    ledger_total (bookkeeping_entries t) store_id ty from_date to_date in
  (forall ty, ty <> EXPENSE -> (Dec.value (summary_of summary ty) == total ty)%Q)
  /\ (exists outstanding,
        ReportController.cong_no_con_lai
          (ReportController.tt88_summary summary)
        = Float.of_decimal outstanding
        /\ (Dec.value outstanding == total DEBT_IN - total PAYMENT_IN)%Q).
Proof.
  cbv zeta. split.
  - intros ty Hty. apply operations_summary_value, Hty.
  - eexists. split; [reflexivity|].
    rewrite Dec_value_sub.
    rewrite <- (operations_summary_value t store_id from_date to_date DEBT_IN)
      by discriminate.
    rewrite <- (operations_summary_value t store_id from_date to_date
                  PAYMENT_IN) by discriminate.
    reflexivity.
Qed.

(** X23.  The dashboard and the operations report agree on a day's
    revenue: "today's revenue" has the value of the revenue bucket of the
    report for the period that is that single day. *)
Theorem today_revenue_matches_report (t : Tables) (store_id today : Z) :
  (Py.value (ReportController.today_revenue t store_id today)
   == Dec.value
        (ReportController.revenue
           (ReportController.operations_summary t store_id today today)))%Q.
Proof.
  unfold ReportController.today_revenue. rewrite sql_sum_or_zero_value.
  change (ReportController.revenue ?s) with (summary_of s REVENUE).
  rewrite operations_summary_value by discriminate.
  induction (bookkeeping_entries t) as [|e l IH]; [reflexivity|].
  cbn [ledger_total].
  destruct (decide (BookkeepingEntry.store_id e = store_id /\
                    BookkeepingEntry.entry_type e = REVENUE /\
                    BookkeepingEntry.entry_date e = today)) as [Hp|Hp].
  - rewrite filter_cons_True by exact Hp. cbn [map fold_right]. rewrite IH.
    destruct Hp as (Hs & Hty & Hd).
    apply Z.eqb_eq in Hs. rewrite Hs, Hd, Z.leb_refl.
    rewrite bool_decide_eq_true_2 by exact Hty. reflexivity.
  - rewrite filter_cons_False by exact Hp. rewrite IH.
    destruct (Z.eqb_spec (BookkeepingEntry.store_id e) store_id);
      [|cbn; ring].
    case_bool_decide as Hty; [|cbn; ring].
    destruct (Z.leb_spec today (BookkeepingEntry.entry_date e));
      [|cbn; ring].
    destruct (Z.leb_spec (BookkeepingEntry.entry_date e) today);
      [|cbn; ring].
    exfalso. apply Hp. repeat split; try assumption. lia.
Qed.

Section Booked.
Variable numeric_of_float : float -> Decimal.
Variable clock : Clock.

(** X24.  A confirmation shows in the operations report.  In any report
    of the order's store for a period that contains today, the bucket of
    the entry type (revenue for a cash sale, debt for a credit sale) rises
    by the order's total; every other bucket, and every report of another
    store or of a period without today, is as it was. *)
Theorem confirm_order_reported
    (w w' : World) (order_id : Z) (current_user : User.t) (order' : Order.t)
    (store_id from_date to_date : Z) (ty : TransactionType) :
  ty <> EXPENSE ->
  confirm_order numeric_of_float clock order_id current_user w
  = (Returned order', w') ->
  let before :=
    ReportController.operations_summary (session w) store_id from_date
      to_date in
  let after :=
    ReportController.operations_summary (session w') store_id from_date
      to_date in
  let counted :=
    (Order.store_id order' =? store_id)
    && bool_decide ((if Order.is_credit order' then DEBT_IN else REVENUE) = ty)
    && (from_date <=? today clock) && (today clock <=? to_date) in
  (Dec.value (summary_of after ty)
   == Dec.value (summary_of before ty)
      + (if counted then Dec.value (Order.total_amount order') else 0))%Q.
Proof.
  intros Hty H.
  destruct (confirm_order_returned numeric_of_float clock _ _ _ _ _ H)
    as (order & new & _ & _ & _ & _ & _ & -> & ->).
  cbv zeta. cbn [session].
  rewrite !operations_summary_value by exact Hty.
  destruct (confirmed_tables_parts clock (session w) order_id order
              current_user new) as (_ & _ & _ & _ & _ & _ & Hb & _).
  rewrite Hb, ledger_total_app. cbn [ledger_total]. unfold order_entry.
  cbn [BookkeepingEntry.store_id BookkeepingEntry.entry_type
       BookkeepingEntry.entry_date BookkeepingEntry.amount
       Order.confirm Order.store_id Order.is_credit Order.total_amount].
  destruct (_ && _ && _ && _); ring.
Qed.

End Booked.

(** ** Order numbers *)

Section Numbers.
Variable numeric : nat -> Decimal -> Decimal.
Variable clock : Clock.

Lemma count_after_insert (P : Z * Order.t -> Prop)
    `{!forall kv, Decision (P kv)} (m : gmap Z Order.t) (k : Z) (o : Order.t) :
  m !! k = None ->
  length (filter P (map_to_list (<[k := o]> m)))
  = if decide (P (k, o)) then S (length (filter P (map_to_list m)))
    else length (filter P (map_to_list m)).
Proof.
  intros Hk.
  rewrite (Permutation_length
             (filter_Permutation P _ _ (map_to_list_insert m k o Hk))).
  destruct (decide (P (k, o))) as [Hp|Hp].
  - rewrite filter_cons_True by exact Hp. reflexivity.
  - rewrite filter_cons_False by exact Hp. reflexivity.
Qed.

(** X25.  The number of the next order.  After a creation that returned,
    with an id that was free, [generate_order_number] for the same store
    gives the sequence number that follows the new order's when the UTC
    date of [created_at] is the local date the generator counts by.  When
    the two dates differ, it gives the number of the order just created
    over again: the generator counts the orders whose UTC creation date
    is today's local date, and the new order is not among them.  The
    numbers of other stores are not affected. *)
Theorem order_number_after_create
    (w w' : World) (store_id : Z) (items : list Item) (current_user : User.t)
    (customer_id : option Z) (is_credit : bool) (notes : option string)
    (source_draft_order_id : option Z) (order_id : Z) (order : Order.t) :
  orders (session w) !! next_order_id (session w) = None ->
  create_order numeric clock store_id items current_user customer_id is_credit
    notes source_draft_order_id w
  = (Returned (order_id, order), w') ->
  let next := generate_order_number (session w') clock store_id in
  (date_of (utcnow clock) = today clock ->
   on_store next = on_store (Order.order_number order)
   /\ on_day next = on_day (Order.order_number order)
   /\ on_seq next = on_seq (Order.order_number order) + 1)
  /\ (date_of (utcnow clock) <> today clock ->
      next = Order.order_number order)
  /\ (forall s,
        s <> store_id ->
        generate_order_number (session w') clock s
        = generate_order_number (session w) clock s).
Proof.
  intros Hfree H.
  destruct (create_order_result numeric clock _ _ _ _ _ _ _ _ _ _ _ H)
    as (new & _ & _ & -> & Horder & ->).
  assert (Hnum : Order.order_number order
                 = generate_order_number (session w) clock store_id)
    by (rewrite Horder; reflexivity).
  assert (Hstore : Order.store_id order = store_id)
    by (rewrite Horder; reflexivity).
  assert (Hcreated : Order.created_at order = utcnow clock)
    by (rewrite Horder; reflexivity).
  clear Horder H. cbv zeta. cbn [session]. rewrite Hnum.
  unfold generate_order_number, created_tables. tables.
  cbn [on_store on_day on_seq].
  split; [|split].
  - intros Hdate. split; [reflexivity|]. split; [reflexivity|].
    rewrite (count_after_insert _ _ _ _ Hfree).
    rewrite decide_True; [lia|].
    cbn [snd]. rewrite Hstore, Hcreated. split; [reflexivity|exact Hdate].
  - intros Hdate. f_equal. f_equal. f_equal.
    rewrite (count_after_insert _ _ _ _ Hfree).
    rewrite decide_False; [reflexivity|]. cbn [snd].
    rewrite Hcreated. intros [_ Hd]. exact (Hdate Hd).
  - intros s Hs. f_equal. f_equal. f_equal.
    rewrite (count_after_insert _ _ _ _ Hfree).
    rewrite decide_False; [reflexivity|]. cbn [snd].
    rewrite Hstore. intros [Hst _]. congruence.
Qed.

End Numbers.

(** ** Repeated calls *)

Section Repeated.
Variable numeric_of_float : float -> Decimal.
Variable clock : Clock.

(** X26.  No effect is applied twice.  After a confirmation that
    returned, a second confirmation of the same order, by any actor with
    access, raises [OrderAlreadyConfirmedError] and leaves the world as it
    is: stock is not deducted again.  After a cancellation that returned,
    a second cancellation returns too, but writes no movement and changes
    no customer and no ledger entry: stock and debt are not restored
    again. *)
Theorem no_effect_twice
    (w w1 : World) (order_id : Z) (current_user again : User.t)
    (reason reason' : option string) (order' : Order.t) :
  User.can_access_store again (Order.store_id order') = true ->
  (confirm_order numeric_of_float clock order_id current_user w
   = (Returned order', w1) ->
   confirm_order numeric_of_float clock order_id again w1
   = (Raised OrderAlreadyConfirmedError, w1))
  /\ (cancel_order numeric_of_float order_id current_user reason w
      = (Returned order', w1) ->
      exists w2,
        cancel_order numeric_of_float order_id again reason' w1
        = (Returned (canceled order' reason'), w2)
        /\ inventory_transactions (session w2)
           = inventory_transactions (session w1)
        /\ customers (session w2) = customers (session w1)
        /\ bookkeeping_entries (session w2) = bookkeeping_entries (session w1)).
Proof.
  intros Haccess. split; intros H.
  - destruct (confirm_order_returned numeric_of_float clock _ _ _ _ _ H)
      as (order & new & _ & _ & _ & _ & _ & -> & ->).
    destruct (confirmed_tables_parts clock (session w) order_id order
                current_user new) as (Ho & _).
    unfold confirm_order. unfold bind at 1; unfold query at 1.
    cbn [session]. rewrite Ho, lookup_insert_eq, Haccess. cbn [negb].
    rewrite bool_decide_eq_false_2 by discriminate. reflexivity.
  - destruct (cancel_order_returned numeric_of_float _ _ _ _ _ _ H)
      as (order & new & _ & _ & _ & _ & -> & ->).
    destruct (canceled_tables_parts (session w) order_id order reason new)
      as (Ho & _).
    set (t1 := canceled_tables (session w) order_id order reason new) in *.
    assert (Horder1 : orders (session (mkWorld t1 t1)) !! order_id
                      = Some (canceled order reason)).
    { cbn [session]. rewrite Ho. apply lookup_insert_eq. }
    pose proof (canceled_status order reason) as Hstatus.
    destruct (cancel_order_run numeric_of_float (mkWorld t1 t1) order_id
                (canceled order reason) again reason' Horder1 Haccess)
      as (new' & Hnew' & Hrun).
    { rewrite Hstatus. discriminate. }
    { rewrite Hstatus. discriminate. }
    rewrite bool_decide_eq_false_2 in Hnew' by (rewrite Hstatus; discriminate).
    subst new'. eexists. split; [exact Hrun|].
    cbn [session].
    destruct (canceled_tables_parts t1 order_id (canceled order reason)
                reason' []) as (_ & _ & _ & _ & _ & Hi & Hb & Hc).
    rewrite Hi, Hb, Hc, app_nil_r.
    rewrite bool_decide_eq_false_2 by (rewrite Hstatus; discriminate).
    repeat split.
Qed.

End Repeated.

(** * The further facts on the sample shop *)

Lemma sample_shop_consistent : consistent Sample.shop.
Proof.
  constructor.
  - unfold Sample.shop; cbn [inventory_transactions products]. line_facts.
  - unfold Sample.shop; cbn [order_details orders products]. line_facts.
  - intros k Hk. unfold Sample.shop in *. cbn [orders next_order_id] in *.
    repeat (rewrite lookup_insert_ne by lia).
    apply lookup_singleton_ne. lia.
Qed.

Lemma sample_clerk_access : User.can_access_store Sample.clerk 1 = true.
Proof. reflexivity. Qed.


Lemma sample_order_100 :
  orders (session Sample.world) !! 100
  = Some (Sample.order 1 (Some 7) NEW true (Sample.money 240000)).
Proof. vm_compute. reflexivity. Qed.

Lemma sample_order_100_covered :
  Forall (line_covered (session Sample.world))
    (order_items (session Sample.world) 100).
Proof.
  assert (Hitems : order_items (session Sample.world) 100
                   = [ Sample.line 100 10 (Sample.qty 50000)
                         (Sample.money 10000) 1;
                       Sample.line 100 11 (Sample.qty 20000)
                         (Sample.money 95000) 1 ])
    by (vm_compute; reflexivity).
  rewrite Hitems. unfold line_covered. line_facts.
Qed.

Lemma sample_order_100_confirmed :
  exists new : list InventoryTransaction.t,
    confirm_order Sample.quantize4 Sample.clock 100 Sample.clerk Sample.world
    = (Returned
         (Order.confirm (Sample.order 1 (Some 7) NEW true (Sample.money 240000))
            (User.id Sample.clerk) (utcnow Sample.clock)),
       mkWorld
         (confirmed_tables Sample.clock Sample.shop 100
            (Sample.order 1 (Some 7) NEW true (Sample.money 240000))
            Sample.clerk new)
         (confirmed_tables Sample.clock Sample.shop 100
            (Sample.order 1 (Some 7) NEW true (Sample.money 240000))
            Sample.clerk new)).
Proof.
  pose proof (Forall_impl _ _ _ sample_order_100_covered
                (verdict_covered (session Sample.world))) as Hok.
  destruct (confirm_order_run Sample.quantize4 Sample.clock Sample.world 100
              _ Sample.clerk sample_order_100 sample_clerk_access eq_refl Hok)
    as (new & _ & Hrun).
  exists new. exact Hrun.
Qed.

Lemma sample_request_accepted (customer_id : option Z) (is_credit : bool) :
  (customer_id = None /\ is_credit = false) \/ customer_id = Some 7 ->
  exists (new : list OrderDetail.t) (order : Order.t),
    create_order Sample.quantize Sample.clock 1
      [mkItem 10 (Sample.qty 20000) None None;
       mkItem 11 (Sample.qty 10000) None (Some (Sample.money 5000))]
      Sample.clerk customer_id is_credit None None Sample.world
    = (Returned (106, order),
       mkWorld (created_tables Sample.shop order new)
         (created_tables Sample.shop order new)).
Proof.
  intros Hcase.
  destruct (create_order_run Sample.quantize Sample.clock Sample.world 1
              [mkItem 10 (Sample.qty 20000) None None;
               mkItem 11 (Sample.qty 10000) None (Some (Sample.money 5000))]
              Sample.clerk customer_id is_credit None None)
    as (new & _ & Hrun).
  - reflexivity.
  - intros cid Hcid _. destruct Hcase as [[Hnone _]|Hsome].
    + congruence.
    + assert (cid = 7) by congruence. subst cid.
      eexists. split; vm_compute; reflexivity.
  - intros Hcredit. destruct Hcase as [[_ Hcash]|Hsome].
    + congruence.
    + exists 7. split; [exact Hsome|discriminate].
  - vm_compute. reflexivity.
  - repeat constructor; vm_compute; reflexivity.
  - exists new. eexists. exact Hrun.
Qed.

Lemma sample_request_fits :
  Forall (item_fits (session Sample.world))
    [mkItem 10 (Sample.qty 20000) None None;
     mkItem 11 (Sample.qty 10000) None (Some (Sample.money 5000))].
Proof.
  repeat constructor; unfold item_fits; cbn;
    repeat split;
    try (apply Dec_fits_scale; cbn; lia);
    [exists 20000|exists 90000]; vm_compute; reflexivity.
Qed.

Lemma create_order_payment_witness :
  exists (order : Order.t) (w' : World),
    create_order Sample.quantize Sample.clock 1
      [mkItem 10 (Sample.qty 20000) None None;
       mkItem 11 (Sample.qty 10000) None (Some (Sample.money 5000))]
      Sample.clerk None false None None Sample.world
    = (Returned (106, order), w')
    /\ Order.paid_amount order = Order.total_amount order
    /\ is_fully_paid order = true.
Proof.
  destruct (sample_request_accepted None false) as (new & order & Hrun);
    [left; split; reflexivity|].
  eexists _, _. split; [exact Hrun|].
  apply (create_order_payment Sample.quantize Sample.clock _ _ _ _ _ _ _ _ _
           _ _ Hrun).
  reflexivity.
Defined.

Lemma create_order_total_matches_lines_witness :
  exists (order : Order.t) (w' : World),
    create_order Sample.quantize Sample.clock 1
      [mkItem 10 (Sample.qty 20000) None None;
       mkItem 11 (Sample.qty 10000) None (Some (Sample.money 5000))]
      Sample.clerk (Some 7) true None None Sample.world
    = (Returned (106, order), w')
    /\ length (order_items (session w') 106) = 2%nat
    /\ (Py.value (calculate_total (session w') 106)
        == Dec.value (Order.total_amount order))%Q.
Proof.
  destruct (sample_request_accepted (Some 7) true) as (new & order & Hrun);
    [right; reflexivity|].
  eexists _, _. split; [exact Hrun|].
  assert (Hfresh : order_items (session Sample.world)
                     (next_order_id (session Sample.world)) = [])
    by (vm_compute; reflexivity).
  destruct (create_order_total_matches_lines Sample.quantize Sample.clock
              _ _ _ _ _ _ _ _ _ _ _ quantize_column Hfresh
              sample_request_fits Hrun) as (Hlen & _ & Htotal).
  split; [exact Hlen|exact Htotal].
Defined.

(** Without that proviso the stored lines need not add up to the stored
    total: three lines of 0.3333 at 10.01 are stored as 3.34 each, the
    order as 10.01, and [Order.calculate_total] answers 10.02. *)
Lemma stored_lines_need_not_add_up :
  let item := mkItem 10 (Sample.qty 3333) (Some (Sample.money 1001)) None in
  let run :=
    create_order Sample.quantize Sample.clock 1 [item; item; item]
      Sample.clerk None false None None Sample.world in
  exists order,
    run.1 = Returned (106, order)
    /\ map OrderDetail.line_total (order_items (session run.2) 106)
       = [Sample.money 334; Sample.money 334; Sample.money 334]
    /\ Order.total_amount order = Sample.money 1001
    /\ calculate_total (session run.2) 106 = Py.decimal (Sample.money 1002).
Proof.
  cbv zeta. eexists. split; [vm_compute; reflexivity|].
  repeat split; vm_compute; reflexivity.
Qed.

Lemma import_inventory_records_witness :
  let items :=
    [ ProductController.mkImportItem (Some 1) (Some (Sample.qty 100000));
      ProductController.mkImportItem (Some 2) None ] in
  let rows := map (import_row Sample.quantize 1 Sample.clerk) items in
  ProductController.import_inventory Sample.quantize 1 items Sample.clerk
    Sample.world
  = (Returned rows,
     mkWorld (with_movements Sample.shop rows)
       (with_movements Sample.shop rows))
  /\ (Dec.value
        (get_product_stock
           (inventory_transactions (with_movements Sample.shop rows)) 1 1)
      == Dec.value (get_product_stock (inventory_transactions Sample.shop) 1 1)
         + 10)%Q.
Proof.
  cbv zeta.
  destruct (import_inventory_records Sample.quantize Sample.world 1
              [ ProductController.mkImportItem (Some 1)
                  (Some (Sample.qty 100000));
                ProductController.mkImportItem (Some 2) None ]
              Sample.clerk)
    as (Hrun & _ & Hstock & _).
  - reflexivity.
  - repeat constructor; vm_compute; reflexivity.
  - split; [exact Hrun|].
    rewrite (Hstock quantize_column).
    + vm_compute. reflexivity.
    + repeat constructor; apply Dec_fits_scale; cbn; lia.
Defined.

Lemma consistent_stock_queries_agree_witness :
  (Py.value (Product.current_stock (inventory_transactions Sample.shop) 1)
   == Dec.value (get_product_stock (inventory_transactions Sample.shop) 1 1))%Q
  /\ (forall s,
        s <> 1 ->
        (Dec.value (get_product_stock (inventory_transactions Sample.shop) s 1)
         == 0)%Q).
Proof.
  apply (consistent_stock_queries_agree Sample.shop 1 (Product.mk 1 true)).
  - exact sample_shop_consistent.
  - vm_compute. reflexivity.
Defined.

Lemma import_inventory_keeps_consistent_witness :
  exists (rows : list InventoryTransaction.t) (w' : World),
    ProductController.import_inventory Sample.quantize 1
      [ ProductController.mkImportItem (Some 1) (Some (Sample.qty 100000)) ]
      Sample.clerk Sample.world
    = (Returned rows, w')
    /\ consistent (session w').
Proof.
  assert (Hitems : Forall (fun item =>
                             import_item_in_store (session Sample.world) 1 item
                             = true)
                     [ ProductController.mkImportItem (Some 1)
                         (Some (Sample.qty 100000)) ])
    by (repeat constructor; vm_compute; reflexivity).
  pose proof (import_inventory_run Sample.quantize Sample.world 1 _
                Sample.clerk sample_clerk_access Hitems) as Hrun.
  eexists _, _. split; [exact Hrun|].
  apply (import_inventory_keeps_consistent Sample.quantize Sample.world _ 1 _
           Sample.clerk _ sample_shop_consistent Hrun).
Defined.

Lemma create_order_keeps_consistent_witness :
  exists (order : Order.t) (w' : World),
    create_order Sample.quantize Sample.clock 1
      [mkItem 10 (Sample.qty 20000) None None;
       mkItem 11 (Sample.qty 10000) None (Some (Sample.money 5000))]
      Sample.clerk (Some 7) true None None Sample.world
    = (Returned (106, order), w')
    /\ consistent (session w').
Proof.
  destruct (sample_request_accepted (Some 7) true) as (new & order & Hrun);
    [right; reflexivity|].
  eexists _, _. split; [exact Hrun|].
  apply (create_order_keeps_consistent Sample.quantize Sample.clock
           Sample.world _ _ _ _ _ _ _ _ _ _ sample_shop_consistent Hrun).
Defined.

Lemma confirm_order_keeps_consistent_witness :
  exists (order : Order.t) (w' : World),
    confirm_order Sample.quantize4 Sample.clock 100 Sample.clerk Sample.world
    = (Returned order, w')
    /\ consistent (session w').
Proof.
  destruct sample_order_100_confirmed as (new & Hrun).
  eexists _, _. split; [exact Hrun|].
  apply (confirm_order_keeps_consistent Sample.quantize4 Sample.clock
           Sample.world _ _ _ _ sample_shop_consistent Hrun).
Defined.

Lemma cancel_order_keeps_consistent_witness :
  exists (order : Order.t) (w' : World),
    cancel_order Sample.quantize4 102 Sample.clerk None Sample.world
    = (Returned order, w')
    /\ consistent (session w').
Proof.
  destruct (cancel_order_run Sample.quantize4 Sample.world 102
              (Sample.order 3 (Some 7) CONFIRMED true (Sample.money 30000))
              Sample.clerk None)
    as (new & _ & Hrun).
  - vm_compute. reflexivity.
  - reflexivity.
  - discriminate.
  - intros _.
    assert (Hitems : order_items (session Sample.world) 102
                     = [ Sample.line 102 10 (Sample.qty 30000)
                           (Sample.money 10000) 1 ])
      by (vm_compute; reflexivity).
    rewrite Hitems. repeat constructor. eexists. computed.
  - eexists _, _. split; [exact Hrun|].
    apply (cancel_order_keeps_consistent Sample.quantize4 Sample.world _ _ _
             _ _ sample_shop_consistent Hrun).
Defined.

Lemma confirm_then_cancel_witness :
  exists (w1 w2 : World),
    confirm_order Sample.quantize4 Sample.clock 100 Sample.clerk Sample.world
    = (Returned
         (Order.confirm (Sample.order 1 (Some 7) NEW true (Sample.money 240000))
            2 1700000000), w1)
    /\ (cancel_order Sample.quantize4 100 Sample.clerk None w1).2 = w2
    /\ (Dec.value (get_product_stock (inventory_transactions (session w2)) 1 1)
        == Dec.value
             (get_product_stock (inventory_transactions Sample.shop) 1 1))%Q
    /\ same_debts (customers (session w2)) (customers Sample.shop)
    /\ length (bookkeeping_entries (session w2)) = 1%nat.
Proof.
  destruct (confirm_then_cancel Sample.quantize4 Sample.clock Sample.world 100
              (Sample.order 1 (Some 7) NEW true (Sample.money 240000))
              Sample.clerk None quantize4_neg sample_order_100
              sample_clerk_access eq_refl sample_order_100_covered)
    as (w1 & w2 & Hconfirm & Hcancel & _ & _ & _ & Hstock & Hdebts & Hledger).
  - intros c Hc. vm_compute in Hc. injection Hc as <-. vm_compute. discriminate.
  - exists w1, w2. split; [exact Hconfirm|].
    split; [cbv zeta in Hcancel; rewrite Hcancel; reflexivity|].
    split; [apply Hstock|]. split; [exact Hdebts|].
    rewrite Hledger. reflexivity.
Defined.

Lemma confirm_order_reported_witness :
  exists (order : Order.t) (w' : World),
    confirm_order Sample.quantize4 Sample.clock 100 Sample.clerk Sample.world
    = (Returned order, w')
    /\ (Dec.value
          (ReportController.debt_in
             (ReportController.operations_summary (session w') 1 19675 19675))
        == Dec.value
             (ReportController.debt_in
                (ReportController.operations_summary Sample.shop 1 19675
                   19675))
           + 2400)%Q.
Proof.
  destruct sample_order_100_confirmed as (new & Hrun).
  eexists _, _. split; [exact Hrun|].
  pose proof (confirm_order_reported Sample.quantize4 Sample.clock
                Sample.world _ _ _ _ 1 19675 19675 DEBT_IN ltac:(discriminate)
                Hrun) as H.
  cbv zeta in H. cbn [summary_of] in H. rewrite H. reflexivity.
Defined.

Lemma order_number_after_create_witness :
  exists (order : Order.t) (w' : World),
    create_order Sample.quantize Sample.clock 1
      [mkItem 10 (Sample.qty 20000) None None;
       mkItem 11 (Sample.qty 10000) None (Some (Sample.money 5000))]
      Sample.clerk None false None None Sample.world
    = (Returned (106, order), w')
    /\ on_seq (generate_order_number (session w') Sample.clock 1)
       = on_seq (Order.order_number order) + 1.
Proof.
  destruct (sample_request_accepted None false) as (new & order & Hrun);
    [left; split; reflexivity|].
  eexists _, _. split; [exact Hrun|].
  assert (Hfree : orders (session Sample.world)
                    !! next_order_id (session Sample.world) = None)
    by (vm_compute; reflexivity).
  destruct (order_number_after_create Sample.quantize Sample.clock _ _ _ _ _
              _ _ _ _ _ _ Hfree Hrun) as (Hsame & _ & _).
  apply Hsame. vm_compute. reflexivity.
Defined.

Lemma create_order_customer_in_store_witness :
  exists c, customers Sample.shop !! 7 = Some c /\ Customer.store_id c = 1.
Proof.
  destruct (sample_request_accepted (Some 7) true) as (new & order & Hrun);
    [right; reflexivity|].
  apply (create_order_customer_in_store Sample.quantize Sample.clock
           Sample.world _ 1 _ Sample.clerk 7 true None None _ _
           ltac:(discriminate) Hrun).
Defined.

Lemma create_order_keeps_existing_orders_witness :
  orders
    (session
       (create_order Sample.quantize Sample.clock 1 [mkItem 10 (Sample.qty 20000) None None]
          Sample.clerk None false None None Sample.world).2) !! 105
  = orders Sample.shop !! 105.
Proof.
  apply (create_order_keeps_existing_orders Sample.quantize Sample.clock
           Sample.world _ 1 _ Sample.clerk None false None None _ 105
           (surjective_pairing _)).
  vm_compute. discriminate.
Defined.

Lemma no_effect_twice_witness :
  exists (order : Order.t) (w1 : World),
    confirm_order Sample.quantize4 Sample.clock 100 Sample.clerk Sample.world
    = (Returned order, w1)
    /\ confirm_order Sample.quantize4 Sample.clock 100 Sample.clerk w1
       = (Raised OrderAlreadyConfirmedError, w1).
Proof.
  destruct sample_order_100_confirmed as (new & Hrun).
  eexists _, _. split; [exact Hrun|].
  refine (proj1 (no_effect_twice Sample.quantize4 Sample.clock Sample.world _
                   100 Sample.clerk Sample.clerk None None
                   (Order.confirm
                      (Sample.order 1 (Some 7) NEW true (Sample.money 240000))
                      (User.id Sample.clerk) (utcnow Sample.clock))
                   sample_clerk_access) Hrun).
Defined.
